(** * go-observability-dashboard: the request pipeline of [main.go]

    A shallow embedding of the Gin application in [main.go] (and of the
    start-up code of its file-logging variant): the package-level metric
    collectors and the in-memory item store as one [World] record, the
    [gin.Context] as a record threaded through the handler chain, and
    every handler and middleware as a function on these two.

    Library code is modelled only as far as the application observes it:
    Prometheus collectors as maps from label vectors to values, [slog]
    loggers as attribute lists in front of a sink, the OpenTelemetry span
    of a request as its span context, Gin's handler chain as its [index]
    loop.  Of Gin's router the model has the direct match of a path
    against the registered patterns; the general statements take the
    router's answer (a registered route with its parameters, or no route)
    as given. *)

From Stdlib Require Import ZArith String Ascii List Bool Lia SpecFloat DecimalString.
From stdpp Require Import base option gmap strings list.

Set Warnings "-register-all".

Local Open Scope string_scope.
Local Open Scope list_scope.
Local Open Scope Z_scope.

(** ** Go values *)

(** [float64] is IEEE 754 binary64. *)
Definition prec : Z := 53.
Definition emax : Z := 1024.
Definition float64 : Type := spec_float.

(** Conversion [float64(n)] of an integer, rounding to nearest even. *)
Definition float64_of_int (n : Z) : float64 := binary_normalize prec emax n 0 false.

Definition f64_add : float64 -> float64 -> float64 := SFadd prec emax.
Definition f64_div : float64 -> float64 -> float64 := SFdiv prec emax.
(** [x >= y] and [x != 0] on [float64]; both are false on NaN operands
    except that NaN differs from zero. *)
Definition f64_ge (x y : float64) : bool := SFleb y x.
Definition f64_is_zero (x : float64) : bool :=
  match x with S754_zero _ => true | _ => false end.

(** A Go [error] is observed through its message only. *)
Definition error : Type := string.

(** ** [strconv] and [strings] *)

Definition is_digit (a : ascii) : bool :=
  let n := N_of_ascii a in ((48 <=? n) && (n <=? 57))%N.

Definition digit_val (a : ascii) : Z := Z.of_N (N_of_ascii a) - 48.

Fixpoint all_digits (s : string) : bool :=
  match s with
  | EmptyString => true
  | String a s' => is_digit a && all_digits s'
  end.

Fixpoint digits_value (acc : Z) (s : string) : Z :=
  match s with
  | EmptyString => acc
  | String a s' => digits_value (10 * acc + digit_val a) s'
  end.

Definition int_min : Z := - 2 ^ 63.
Definition int_max : Z := 2 ^ 63 - 1.

(** [strconv.Atoi]: an optional sign, then one or more decimal digits; the
    value must fit the 64-bit [int].  [inr] is the [*NumError] (its message
    without the quoted input). *)
Definition Atoi (s : string) : Z + error :=
  let '(neg, ds) :=
    match s with
    | String "-" r => (true, r)
    | String "+" r => (false, r)
    | _ => (false, s)
    end in
  match ds with
  | EmptyString => inr ("strconv.Atoi: parsing: invalid syntax")
  | _ =>
    if all_digits ds then
      let v := if neg then - digits_value 0 ds else digits_value 0 ds in
      if ((int_min <=? v) && (v <=? int_max))%Z then inl v
      else inr ("strconv.Atoi: parsing: value out of range")
    else inr ("strconv.Atoi: parsing: invalid syntax")
  end.

(** [strconv.Itoa]. *)
Definition Itoa (n : Z) : string := NilZero.string_of_int (Z.to_int n).

(** [strings.Contains]: [substr] occurs at some offset of [s]. *)
Fixpoint Contains (s substr : string) : bool :=
  String.prefix substr s ||
  match s with
  | EmptyString => false
  | String _ s' => Contains s' substr
  end.

(** ** Data model *)

(** A decoded JSON document (a request body).  A number keeps its literal,
    which [encoding/json] hands to [strconv.ParseFloat]. *)
Inductive json : Type :=
| JNull
| JBool (b : bool)
| JNumber (lit : string)
| JString (s : string)
| JArray (l : list json)
| JObject (members : list (string * json)).

(** [type Item struct] with its [json] and [binding] tags. *)
Record Item : Type := mkItem {
  Name : string;            (* json:"name" binding:"required" *)
  Price : float64;          (* json:"price" binding:"required" *)
  IsOffer : option bool     (* json:"is_offer,omitempty" *)
}.

(** Values passed to [slog] as attributes. *)
Inductive logval : Type :=
| LString (s : string)
| LInt (n : Z)
| LFloat (f : float64)
| LError (e : error).

Inductive Level : Type := LevelInfo | LevelWarn | LevelError.

(** Where a JSON handler writes: [os.Stdout], or the
    [io.MultiWriter(os.Stdout, logFile)] of the file-logging variant. *)
Inductive Sink : Type := Stdout | StdoutAndFile.

(** A [*slog.Logger]: a JSON handler on a sink, with the attributes
    attached by [With]. *)
Record Logger : Type := mkLogger {
  sink : Sink;
  attrs : list (string * logval)
}.

Record LogRecord : Type := mkRecord {
  level : Level;
  msg : string;
  fields : list (string * logval)
}.

(** A line on standard output: a JSON record of [slog], or the access line
    Gin's own logger prints. *)
Inductive OutLine : Type :=
| JSONLine (r : LogRecord)
| AccessLine (status : Z) (method path : string).

(** [interface{}]: the dynamic values stored in the item maps, in
    [gin.Context.Keys] and handed to [c.JSON]. *)
Inductive any : Type :=
| VNil
| VBool (b : bool)
| VInt (n : Z)
| VFloat (f : float64)
| VString (s : string)
| VMap (m : gmap string any)
| VSlice (l : list (gmap string any))
| VItem (i : Item)
| VLogger (l : Logger).

(** [trace.SpanContext]: the zero identifiers are the invalid ones. *)
Record SpanContext : Type := mkSpanContext {
  TraceID : N;     (* 16 bytes *)
  SpanID : N       (* 8 bytes *)
}.

Definition noSpan : SpanContext := mkSpanContext 0 0.

Definition IsValid (sc : SpanContext) : bool :=
  negb (TraceID sc =? 0)%N && negb (SpanID sc =? 0)%N.

(** A [trace.Span]: the no-op tracer's spans do not record. *)
Record Span : Type := mkSpan {
  spanContext : SpanContext;
  recording : bool
}.

Definition noopSpan : Span := mkSpan noSpan false.

(** A span handed to the batch processor by [span.End()], with the
    [http.status_code] attribute when it was set. *)
Record EndedSpan : Type := mkEndedSpan {
  es_context : SpanContext;
  es_status : option Z
}.

(** Effects in the order they happen (a history variable: nothing reads
    it). *)
Inductive Event : Type :=
| EvCall (i : Z)                 (* the chain loop invokes handlers[i] *)
| EvReturn (i : Z)               (* handlers[i] returned *)
| EvSpanStart (sc : SpanContext)
| EvSpanEnd (sc : SpanContext)
| EvSet (key : string)
| EvNow
| EvObserve (collector : string) (labels : list string)
| EvInc (collector : string) (labels : list string)
| EvLog (l : Level) (m : string).

(** The process state: the package-level collectors and item store of
    [main.go], the output streams, the global tracer provider and the
    clock. *)
Record World : Type := mkWorld {
  httpRequestsTotal : gmap (list string) nat;             (* method, handler, status *)
  httpRequestDuration : gmap (list string) (list float64); (* method, handler *)
  itemOperationsTotal : gmap (list string) nat;           (* operation, status *)
  searchRequestsTotal : nat;
  searchResultsCount : list float64;
  fakeItemsDB : gmap Z (gmap string any);
  allItems : list (gmap string any);
  stdout : list OutLine;
  stderr : list string;
  logfile : list LogRecord;
  tracer : option (nat -> positive * positive);  (* None: the no-op provider *)
  spanSeq : nat;
  exported : list EndedSpan;
  clock : nat -> Z;                               (* nanosecond readings *)
  ticks : nat;
  history : list Event
}.

Record Request : Type := mkRequest {
  Method : string;
  URLPath : string;
  URLQuery : list (string * string);   (* in the order of the query string *)
  Body : option json                   (* None: the body is not a JSON document *)
}.

(** Gin's [responseWriter]: the status, whether the header went out, and
    the values rendered into the body (their encoding is not modelled). *)
Record responseWriter : Type := mkWriter {
  status : Z;
  written : bool;
  body : list any
}.

(** [gin.Context], without the handler chain itself ([nhandlers] is its
    length). *)
Record Context : Type := mkContext {
  request : Request;
  reqSpan : Span;               (* [trace.SpanFromContext(c.Request.Context())] *)
  Params : list (string * string);
  fullPath : string;
  Keys : gmap string any;
  index : Z;
  nhandlers : Z;
  Writer : responseWriter
}.

(** The outcome of running handler code: it returns, or it panics with the
    state reached so far. *)
Inductive Res : Type :=
| Done (c : Context) (w : World)
| Panicked (v : string) (c : Context) (w : World).

Definition HandlerFunc : Type := (Context -> World -> Res) -> Context -> World -> Res.

(** ** Field updates *)

Definition set_httpRequestsTotal (v : gmap (list string) nat) (w : World) : World :=
  mkWorld v (httpRequestDuration w) (itemOperationsTotal w) (searchRequestsTotal w)
    (searchResultsCount w) (fakeItemsDB w) (allItems w) (stdout w) (stderr w)
    (logfile w) (tracer w) (spanSeq w) (exported w) (clock w) (ticks w) (history w).

Definition set_httpRequestDuration (v : gmap (list string) (list float64)) (w : World) : World :=
  mkWorld (httpRequestsTotal w) v (itemOperationsTotal w) (searchRequestsTotal w)
    (searchResultsCount w) (fakeItemsDB w) (allItems w) (stdout w) (stderr w)
    (logfile w) (tracer w) (spanSeq w) (exported w) (clock w) (ticks w) (history w).

Definition set_itemOperationsTotal (v : gmap (list string) nat) (w : World) : World :=
  mkWorld (httpRequestsTotal w) (httpRequestDuration w) v (searchRequestsTotal w)
    (searchResultsCount w) (fakeItemsDB w) (allItems w) (stdout w) (stderr w)
    (logfile w) (tracer w) (spanSeq w) (exported w) (clock w) (ticks w) (history w).

Definition set_searchRequestsTotal (v : nat) (w : World) : World :=
  mkWorld (httpRequestsTotal w) (httpRequestDuration w) (itemOperationsTotal w) v
    (searchResultsCount w) (fakeItemsDB w) (allItems w) (stdout w) (stderr w)
    (logfile w) (tracer w) (spanSeq w) (exported w) (clock w) (ticks w) (history w).

Definition set_searchResultsCount (v : list float64) (w : World) : World :=
  mkWorld (httpRequestsTotal w) (httpRequestDuration w) (itemOperationsTotal w)
    (searchRequestsTotal w) v (fakeItemsDB w) (allItems w) (stdout w) (stderr w)
    (logfile w) (tracer w) (spanSeq w) (exported w) (clock w) (ticks w) (history w).

Definition set_stdout (v : list OutLine) (w : World) : World :=
  mkWorld (httpRequestsTotal w) (httpRequestDuration w) (itemOperationsTotal w)
    (searchRequestsTotal w) (searchResultsCount w) (fakeItemsDB w) (allItems w) v
    (stderr w) (logfile w) (tracer w) (spanSeq w) (exported w) (clock w) (ticks w)
    (history w).

Definition set_stderr (v : list string) (w : World) : World :=
  mkWorld (httpRequestsTotal w) (httpRequestDuration w) (itemOperationsTotal w)
    (searchRequestsTotal w) (searchResultsCount w) (fakeItemsDB w) (allItems w)
    (stdout w) v (logfile w) (tracer w) (spanSeq w) (exported w) (clock w) (ticks w)
    (history w).

Definition set_logfile (v : list LogRecord) (w : World) : World :=
  mkWorld (httpRequestsTotal w) (httpRequestDuration w) (itemOperationsTotal w)
    (searchRequestsTotal w) (searchResultsCount w) (fakeItemsDB w) (allItems w)
    (stdout w) (stderr w) v (tracer w) (spanSeq w) (exported w) (clock w) (ticks w)
    (history w).

Definition set_tracer (v : option (nat -> positive * positive)) (w : World) : World :=
  mkWorld (httpRequestsTotal w) (httpRequestDuration w) (itemOperationsTotal w)
    (searchRequestsTotal w) (searchResultsCount w) (fakeItemsDB w) (allItems w)
    (stdout w) (stderr w) (logfile w) v (spanSeq w) (exported w) (clock w) (ticks w)
    (history w).

Definition set_spanSeq (v : nat) (w : World) : World :=
  mkWorld (httpRequestsTotal w) (httpRequestDuration w) (itemOperationsTotal w)
    (searchRequestsTotal w) (searchResultsCount w) (fakeItemsDB w) (allItems w)
    (stdout w) (stderr w) (logfile w) (tracer w) v (exported w) (clock w) (ticks w)
    (history w).

Definition set_exported (v : list EndedSpan) (w : World) : World :=
  mkWorld (httpRequestsTotal w) (httpRequestDuration w) (itemOperationsTotal w)
    (searchRequestsTotal w) (searchResultsCount w) (fakeItemsDB w) (allItems w)
    (stdout w) (stderr w) (logfile w) (tracer w) (spanSeq w) v (clock w) (ticks w)
    (history w).

Definition set_ticks (v : nat) (w : World) : World :=
  mkWorld (httpRequestsTotal w) (httpRequestDuration w) (itemOperationsTotal w)
    (searchRequestsTotal w) (searchResultsCount w) (fakeItemsDB w) (allItems w)
    (stdout w) (stderr w) (logfile w) (tracer w) (spanSeq w) (exported w) (clock w) v
    (history w).

Definition set_history (v : list Event) (w : World) : World :=
  mkWorld (httpRequestsTotal w) (httpRequestDuration w) (itemOperationsTotal w)
    (searchRequestsTotal w) (searchResultsCount w) (fakeItemsDB w) (allItems w)
    (stdout w) (stderr w) (logfile w) (tracer w) (spanSeq w) (exported w) (clock w)
    (ticks w) v.

Definition set_reqSpan (v : Span) (c : Context) : Context :=
  mkContext (request c) v (Params c) (fullPath c) (Keys c) (index c) (nhandlers c) (Writer c).

Definition set_Keys (v : gmap string any) (c : Context) : Context :=
  mkContext (request c) (reqSpan c) (Params c) (fullPath c) v (index c) (nhandlers c) (Writer c).

Definition set_index (v : Z) (c : Context) : Context :=
  mkContext (request c) (reqSpan c) (Params c) (fullPath c) (Keys c) v (nhandlers c) (Writer c).

Definition set_Writer (v : responseWriter) (c : Context) : Context :=
  mkContext (request c) (reqSpan c) (Params c) (fullPath c) (Keys c) (index c) (nhandlers c) v.

Definition emit (ev : Event) (w : World) : World := set_history (history w ++ [ev]) w.

(** ** The libraries, as the application uses them *)

(** A counter is kept as its number of increments, a histogram as the
    list of its observations (buckets, sum and count follow from it); a
    vector maps the label values to its children. *)
Module prometheus.

(** A counter child that was never touched reads 0. *)
Definition value (m : gmap (list string) nat) (lvs : list string) : nat :=
  default 0%nat (m !! lvs).

Definition observations (m : gmap (list string) (list float64)) (lvs : list string)
  : list float64 := default [] (m !! lvs).

(** [vec.WithLabelValues(lvs...).Inc()] *)
Definition Inc (m : gmap (list string) nat) (lvs : list string) : gmap (list string) nat :=
  <[lvs := S (value m lvs)]> m.

(** [vec.WithLabelValues(lvs...).Observe(v)] *)
Definition Observe (m : gmap (list string) (list float64)) (lvs : list string) (v : float64)
  : gmap (list string) (list float64) :=
  <[lvs := observations m lvs ++ [v]]> m.

End prometheus.

Module time.

Definition Second : Z := 1000000000.

(** [time.Now()], as a monotonic reading in nanoseconds. *)
Definition Now (w : World) : Z * World :=
  (clock w (ticks w), emit EvNow (set_ticks (S (ticks w)) w)).

(** [time.Since(start)] *)
Definition Since (start : Z) (w : World) : Z * World :=
  let '(t, w) := Now w in (t - start, w).

(** [Duration.Seconds()]: [float64(d / Second) + float64(d % Second) / 1e9],
    with Go's truncated division. *)
Definition Seconds (d : Z) : float64 :=
  f64_add (float64_of_int (Z.quot d Second))
          (f64_div (float64_of_int (Z.rem d Second)) (float64_of_int Second)).

End time.

Module slog.

(** [logger.With(args...)] *)
Definition With (l : Logger) (args : list (string * logval)) : Logger :=
  mkLogger (sink l) (attrs l ++ args).

(** One record through the JSON handler: the logger's attributes, then
    the call's.  All three levels are at or above the handler's
    [LevelInfo]. *)
Definition log (l : Logger) (lv : Level) (m : string) (args : list (string * logval))
    (w : World) : World :=
  let r := mkRecord lv m (attrs l ++ args) in
  let w := set_stdout (stdout w ++ [JSONLine r]) w in
  let w := match sink l with
           | Stdout => w
           | StdoutAndFile => set_logfile (logfile w ++ [r]) w
           end in
  emit (EvLog lv m) w.

Definition Info := fun l => log l LevelInfo.
Definition Warn := fun l => log l LevelWarn.
Definition Error := fun l => log l LevelError.

(** [slog.New(slog.NewJSONHandler(os.Stdout, nil))] *)
Definition default_logger : Logger := mkLogger Stdout [].

End slog.

Module trace.

Definition hex_digit (n : N) : ascii :=
  ascii_of_N (if (n <? 10)%N then 48 + n else 87 + n).

Fixpoint hex_fixed (k : nat) (n : N) (acc : string) : string :=
  match k with
  | O => acc
  | S k' => hex_fixed k' (n / 16)%N (String (hex_digit (n mod 16)%N) acc)
  end.

(** [TraceID.String()] and [SpanID.String()]: lower-case hex of the 16
    and of the 8 bytes. *)
Definition TraceID_String (sc : SpanContext) : string := hex_fixed 32 (TraceID sc) "".
Definition SpanID_String (sc : SpanContext) : string := hex_fixed 16 (SpanID sc) "".

(** [tracer.Start] under the global provider: a child of a valid parent
    keeps its trace identifier, otherwise a root span gets fresh
    identifiers; the no-op provider hands back the parent's context. *)
Definition Start (parent : Span) (w : World) : Span * World :=
  let psc := spanContext parent in
  match tracer w with
  | None => (mkSpan psc false, w)
  | Some gen =>
    let '(t, s) := gen (spanSeq w) in
    let sc := mkSpanContext (if IsValid psc then TraceID psc else Npos t) (Npos s) in
    (mkSpan sc true, emit (EvSpanStart sc) (set_spanSeq (S (spanSeq w)) w))
  end.

(** [span.End()]: a recording span goes to the batch processor. *)
Definition End (sp : Span) (st : option Z) (w : World) : World :=
  if recording sp
  then emit (EvSpanEnd (spanContext sp))
            (set_exported (exported w ++ [mkEndedSpan (spanContext sp) st]) w)
  else w.

End trace.

Fixpoint assoc {A : Type} (key : string) (l : list (string * A)) : option A :=
  match l with
  | [] => None
  | (k, v) :: l' => if String.eqb k key then Some v else assoc key l'
  end.

Definition bind (r : Res) (k : Context -> World -> Res) : Res :=
  match r with
  | Done c w => k c w
  | Panicked v c w => Panicked v c w
  end.

Module gin.

Definition abortIndex : Z := 63.

(** [c.Set(key, value)] *)
Definition Set_ (key : string) (v : any) (c : Context) (w : World) : Context * World :=
  (set_Keys (<[key := v]> (Keys c)) c, emit (EvSet key) w).

(** [c.Get(key)] *)
Definition Get (key : string) (c : Context) : option any := Keys c !! key.

(** [c.Param(key)] *)
Definition Param (key : string) (c : Context) : string :=
  default "" (assoc key (Params c)).

(** [c.Query(key)] and [c.DefaultQuery(key, d)]: the first value of the
    key. *)
Definition Query (key : string) (c : Context) : string :=
  default "" (assoc key (URLQuery (request c))).

Definition DefaultQuery (key d : string) (c : Context) : string :=
  default d (assoc key (URLQuery (request c))).

Definition FullPath (c : Context) : string := fullPath c.

Definition WriteHeader (code : Z) (rw : responseWriter) : responseWriter :=
  if (0 <? code) && negb (status rw =? code) then
    if written rw then rw else mkWriter code (written rw) (body rw)
  else rw.

Definition WriteHeaderNow (rw : responseWriter) : responseWriter :=
  mkWriter (status rw) true (body rw).

Definition bodyAllowedForStatus (code : Z) : bool :=
  negb (((100 <=? code) && (code <=? 199)) || (code =? 204) || (code =? 304)).

(** [c.JSON(code, obj)] *)
Definition JSON (code : Z) (obj : any) (c : Context) : Context :=
  let rw := WriteHeaderNow (WriteHeader code (Writer c)) in
  set_Writer (if bodyAllowedForStatus code
              then mkWriter (status rw) (written rw) (body rw ++ [obj])
              else rw) c.

(** [c.AbortWithStatus(code)] *)
Definition AbortWithStatus (code : Z) (c : Context) : Context :=
  set_index abortIndex (set_Writer (WriteHeaderNow (WriteHeader code (Writer c))) c).

(** The loop of [c.Next()]: [hs] are the handlers from position
    [index c] on.  A handler gets the [c.Next] of its own position. *)
Fixpoint loop (hs : list HandlerFunc) (c : Context) (w : World) : Res :=
  match hs with
  | [] => Done c w
  | h :: rest =>
    if index c <? nhandlers c then
      let i := index c in
      bind (h (fun c' w' => loop rest (set_index (index c' + 1) c') w') c (emit (EvCall i) w))
           (fun c1 w1 => loop rest (set_index (index c1 + 1) c1) (emit (EvReturn i) w1))
    else Done c w
  end.

(** [c.Next()] from a context whose next handlers are [hs]. *)
Definition Next (hs : list HandlerFunc) (c : Context) (w : World) : Res :=
  loop hs (set_index (index c + 1) c) w.

(** [gin.Logger()] *)
Definition Logger : HandlerFunc := fun next c w =>
  let '(_, w) := time.Now w in
  bind (next c w) (fun c w =>
    let '(_, w) := time.Now w in
    Done c (set_stdout (stdout w ++
              [AccessLine (status (Writer c)) (Method (request c)) (URLPath (request c))]) w)).

(** [gin.Recovery()] *)
Definition Recovery : HandlerFunc := fun next c w =>
  match next c w with
  | Done c w => Done c w
  | Panicked _ c w => Done (AbortWithStatus 500 c) w
  end.

(** A registered route with the chain captured at registration: the
    group's middleware at that moment, then the handler. *)
Record RouteEntry : Type := mkRoute {
  r_method : string;
  r_path : string;
  r_handlers : list HandlerFunc
}.

Record Engine : Type := mkEngine {
  Handlers : list HandlerFunc;      (* RouterGroup.Handlers *)
  allNoRoute : list HandlerFunc;
  trees : list RouteEntry
}.

Definition New : Engine := mkEngine [] [] [].

(** [router.Use(m)]; no [NoRoute] handler is ever installed, so the
    rebuilt 404 chain is the middleware alone. *)
Definition Use (m : HandlerFunc) (e : Engine) : Engine :=
  mkEngine (Handlers e ++ [m]) (Handlers e ++ [m]) (trees e).

(** [gin.Default()] *)
Definition Default : Engine := Use Recovery (Use Logger New).

Definition Handle (method path : string) (h : HandlerFunc) (e : Engine) : Engine :=
  mkEngine (Handlers e) (allNoRoute e)
           (trees e ++ [mkRoute method path (Handlers e ++ [h])]).

Definition GET := Handle "GET".
Definition POST := Handle "POST".

(** The segments of a path between its slashes. *)
Fixpoint split_slash (s : string) (cur : string) : list string :=
  match s with
  | EmptyString => [cur]
  | String "/" r => cur :: split_slash r EmptyString
  | String a r => split_slash r (cur +:+ String a EmptyString)
  end.

(** A pattern segment [:name] takes any non-empty segment. *)
Fixpoint match_segments (pat segs : list string) : option (list (string * string)) :=
  match pat, segs with
  | [], [] => Some []
  | p :: pat', sg :: segs' =>
    match p with
    | String ":" name =>
      if String.eqb sg EmptyString then None
      else option_map (cons (name, sg)) (match_segments pat' segs')
    | _ => if String.eqb p sg then match_segments pat' segs' else None
    end
  | _, _ => None
  end.

(** The router's lookup, for a path that matches a registered pattern. *)
Fixpoint getValue (rs : list RouteEntry) (method path : string)
  : option (RouteEntry * list (string * string)) :=
  match rs with
  | [] => None
  | r :: rs' =>
    if String.eqb (r_method r) method then
      match match_segments (split_slash (r_path r) EmptyString) (split_slash path EmptyString) with
      | Some ps => Some (r, ps)
      | None => getValue rs' method path
      end
    else getValue rs' method path
  end.

(** A context as the engine resets it for a request. *)
Definition reset (req : Request) (ps : list (string * string)) (fp : string) (n : nat)
    (st : Z) : Context :=
  mkContext req noopSpan ps fp ∅ (-1) (Z.of_nat n) (mkWriter st false []).

Definition default404Body : any := VString "404 page not found".

(** [engine.handleHTTPRequest(c)], given the lookup's answer: the chain
    of the matched route, or [serveError] with the 404 chain. *)
Definition handleHTTPRequest (e : Engine)
    (value : option (RouteEntry * list (string * string))) (req : Request) (w : World) : Res :=
  match value with
  | Some (r, ps) =>
    let c := reset req ps (r_path r) (length (r_handlers r)) 200 in
    bind (Next (r_handlers r) c w)
         (fun c w => Done (set_Writer (WriteHeaderNow (Writer c)) c) w)
  | None =>
    let c := reset req [] EmptyString (length (allNoRoute e)) 404 in
    bind (Next (allNoRoute e) c w)
         (fun c w =>
            if written (Writer c) then Done c w
            else if status (Writer c) =? 404 then
              Done (set_Writer (mkWriter 404 true (body (Writer c) ++ [default404Body])) c) w
            else Done (set_Writer (WriteHeaderNow (Writer c)) c) w)
  end.

(** [engine.ServeHTTP].  A path that matches no pattern gets the 404
    chain; Gin's redirect between a path and its form with or without
    the trailing slash is not modelled. *)
Definition ServeHTTP (e : Engine) (req : Request) (w : World) : Res :=
  handleHTTPRequest e (getValue (trees e) (Method req) (URLPath req)) req w.

End gin.

Module otelgin.

(** [otelgin.Middleware(service)]: the span is ended by a [defer], the
    status attribute is set only on a normal return. *)
Definition Middleware : HandlerFunc := fun next c w =>
  let savedCtx := reqSpan c in
  let '(span, w) := trace.Start savedCtx w in
  match next (set_reqSpan span c) w with
  | Done c w =>
    let st := status (Writer c) in
    Done (set_reqSpan savedCtx c) (trace.End span (if 0 <? st then Some st else None) w)
  | Panicked v c w =>
    Panicked v (set_reqSpan savedCtx c) (trace.End span None w)
  end.

End otelgin.

(** ** The Go standard library functions left open

    [strconv.ParseFloat(s, 64)] and [strings.ToLower] are taken as they
    come: every statement below holds for any behaviour of the two, and a
    scenario names the facts about them it relies on. *)
Class GoLib : Type := {
  ParseFloat : string -> float64 * option error;
  ToLower : string -> string
}.

(** ** [encoding/json] into [Item], and the [binding:"required"] check *)

Definition upper (a : ascii) : ascii :=
  let n := N_of_ascii a in
  if ((97 <=? n) && (n <=? 122))%N then ascii_of_N (n - 32) else a.

(** The case folding [encoding/json] matches object keys with: ASCII
    letters to upper case, and the two runes that fold onto ASCII letters
    (U+017F onto S, U+212A onto K). *)
Fixpoint foldName (s : string) : string :=
  match s with
  | EmptyString => EmptyString
  | String "197" (String "191" r) => String "S" (foldName r)
  | String "226" (String "132" (String "170" r)) => String "K" (foldName r)
  | String a r => String (upper a) (foldName r)
  end.

Inductive ItemField : Type := FName | FPrice | FIsOffer.

Definition field_of_key (key : string) : option ItemField :=
  let k := foldName key in
  if String.eqb k (foldName "name") then Some FName
  else if String.eqb k (foldName "price") then Some FPrice
  else if String.eqb k (foldName "is_offer") then Some FIsOffer
  else None.

(** The decoder keeps the first type error and goes on. *)
Definition saveError (e : error) (err : option error) : option error :=
  match err with
  | Some _ => err
  | None => Some e
  end.

Section App.

Context `{GoLib}.

Definition decode_member (key : string) (v : json) (st : Item * option error)
  : Item * option error :=
  let '(it, err) := st in
  match field_of_key key with
  | None => st
  | Some FName =>
    match v with
    | JString s => (mkItem s (Price it) (IsOffer it), err)
    | JNull => st
    | _ => (it, saveError "json: cannot unmarshal into Go struct field Item.name of type string" err)
    end
  | Some FPrice =>
    match v with
    | JNumber lit =>
      match ParseFloat lit with
      | (f, None) => (mkItem (Name it) f (IsOffer it), err)
      | (_, Some _) =>
        (it, saveError "json: cannot unmarshal number into Go struct field Item.price of type float64" err)
      end
    | JNull => st
    | _ => (it, saveError "json: cannot unmarshal into Go struct field Item.price of type float64" err)
    end
  | Some FIsOffer =>
    match v with
    | JBool b => (mkItem (Name it) (Price it) (Some b), err)
    | JNull => (mkItem (Name it) (Price it) None, err)
    | _ => (it, saveError "json: cannot unmarshal into Go struct field Item.is_offer of type bool" err)
    end
  end.

(** [decoder.Decode(&item)] on a zero [Item]. *)
Definition decodeJSON (doc : option json) : Item * option error :=
  let zero := mkItem "" (S754_zero false) None in
  match doc with
  | None => (zero, Some "invalid character looking for beginning of value")
  | Some JNull => (zero, None)
  | Some (JObject members) =>
    fold_left (fun st kv => decode_member (fst kv) (snd kv) st) members (zero, None)
  | Some _ => (zero, Some "json: cannot unmarshal into Go value of type main.Item")
  end.

(** The validator's [required]: the field must differ from its zero
    value. *)
Definition validate (it : Item) : option error :=
  let e1 := if String.eqb (Name it) "" then
              ["Key: 'Item.Name' Error:Field validation for 'Name' failed on the 'required' tag"]
            else [] in
  let e2 := if f64_is_zero (Price it) then
              ["Key: 'Item.Price' Error:Field validation for 'Price' failed on the 'required' tag"]
            else [] in
  match e1 ++ e2 with
  | [] => None
  | es => Some (String.concat (String "010" EmptyString) es)
  end.

(** [c.ShouldBindJSON(&item)] *)
Definition ShouldBindJSON (c : Context) : Item + error :=
  match decodeJSON (Body (request c)) with
  | (_, Some e) => inr e
  | (it, None) =>
    match validate it with
    | Some e => inr e
    | None => inl it
    end
  end.

(** *** Collector operations of [main.go] *)

Definition httpRequestDuration_Observe (lvs : list string) (v : float64) (w : World) : World :=
  emit (EvObserve "http_request_duration_seconds" lvs)
       (set_httpRequestDuration (prometheus.Observe (httpRequestDuration w) lvs v) w).

Definition httpRequestsTotal_Inc (lvs : list string) (w : World) : World :=
  emit (EvInc "http_requests_total" lvs)
       (set_httpRequestsTotal (prometheus.Inc (httpRequestsTotal w) lvs) w).

Definition itemOperationsTotal_Inc (lvs : list string) (w : World) : World :=
  emit (EvInc "item_operations_total" lvs)
       (set_itemOperationsTotal (prometheus.Inc (itemOperationsTotal w) lvs) w).

Definition searchRequestsTotal_Inc (w : World) : World :=
  emit (EvInc "search_requests_total" [])
       (set_searchRequestsTotal (S (searchRequestsTotal w)) w).

Definition searchResultsCount_Observe (v : float64) (w : World) : World :=
  emit (EvObserve "search_results_count" [])
       (set_searchResultsCount (searchResultsCount w ++ [v]) w).

(** [gin.H{...}] *)
Definition H_ (l : list (string * any)) : any := VMap (list_to_map l).

(** *** Middleware *)

Definition structuredLogMiddleware (logger : Logger) : HandlerFunc := fun next c w =>
  let requestLogger := logger in
  let span := reqSpan c in
  let requestLogger :=
    if IsValid (spanContext span) then
      slog.With logger
        [("trace_id", LString (trace.TraceID_String (spanContext span)));
         ("span_id", LString (trace.SpanID_String (spanContext span)))]
    else requestLogger in
  let '(c, w) := gin.Set_ "logger" (VLogger requestLogger) c w in
  next c w.

Definition prometheusMiddleware : HandlerFunc := fun next c w =>
  let '(start, w) := time.Now w in
  bind (next c w) (fun c w =>
    let '(d, w) := time.Since start w in
    let duration := time.Seconds d in
    let status := Itoa (status (Writer c)) in
    let path := gin.FullPath c in
    let path := if String.eqb path "" then "none" else path in
    let w := httpRequestDuration_Observe [Method (request c); path] duration w in
    let w := httpRequestsTotal_Inc [Method (request c); path; status] w in
    Done c w).

(** *** Handlers *)

(** The type assertion panics on a value that is not a [*slog.Logger]. *)
Definition getLogger (c : Context) : Logger + string :=
  match gin.Get "logger" c with
  | None => inl slog.default_logger
  | Some (VLogger l) => inl l
  | Some _ => inr "interface conversion: interface {} is not *slog.Logger"
  end.

Definition with_logger (c : Context) (w : World) (k : Logger -> Res) : Res :=
  match getLogger c with
  | inl logger => k logger
  | inr p => Panicked p c w
  end.

Definition readRoot : HandlerFunc := fun _ c w =>
  with_logger c w (fun logger =>
    let w := slog.Info logger "Accessed root endpoint" [] w in
    Done (gin.JSON 200 (H_ [("message", VString "Welcome to the Go application!")]) c) w).

Definition readItem : HandlerFunc := fun _ c w =>
  with_logger c w (fun logger =>
    let itemIDStr := gin.Param "item_id" c in
    match Atoi itemIDStr with
    | inr err =>
      let w := slog.Warn logger "Invalid item ID"
                 [("item_id", LString itemIDStr); ("error", LError err)] w in
      let w := itemOperationsTotal_Inc ["read"; "bad_request"] w in
      Done (gin.JSON 400 (H_ [("detail", VString "Invalid item ID")]) c) w
    | inl itemID =>
      match fakeItemsDB w !! itemID with
      | None =>
        let w := slog.Info logger "Item not found" [("item_id", LInt itemID)] w in
        let w := itemOperationsTotal_Inc ["read"; "not_found"] w in
        Done (gin.JSON 404 (H_ [("detail", VString "Item not found")]) c) w
      | Some item =>
        (* response[k] = v for every entry of item, over {"item_id": itemID} *)
        let response : gmap string any := item ∪ {[ "item_id" := VInt itemID ]} in
        let w := slog.Info logger "Successfully retrieved item" [("item_id", LInt itemID)] w in
        let w := itemOperationsTotal_Inc ["read"; "success"] w in
        Done (gin.JSON 200 (VMap response) c) w
      end
    end).

Definition nameMatch (name itemName : string) : bool :=
  String.eqb name "" || Contains (ToLower itemName) (ToLower name).

(** The loop over [allItems]; the two type assertions panic on an item
    without a string name or a [float64] price. *)
Fixpoint search_loop (name : string) (minPrice : float64)
    (items results : list (gmap string any)) : list (gmap string any) + string :=
  match items with
  | [] => inl results
  | item :: rest =>
    match item !! "name" with
    | Some (VString itemName) =>
      match item !! "price" with
      | Some (VFloat itemPrice) =>
        let priceMatch := f64_ge itemPrice minPrice in
        search_loop name minPrice rest
          (if nameMatch name itemName && priceMatch then results ++ [item] else results)
      | _ => inr "interface conversion: interface {} is not float64"
      end
    | _ => inr "interface conversion: interface {} is not string"
    end
  end.

Definition searchItems : HandlerFunc := fun _ c w =>
  with_logger c w (fun logger =>
    let w := searchRequestsTotal_Inc w in
    let name := gin.Query "name" c in
    let minPriceStr := gin.DefaultQuery "min_price" "0" c in
    let '(minPrice, err) := ParseFloat minPriceStr in
    let '(minPrice, w) :=
      match err with
      | Some e =>
        (S754_zero false,
         slog.Warn logger "Invalid min_price query param"
           [("min_price", LString minPriceStr); ("error", LError e)] w)
      | None => (minPrice, w)
      end in
    match search_loop name minPrice (allItems w) [] with
    | inr p => Panicked p c w
    | inl results =>
      let n := Z.of_nat (length results) in
      let w := searchResultsCount_Observe (float64_of_int n) w in
      let w := slog.Info logger "Search performed"
                 [("query_name", LString name); ("min_price", LFloat minPrice);
                  ("results_found", LInt n)] w in
      Done (gin.JSON 200 (H_ [("search_results", VSlice results)]) c) w
    end).

Definition createItem : HandlerFunc := fun _ c w =>
  with_logger c w (fun logger =>
    match ShouldBindJSON c with
    | inr err =>
      let w := slog.Warn logger "Failed to bind JSON for create item"
                 [("error", LString err)] w in
      let w := itemOperationsTotal_Inc ["create"; "bad_request"] w in
      Done (gin.JSON 400 (H_ [("detail", VString err)]) c) w
    | inl item =>
      let w := slog.Info logger "Item created successfully"
                 [("item_name", LString (Name item)); ("item_price", LFloat (Price item))] w in
      let w := itemOperationsTotal_Inc ["create"; "success"] w in
      Done (gin.JSON 200 (H_ [("message", VString "Item created successfully");
                              ("item", VItem item)]) c) w
    end).

Definition getStatus : HandlerFunc := fun _ c w =>
  with_logger c w (fun logger =>
    let w := slog.Info logger "Health check performed" [] w in
    Done (gin.JSON 200 (H_ [("status", VString "healthy"); ("version", VString "1.0")]) c) w).

Definition getError500 : HandlerFunc := fun _ c w =>
  with_logger c w (fun logger =>
    let w := slog.Error logger "Simulating 500 Internal Server Error" [] w in
    Done (gin.JSON 500 (H_ [("detail", VString "Internal Server Error")]) c) w).

Definition getError400 : HandlerFunc := fun _ c w =>
  with_logger c w (fun logger =>
    let w := slog.Warn logger "Simulating 400 Bad Request" [] w in
    Done (gin.JSON 400 (H_ [("detail", VString "Bad Request")]) c) w).

(** [gin.WrapH(promhttp.Handler())]: answers 200 with the exposition
    text, which is not modelled. *)
Definition metricsHandler : HandlerFunc := fun _ c w =>
  Done (set_Writer (gin.WriteHeaderNow (Writer c)) c) w.

End App.

(** ** The program *)

(** [var fakeItemsDB] and [var allItems], as initialised. *)
Definition item_of (name : string) (price : Z) : gmap string any :=
  list_to_map [("name", VString name); ("price", VFloat (float64_of_int price))].

Definition fakeItemsDB_init : gmap Z (gmap string any) :=
  list_to_map [(1, item_of "laptop" 1200); (2, item_of "mouse" 25); (3, item_of "keyboard" 75)].

Definition allItems_init : list (gmap string any) :=
  [item_of "laptop" 1200; item_of "mouse" 25; item_of "keyboard" 75;
   item_of "monitor" 300; item_of "webcam" 50].

(** The process at start: collectors registered and empty, the store
    initialised, no tracer provider installed. *)
Definition World_init (clk : nat -> Z) : World :=
  mkWorld ∅ ∅ ∅ 0%nat [] fakeItemsDB_init allItems_init [] [] [] None 0%nat [] clk 0%nat [].

(** What the start-up code finds outside the process. *)
Record Env : Type := mkEnv {
  mkdirAll : option error;        (* os.MkdirAll("/app/logs", 0755) *)
  openFile : option error;        (* os.OpenFile("/app/logs/app.log", ...) *)
  dial : option error;            (* grpc.DialContext *)
  newExporter : option error;     (* otlptracegrpc.New *)
  newResource : option error;     (* resource.New *)
  idgen : nat -> positive * positive;
  listen : option error           (* router.Run: None while it serves *)
}.

(** [main] ends in [os.Exit], or stays in [router.Run] serving with the
    router it built. *)
Inductive Outcome : Type :=
| Exited (code : Z) (w : World)
| Serving (router : gin.Engine) (w : World).

Section Program.

Context `{GoLib}.

Definition initTracer (env : Env) (w : World) : option error * World :=
  match dial env with
  | Some e => (Some ("failed to create gRPC connection: " +:+ e), w)
  | None =>
    match newExporter env with
    | Some e => (Some ("failed to create OTLP exporter: " +:+ e), w)
    | None =>
      match newResource env with
      | Some e => (Some ("failed to create resource: " +:+ e), w)
      | None => (None, set_tracer (Some (idgen env)) w)   (* otel.SetTracerProvider(tp) *)
      end
    end
  end.

(** The router [main] builds, from [gin.Default()] to the last route. *)
Definition build_router (logger : Logger) : gin.Engine :=
  let router := gin.Default in
  let router := gin.Use otelgin.Middleware router in
  let router := gin.Use (structuredLogMiddleware logger) router in
  let router := gin.Use prometheusMiddleware router in
  let router := gin.GET "/metrics" metricsHandler router in
  let router := gin.GET "/" readRoot router in
  let router := gin.GET "/items/:item_id" readItem router in
  let router := gin.GET "/search/" searchItems router in
  let router := gin.POST "/items/" createItem router in
  let router := gin.GET "/status" getStatus router in
  let router := gin.GET "/error-500" getError500 router in
  let router := gin.GET "/error-400" getError400 router in
  router.

(** The rest of [main] once the base logger exists. *)
Definition main_with (logger : Logger) (env : Env) (w : World) : Outcome :=
  let '(err, w) := initTracer env w in
  let w := match err with
           | Some e => slog.Error logger "Failed to initialize tracer" [("error", LError e)] w
           | None => slog.Info logger "Tracer initialized successfully" [] w
           end in
  let router := build_router logger in
  let w := slog.Info logger "Starting server on port 5060..." [] w in
  match listen env with
  | Some e =>
    Exited 1 (slog.Error logger "Failed to start server" [("error", LError e)] w)
  | None => Serving router w
  end.

End Program.

(** [main.go]: the logger writes to standard output only. *)
Module main_go.
Section S.
Context `{GoLib}.

Definition newSlogLogger : Logger := mkLogger Stdout [].

Definition main (env : Env) (w : World) : Outcome :=
  let logger := newSlogLogger in
  main_with logger env w.

End S.
End main_go.

(** The variant that also appends its records to [/app/logs/app.log]. *)
Module main_file.
Section S.
Context `{GoLib}.

Definition newSlogLogger (env : Env) : Logger + error :=
  match mkdirAll env with
  | Some e => inr ("failed to create logs directory: " +:+ e)
  | None =>
    match openFile env with
    | Some e => inr ("failed to open log file: " +:+ e)
    | None => inl (mkLogger StdoutAndFile [])
    end
  end.

Definition main (env : Env) (w : World) : Outcome :=
  match newSlogLogger env with
  | inr err => Exited 1 (set_stderr (stderr w ++ ["Failed to initialize logger: " +:+ err]) w)
  | inl logger => main_with logger env w
  end.

End S.
End main_file.

(** ** An executable instance for running scenarios

    [ParseFloat] on unsigned decimal integers (exact below 2^53, rounded to
    nearest even above) and [ToLower] on ASCII letters; both agree with Go
    on the inputs they accept. *)
Definition lower (a : ascii) : ascii :=
  let n := N_of_ascii a in
  if ((65 <=? n) && (n <=? 90))%N then ascii_of_N (n + 32) else a.

Fixpoint ToLower_ascii (s : string) : string :=
  match s with
  | EmptyString => EmptyString
  | String a r => String (lower a) (ToLower_ascii r)
  end.

Definition ParseFloat_digits (s : string) : float64 * option error :=
  match s with
  | EmptyString => (S754_zero false, Some "strconv.ParseFloat: parsing: invalid syntax")
  | _ =>
    if all_digits s then (float64_of_int (digits_value 0 s), None)
    else (S754_zero false, Some "strconv.ParseFloat: parsing: invalid syntax")
  end.

Definition scenario_lib : GoLib :=
  {| ParseFloat := ParseFloat_digits; ToLower := ToLower_ascii |}.

(** * The vocabulary of the statements *)

(** What a business handler does besides answering: it logs through the
    logger it got from the context and touches the three domain
    collectors. *)
Inductive DomainOp : Type :=
| OpLog (lv : Level) (m : string) (args : list (string * logval))
| OpItemInc (lvs : list string)
| OpSearchInc
| OpSearchObserve (v : float64).

(** Its one answer: [c.JSON(code, obj)], or the raw write of the metrics
    endpoint. *)
Inductive Reply : Type :=
| ReplyJSON (code : Z) (obj : any)
| ReplyRaw.

Definition run_op (L : Logger) (w : World) (op : DomainOp) : World :=
  match op with
  | OpLog lv m args => slog.log L lv m args w
  | OpItemInc lvs => itemOperationsTotal_Inc lvs w
  | OpSearchInc => searchRequestsTotal_Inc w
  | OpSearchObserve v => searchResultsCount_Observe v w
  end.

Definition run_ops (L : Logger) (ops : list DomainOp) (w : World) : World :=
  fold_left (run_op L) ops w.

Definition apply_reply (rp : Reply) (c : Context) : Context :=
  match rp with
  | ReplyJSON code obj => gin.JSON code obj c
  | ReplyRaw => set_Writer (gin.WriteHeaderNow (Writer c)) c
  end.

Definition op_event (op : DomainOp) : Event :=
  match op with
  | OpLog lv m _ => EvLog lv m
  | OpItemInc lvs => EvInc "item_operations_total" lvs
  | OpSearchInc => EvInc "search_requests_total" []
  | OpSearchObserve _ => EvObserve "search_results_count" []
  end.

(** The records the operations write through the logger [L]. *)
Fixpoint op_records (L : Logger) (ops : list DomainOp) : list LogRecord :=
  match ops with
  | [] => []
  | OpLog lv m args :: ops' => mkRecord lv m (attrs L ++ args) :: op_records L ops'
  | _ :: ops' => op_records L ops'
  end.

Definition file_records (L : Logger) (ops : list DomainOp) : list LogRecord :=
  match sink L with
  | Stdout => []
  | StdoutAndFile => op_records L ops
  end.

(** An item the two type assertions of [searchItems] accept. *)
Definition item_typed (item : gmap string any) : Prop :=
  (exists s, item !! "name" = Some (VString s)) /\
  (exists f, item !! "price" = Some (VFloat f)).

(** A handler that, given a bound logger and a well-typed item list,
    returns after some domain operations and one reply. *)
Definition handler_ok (h : HandlerFunc) : Prop :=
  forall next c w L,
    Keys c !! "logger" = Some (VLogger L) ->
    Forall item_typed (allItems w) ->
    exists ops rp, h next c w = Done (apply_reply rp c) (run_ops L ops w).

(** The span [otelgin] starts for a request arriving in [w], and the
    logger [structuredLogMiddleware] derives from it. *)
Definition request_span (w : World) : Span := fst (trace.Start noopSpan w).

Definition request_logger (logger : Logger) (sp : Span) : Logger :=
  if IsValid (spanContext sp) then
    slog.With logger
      [("trace_id", LString (trace.TraceID_String (spanContext sp)));
       ("span_id", LString (trace.SpanID_String (spanContext sp)))]
  else logger.

(** The label [prometheusMiddleware] files a request under. *)
Definition route_label (fp : string) : string :=
  if String.eqb fp "" then "none" else fp.

(** Case analysis on an outcome, kept folded while a chain is run. *)
Definition on_result (r : Res) (kd : Context -> World -> Res)
    (kp : string -> Context -> World -> Res) : Res :=
  match r with
  | Done c w => kd c w
  | Panicked v c w => kp v c w
  end.

(** Everything a served request leaves behind: the request arrived in [w]
    and ended in [c'], [w']; [label] is the route label of the metrics,
    [hev] the events of the business handler (none on the 404 chain),
    [ops] its operations and [W] the response. *)
Record Served (logger : Logger) (req : Request) (label : string) (hev : list Event)
    (ops : list DomainOp) (W : responseWriter) (w : World) (c' : Context) (w' : World)
    : Prop := mkServed {
  sv_writer : Writer c' = W;
  sv_requests :
    httpRequestsTotal w' =
    prometheus.Inc (httpRequestsTotal w) [Method req; label; Itoa (status W)];
  sv_duration :
    httpRequestDuration w' =
    prometheus.Observe (httpRequestDuration w) [Method req; label]
      (time.Seconds (clock w (S (S (ticks w))) - clock w (S (ticks w))));
  sv_itemOps :
    itemOperationsTotal w' = itemOperationsTotal (run_ops logger ops w);
  sv_searchReq :
    searchRequestsTotal w' = searchRequestsTotal (run_ops logger ops w);
  sv_searchRes :
    searchResultsCount w' = searchResultsCount (run_ops logger ops w);
  sv_db : fakeItemsDB w' = fakeItemsDB w;
  sv_items : allItems w' = allItems w;
  sv_tracer : tracer w' = tracer w;
  sv_stdout :
    stdout w' =
    stdout w ++ map JSONLine (op_records (request_logger logger (request_span w)) ops)
             ++ [AccessLine (status W) (Method req) (URLPath req)];
  sv_exported :
    exported w' =
    exported w ++
      (if recording (request_span w)
       then [mkEndedSpan (spanContext (request_span w))
               (if 0 <? status W then Some (status W) else None)]
       else []);
  sv_history :
    history w' =
    history w ++ [EvCall 0; EvNow; EvCall 1; EvCall 2]
      ++ (if recording (request_span w) then [EvSpanStart (spanContext (request_span w))] else [])
      ++ [EvCall 3; EvSet "logger"; EvCall 4; EvNow]
      ++ hev
      ++ [EvNow; EvObserve "http_request_duration_seconds" [Method req; label];
          EvInc "http_requests_total" [Method req; label; Itoa (status W)];
          EvReturn 4; EvReturn 3]
      ++ (if recording (request_span w) then [EvSpanEnd (spanContext (request_span w))] else [])
      ++ [EvReturn 2; EvReturn 1; EvNow; EvReturn 0]
}.

(** The response writer after a reply, from the one before it. *)
Definition reply_writer (rp : Reply) (rw : responseWriter) : responseWriter :=
  Writer (apply_reply rp (mkContext (mkRequest "" "" [] None) noopSpan [] "" ∅ 0 0 rw)).

(** The middleware in front of every route of [build_router]. *)
Definition middleware (logger : Logger) : list HandlerFunc :=
  [gin.Logger; gin.Recovery; otelgin.Middleware; structuredLogMiddleware logger;
   prometheusMiddleware].

(** The router's answer for a request: a registered route with the
    parameters of the path, or nothing. *)
Definition valid_value `{GoLib} (logger : Logger)
    (value : option (gin.RouteEntry * list (string * string))) : Prop :=
  match value with
  | Some (r, _) => In r (gin.trees (build_router logger))
  | None => True
  end.

(** The route template of a request, and the label its metrics carry. *)
Definition template (value : option (gin.RouteEntry * list (string * string))) : string :=
  match value with
  | Some (r, _) => gin.r_path r
  | None => ""
  end.

(** The ["logger"] key is unset or holds a [*slog.Logger]: all the program
    ever does with the key is the [c.Set] of [structuredLogMiddleware]. *)
Definition logger_key_ok (c : Context) : Prop :=
  match Keys c !! "logger" with
  | None | Some (VLogger _) => True
  | Some _ => False
  end.

(** The two entries of an item that [searchItems] reads. *)
Definition item_name (item : gmap string any) : string :=
  match item !! "name" with
  | Some (VString n) => n
  | _ => ""
  end.

Definition item_price (item : gmap string any) : float64 :=
  match item !! "price" with
  | Some (VFloat p) => p
  | _ => S754_zero false
  end.

(** The query of a search request, as [searchItems] reads it. *)
Definition query_name (req : Request) : string := default "" (assoc "name" (URLQuery req)).

Definition query_min_price (req : Request) : string :=
  default "0" (assoc "min_price" (URLQuery req)).

(** Every byte is below 128: the strings on which [strings.ToLower] takes
    its bytewise path. *)
Definition is_ascii (s : string) : bool :=
  forallb (fun a => (N_of_ascii a <? 128)%N) (list_ascii_of_string s).

(** The body has no member the decoder would store into [Price]. *)
Definition lacks_price (doc : json) : Prop :=
  match doc with
  | JObject members => Forall (fun kv => field_of_key (fst kv) <> Some FPrice) members
  | _ => True
  end.

(** Concrete inputs: a clock that advances 1.5 ms per reading, ... *)
Definition demo_clock (n : nat) : Z := Z.of_nat n * 1500000.

(** ... the process as [main.go] leaves it when no collector answered,
    and when the tracer provider was installed, ... *)
Definition demo_world : World := World_init demo_clock.

Definition demo_traced : World :=
  set_tracer (Some (fun n => (Pos.of_succ_nat n, 7%positive))) demo_world.

(** ... the router of [main.go], some requests and two environments. *)
Definition demo_router : gin.Engine := @build_router scenario_lib main_go.newSlogLogger.

Definition demo_create : Request :=
  mkRequest "POST" "/items/" [] (Some (JObject [("name", JString "pen")])).

Definition demo_bad_search : Request :=
  mkRequest "GET" "/search/" [("name", "key"); ("min_price", "cheap")] None.

Definition demo_create_ok : Request :=
  mkRequest "POST" "/items/" []
    (Some (JObject [("name", JString "tablet"); ("price", JNumber "450")])).



(** ** Further vocabulary *)
(** A path segment without a slash. *)
Fixpoint no_slash (s : string) : bool :=
  match s with
  | EmptyString => true
  | String a r => negb (Ascii.eqb a "/") && no_slash r
  end.

(** The message of the [required] check when only the price fails it. *)
Definition price_required : string :=
  "Key: 'Item.Price' Error:Field validation for 'Price' failed on the 'required' tag".

(** The minimum price [searchItems] works with: the parsed parameter, or
    0 when [ParseFloat] reports an error. *)
Definition min_price_of `{GoLib} (req : Request) : float64 :=
  match ParseFloat (query_min_price req) with
  | (f, None) => f
  | (_, Some _) => S754_zero false
  end.

(** The items a search selects, in the order of the list. *)
Definition selected `{GoLib} (name : string) (minPrice : float64)
    (items : list (gmap string any)) : list (gmap string any) :=
  List.filter (fun item => nameMatch name (item_name item) &&
                           f64_ge (item_price item) minPrice) items.

(** A library that also reads the literal [NaN], as Go's does. *)
Definition nan_lib : GoLib :=
  {| ParseFloat := fun s => if String.eqb s "NaN" then (S754_nan, None)
                            else ParseFloat_digits s;
     ToLower := ToLower_ascii |}.

(** A process whose item list holds an entry without a price. *)
Definition demo_untyped : World :=
  mkWorld ∅ ∅ ∅ 0%nat [] fakeItemsDB_init
    [item_of "laptop" 1200; list_to_map [("name", VString "cable")]]
    [] [] [] None 0%nat [] demo_clock 0%nat [].

(** What a served request leaves behind besides the fields of [Served]:
    the log file, the error stream, and the counters of the span
    generator and of the clock. *)
Record ServedRest (logger : Logger) (ops : list DomainOp) (w w' : World) : Prop :=
  mkServedRest {
  sr_logfile :
    logfile w' = logfile w ++ file_records (request_logger logger (request_span w)) ops;
  sr_stderr : stderr w' = stderr w;
  sr_spanSeq :
    spanSeq w' = if recording (request_span w) then S (spanSeq w) else spanSeq w;
  sr_ticks : ticks w' = S (S (S (S (ticks w))));
  sr_clock : clock w' = clock w
}.

(** The statuses the handlers of [main.go] answer with. *)
Definition reply_ok (rp : Reply) : Prop :=
  match rp with
  | ReplyJSON code _ => In code [200; 400; 404; 500]
  | ReplyRaw => True
  end.

(** A handler whose operations and reply are determined by the request,
    the path parameters and the two item stores: it reads nothing else of
    the process state. *)
Definition handler_pure (h : HandlerFunc) : Prop :=
  forall req ps db items,
    Forall item_typed items ->
    exists ops rp,
      reply_ok rp /\
      forall next c w L,
        Keys c !! "logger" = Some (VLogger L) -> request c = req -> Params c = ps ->
        fakeItemsDB w = db -> allItems w = items ->
        h next c w = Done (apply_reply rp c) (run_ops L ops w).

(** A request that reaches the handler chain, with the router's answer
    for it: a registered route and the parameters of the path, or no
    route. *)
Definition Arrival : Type := option (gin.RouteEntry * list (string * string)) * Request.

(** The arrival the model's direct match makes of a request. *)
Definition route_of (e : gin.Engine) (req : Request) : Arrival :=
  (gin.getValue (gin.trees e) (Method req) (URLPath req), req).

(** Arrivals served one after the other: the answer to each ([None] when
    the chain panicked and the server dropped the connection) and the
    state left for the next. *)
Definition answer (r : Res) : option responseWriter :=
  match r with
  | Done c _ => Some (Writer c)
  | Panicked _ _ _ => None
  end.

Definition state_after (r : Res) : World :=
  match r with
  | Done _ w | Panicked _ _ w => w
  end.

Definition serve (e : gin.Engine) (a : Arrival) (w : World) : Res :=
  gin.handleHTTPRequest e (fst a) (snd a) w.

Fixpoint serve_all (e : gin.Engine) (reqs : list Arrival) (w : World)
  : list (option responseWriter) * World :=
  match reqs with
  | [] => ([], w)
  | a :: rest =>
    let r := serve e a w in
    let '(answers, w') := serve_all e rest (state_after r) in
    (answer r :: answers, w')
  end.

(** The sum of a counter vector over all its series, and the number of
    observations of a histogram vector over all its series. *)
Definition total (m : gmap (list string) nat) : nat :=
  map_fold (fun _ v acc => (v + acc)%nat) 0%nat m.

Definition count (m : gmap (list string) (list float64)) : nat :=
  map_fold (fun _ os acc => (length os + acc)%nat) 0%nat m.

Definition is_access_line (l : OutLine) : bool :=
  match l with
  | AccessLine _ _ _ => true
  | JSONLine _ => false
  end.

(** The four handlers that answer the same whatever the request: the
    status, the level and message of their one record, and the body. *)
Definition fixed_answer (path : string) : option (Z * Level * string * any) :=
  if String.eqb path "/" then
    Some (200, LevelInfo, "Accessed root endpoint",
          H_ [("message", VString "Welcome to the Go application!")])
  else if String.eqb path "/status" then
    Some (200, LevelInfo, "Health check performed",
          H_ [("status", VString "healthy"); ("version", VString "1.0")])
  else if String.eqb path "/error-500" then
    Some (500, LevelError, "Simulating 500 Internal Server Error",
          H_ [("detail", VString "Internal Server Error")])
  else if String.eqb path "/error-400" then
    Some (400, LevelWarn, "Simulating 400 Bad Request",
          H_ [("detail", VString "Bad Request")])
  else None.


(** More concrete inputs: an environment in which every start-up step
    succeeds, and some requests. *)
Definition demo_env_ok : Env :=
  mkEnv None None None None None (fun n => (Pos.of_succ_nat n, 7%positive)) None.

Definition demo_read (id : string) : Request :=
  mkRequest "GET" ("/items/" +:+ id) [] None.

Definition demo_search (name min_price : string) : Request :=
  mkRequest "GET" "/search/" [("name", name); ("min_price", min_price)] None.

Definition demo_create_free : Request :=
  mkRequest "POST" "/items/" []
    (Some (JObject [("name", JString "sample"); ("price", JNumber "0")])).

Definition demo_create_unpriced : Request :=
  mkRequest "POST" "/items/" [] (Some (JObject [("name", JString "sample")])).

Definition demo_arrivals : list Arrival :=
  [route_of demo_router demo_create_ok; route_of demo_router (demo_read "1");
   route_of demo_router (demo_read "x")].

(** * Verification *)

(** ** The model on small inputs *)

Example Itoa_200 : Itoa 200 = "200".
Proof. reflexivity. Qed.

Example Atoi_1 : Atoi "1" = inl 1.
Proof. reflexivity. Qed.

Example Atoi_abc : Atoi "abc" = inr "strconv.Atoi: parsing: invalid syntax".
Proof. reflexivity. Qed.

Example Contains_lap : Contains "laptop" "top" = true /\ Contains "mouse" "top" = false.
Proof. split; reflexivity. Qed.

Example f64_ge_1200_100 : f64_ge (float64_of_int 1200) (float64_of_int 100) = true.
Proof. reflexivity. Qed.

Example TraceID_String_ex :
  trace.TraceID_String (mkSpanContext 255 1) = "000000000000000000000000000000ff".
Proof. reflexivity. Qed.

Example foldName_ascii : foldName "Price" = "PRICE".
Proof. reflexivity. Qed.

Example foldName_long_s : foldName (String "197" (String "191" "")) = "S".
Proof. reflexivity. Qed.

Example field_of_key_PRICE : field_of_key "PRICE" = Some FPrice.
Proof. reflexivity. Qed.

Example field_of_key_cost : field_of_key "cost" = None.
Proof. reflexivity. Qed.

(** ** What the domain operations leave alone *)

Section Frame.

Variable L : Logger.

Ltac frame_ind :=
  intros ops; induction ops as [|op ops IH]; intros w;
  [ reflexivity
  | unfold run_ops in *; cbn [fold_left]; rewrite IH;
    destruct op; try reflexivity ].

Lemma run_ops_httpRequestsTotal :
  forall ops w, httpRequestsTotal (run_ops L ops w) = httpRequestsTotal w.
Proof. frame_ind; cbn; destruct (sink L); reflexivity. Qed.

Lemma run_ops_httpRequestDuration :
  forall ops w, httpRequestDuration (run_ops L ops w) = httpRequestDuration w.
Proof. frame_ind; cbn; destruct (sink L); reflexivity. Qed.

Lemma run_ops_fakeItemsDB :
  forall ops w, fakeItemsDB (run_ops L ops w) = fakeItemsDB w.
Proof. frame_ind; cbn; destruct (sink L); reflexivity. Qed.

Lemma run_ops_allItems :
  forall ops w, allItems (run_ops L ops w) = allItems w.
Proof. frame_ind; cbn; destruct (sink L); reflexivity. Qed.

Lemma run_ops_tracer :
  forall ops w, tracer (run_ops L ops w) = tracer w.
Proof. frame_ind; cbn; destruct (sink L); reflexivity. Qed.

Lemma run_ops_spanSeq :
  forall ops w, spanSeq (run_ops L ops w) = spanSeq w.
Proof. frame_ind; cbn; destruct (sink L); reflexivity. Qed.

Lemma run_ops_exported :
  forall ops w, exported (run_ops L ops w) = exported w.
Proof. frame_ind; cbn; destruct (sink L); reflexivity. Qed.

Lemma run_ops_clock :
  forall ops w, clock (run_ops L ops w) = clock w.
Proof. frame_ind; cbn; destruct (sink L); reflexivity. Qed.

Lemma run_ops_ticks :
  forall ops w, ticks (run_ops L ops w) = ticks w.
Proof. frame_ind; cbn; destruct (sink L); reflexivity. Qed.

Lemma run_ops_stderr :
  forall ops w, stderr (run_ops L ops w) = stderr w.
Proof. frame_ind; cbn; destruct (sink L); reflexivity. Qed.

Lemma run_ops_history :
  forall ops w, history (run_ops L ops w) = history w ++ map op_event ops.
Proof.
  intros ops; induction ops as [|op ops IH]; intros w.
  - cbn. now rewrite app_nil_r.
  - unfold run_ops in *; cbn [fold_left map]. rewrite IH.
    change (op_event op :: map op_event ops) with ([op_event op] ++ map op_event ops).
    rewrite app_assoc. f_equal.
    destruct op; cbn; try reflexivity. destruct (sink L); reflexivity.
Qed.

Lemma run_ops_stdout :
  forall ops w, stdout (run_ops L ops w) = stdout w ++ map JSONLine (op_records L ops).
Proof.
  intros ops; induction ops as [|op ops IH]; intros w.
  - cbn. now rewrite app_nil_r.
  - unfold run_ops in *; cbn [fold_left]. rewrite IH.
    destruct op; cbn; try reflexivity.
    destruct (sink L); cbn; now rewrite <- app_assoc.
Qed.

Lemma run_ops_logfile :
  forall ops w, logfile (run_ops L ops w) = logfile w ++ file_records L ops.
Proof.
  unfold file_records.
  intros ops; induction ops as [|op ops IH]; intros w.
  - cbn. destruct (sink L); now rewrite app_nil_r.
  - unfold run_ops in *; cbn [fold_left]. rewrite IH.
    destruct op; cbn; try reflexivity.
    destruct (sink L); cbn; [reflexivity | now rewrite <- app_assoc].
Qed.

End Frame.

(** ** The handlers, one by one *)

Lemma allItems_init_typed : Forall item_typed allItems_init.
Proof.
  unfold allItems_init.
  repeat (apply Forall_cons; split;
          [ split; eexists; vm_compute; reflexivity | ]).
  apply Forall_nil; exact I.
Qed.

Lemma log_allItems L lv m args w : allItems (slog.log L lv m args w) = allItems w.
Proof. unfold slog.log. destruct (sink L); reflexivity. Qed.

Section Handlers.

Context `{GoLib}.

Lemma getLogger_bound c L :
  Keys c !! "logger" = Some (VLogger L) -> getLogger c = inl L.
Proof. intros HL. unfold getLogger, gin.Get. now rewrite HL. Qed.

Lemma search_loop_total name minPrice items :
  Forall item_typed items ->
  forall results, exists results', search_loop name minPrice items results = inl results'.
Proof.
  induction 1 as [|item items [[s Hs] [f Hf]] _ IH]; intros results; cbn [search_loop].
  - now exists results.
  - rewrite Hs, Hf. apply IH.
Qed.

Lemma readRoot_ok : handler_ok readRoot.
Proof.
  intros next c w L HL _. unfold readRoot, with_logger. rewrite (getLogger_bound _ _ HL).
  now exists [OpLog LevelInfo "Accessed root endpoint" []],
    (ReplyJSON 200 (H_ [("message", VString "Welcome to the Go application!")])).
Qed.

Lemma getStatus_ok : handler_ok getStatus.
Proof.
  intros next c w L HL _. unfold getStatus, with_logger. rewrite (getLogger_bound _ _ HL).
  now exists [OpLog LevelInfo "Health check performed" []],
    (ReplyJSON 200 (H_ [("status", VString "healthy"); ("version", VString "1.0")])).
Qed.

Lemma getError500_ok : handler_ok getError500.
Proof.
  intros next c w L HL _. unfold getError500, with_logger. rewrite (getLogger_bound _ _ HL).
  now exists [OpLog LevelError "Simulating 500 Internal Server Error" []],
    (ReplyJSON 500 (H_ [("detail", VString "Internal Server Error")])).
Qed.

Lemma getError400_ok : handler_ok getError400.
Proof.
  intros next c w L HL _. unfold getError400, with_logger. rewrite (getLogger_bound _ _ HL).
  now exists [OpLog LevelWarn "Simulating 400 Bad Request" []],
    (ReplyJSON 400 (H_ [("detail", VString "Bad Request")])).
Qed.

Lemma metricsHandler_ok : handler_ok metricsHandler.
Proof. intros next c w L _ _. now exists [], ReplyRaw. Qed.

Lemma readItem_ok : handler_ok readItem.
Proof.
  intros next c w L HL _. unfold readItem, with_logger. rewrite (getLogger_bound _ _ HL).
  destruct (Atoi (gin.Param "item_id" c)) as [itemID|err].
  - destruct (fakeItemsDB w !! itemID) as [item|].
    + now exists [OpLog LevelInfo "Successfully retrieved item" [("item_id", LInt itemID)];
                  OpItemInc ["read"; "success"]],
        (ReplyJSON 200 (VMap (item ∪ {[ "item_id" := VInt itemID ]}))).
    + now exists [OpLog LevelInfo "Item not found" [("item_id", LInt itemID)];
                  OpItemInc ["read"; "not_found"]],
        (ReplyJSON 404 (H_ [("detail", VString "Item not found")])).
  - now exists [OpLog LevelWarn "Invalid item ID"
                  [("item_id", LString (gin.Param "item_id" c)); ("error", LError err)];
                OpItemInc ["read"; "bad_request"]],
      (ReplyJSON 400 (H_ [("detail", VString "Invalid item ID")])).
Qed.

Lemma createItem_does next c w L :
  Keys c !! "logger" = Some (VLogger L) ->
  exists ops rp, createItem next c w = Done (apply_reply rp c) (run_ops L ops w).
Proof.
  intros HL. unfold createItem, with_logger. rewrite (getLogger_bound _ _ HL).
  destruct (ShouldBindJSON c) as [item|err].
  - now exists [OpLog LevelInfo "Item created successfully"
                  [("item_name", LString (Name item)); ("item_price", LFloat (Price item))];
                OpItemInc ["create"; "success"]],
      (ReplyJSON 200 (H_ [("message", VString "Item created successfully");
                          ("item", VItem item)])).
  - now exists [OpLog LevelWarn "Failed to bind JSON for create item" [("error", LString err)];
                OpItemInc ["create"; "bad_request"]],
      (ReplyJSON 400 (H_ [("detail", VString err)])).
Qed.

Lemma createItem_ok : handler_ok createItem.
Proof. intros next c w L HL _. now apply createItem_does. Qed.

(** [searchItems] with the outcome of its loop made explicit. *)
Lemma searchItems_run next c w L results :
  Keys c !! "logger" = Some (VLogger L) ->
  let name := gin.Query "name" c in
  let minPriceStr := gin.DefaultQuery "min_price" "0" c in
  let minPrice := match ParseFloat minPriceStr with
                  | (f, None) => f
                  | (_, Some _) => S754_zero false
                  end in
  let warn := match ParseFloat minPriceStr with
              | (_, None) => []
              | (_, Some e) =>
                [OpLog LevelWarn "Invalid min_price query param"
                   [("min_price", LString minPriceStr); ("error", LError e)]]
              end in
  search_loop name minPrice (allItems w) [] = inl results ->
  searchItems next c w =
    Done (gin.JSON 200 (H_ [("search_results", VSlice results)]) c)
         (run_ops L
            ([OpSearchInc] ++ warn ++
             [OpSearchObserve (float64_of_int (Z.of_nat (length results)));
              OpLog LevelInfo "Search performed"
                [("query_name", LString name); ("min_price", LFloat minPrice);
                 ("results_found", LInt (Z.of_nat (length results)))]]) w).
Proof.
  intros HL name minPriceStr. cbv zeta.
  unfold searchItems, with_logger. rewrite (getLogger_bound _ _ HL).
  fold name minPriceStr.
  destruct (ParseFloat minPriceStr) as [f [e|]]; intros Hloop.
  - unfold slog.Warn. rewrite log_allItems. cbn [allItems searchRequestsTotal_Inc emit set_history
      set_searchRequestsTotal]. rewrite Hloop. reflexivity.
  - cbn [allItems searchRequestsTotal_Inc emit set_history set_searchRequestsTotal].
    rewrite Hloop. reflexivity.
Qed.

Lemma searchItems_ok : handler_ok searchItems.
Proof.
  intros next c w L HL Hty.
  destruct (search_loop_total (gin.Query "name" c)
              (match ParseFloat (gin.DefaultQuery "min_price" "0" c) with
               | (f, None) => f
               | (_, Some _) => S754_zero false
               end) _ Hty []) as [results Hloop].
  eexists _, (ReplyJSON 200 _).
  apply (searchItems_run next c w L results HL Hloop).
Qed.

End Handlers.

(** ** One request through the chain *)

Lemma loop_cons h rest c w :
  gin.loop (h :: rest) c w =
  if index c <? nhandlers c then
    bind (h (fun c' w' => gin.loop rest (set_index (index c' + 1) c') w') c
            (emit (EvCall (index c)) w))
         (fun c1 w1 => gin.loop rest (set_index (index c1 + 1) c1)
                         (emit (EvReturn (index c)) w1))
  else Done c w.
Proof. reflexivity. Qed.

Lemma on_result_Done c w kd kp : on_result (Done c w) kd kp = kd c w.
Proof. reflexivity. Qed.

Lemma bind_Done c w k : bind (Done c w) k = k c w.
Proof. reflexivity. Qed.

Lemma Recovery_eq next c w :
  gin.Recovery next c w =
  on_result (next c w) Done (fun _ c w => Done (gin.AbortWithStatus 500 c) w).
Proof. unfold gin.Recovery. destruct (next c w); reflexivity. Qed.

Lemma otelgin_eq next c w :
  otelgin.Middleware next c w =
  on_result
    (next (set_reqSpan (fst (trace.Start (reqSpan c) w)) c) (snd (trace.Start (reqSpan c) w)))
    (fun c' w' =>
       Done (set_reqSpan (reqSpan c) c')
            (trace.End (fst (trace.Start (reqSpan c) w))
               (if 0 <? status (Writer c') then Some (status (Writer c')) else None) w'))
    (fun v c' w' =>
       Panicked v (set_reqSpan (reqSpan c) c')
         (trace.End (fst (trace.Start (reqSpan c) w)) None w')).
Proof. unfold otelgin.Middleware. destruct (trace.Start (reqSpan c) w); reflexivity. Qed.

Lemma Logger_eq next c w :
  gin.Logger next c w =
  bind (next c (emit EvNow (set_ticks (S (ticks w)) w)))
    (fun c' w' =>
       Done c' (set_stdout
                  (stdout w' ++
                   [AccessLine (status (Writer c')) (Method (request c')) (URLPath (request c'))])
                  (emit EvNow (set_ticks (S (ticks w')) w')))).
Proof. reflexivity. Qed.

Lemma structuredLogMiddleware_eq logger next c w :
  structuredLogMiddleware logger next c w =
  next (set_Keys (<["logger" := VLogger (request_logger logger (reqSpan c))]> (Keys c)) c)
       (emit (EvSet "logger") w).
Proof. reflexivity. Qed.

Lemma prometheusMiddleware_eq next c w :
  prometheusMiddleware next c w =
  bind (next c (emit EvNow (set_ticks (S (ticks w)) w)))
    (fun c' w' =>
       Done c'
         (httpRequestsTotal_Inc
            [Method (request c'); route_label (gin.FullPath c'); Itoa (status (Writer c'))]
            (httpRequestDuration_Observe [Method (request c'); route_label (gin.FullPath c')]
               (time.Seconds (clock w' (ticks w') - clock w (ticks w)))
               (emit EvNow (set_ticks (S (ticks w')) w'))))).
Proof. reflexivity. Qed.

Lemma loop_nil c w : gin.loop [] c w = Done c w.
Proof. reflexivity. Qed.

(** The domain collectors do not depend on the logger the operations
    write through. *)
Lemma run_ops_itemOps_logger L L' ops :
  forall w w', itemOperationsTotal w = itemOperationsTotal w' ->
    itemOperationsTotal (run_ops L ops w) = itemOperationsTotal (run_ops L' ops w').
Proof.
  induction ops as [|op ops IH]; intros w w' E; [exact E|].
  unfold run_ops in *; cbn [fold_left]. apply IH.
  destruct op; cbn; try (now rewrite ?E).
  destruct (sink L), (sink L'); exact E.
Qed.

Lemma run_ops_searchReq_logger L L' ops :
  forall w w', searchRequestsTotal w = searchRequestsTotal w' ->
    searchRequestsTotal (run_ops L ops w) = searchRequestsTotal (run_ops L' ops w').
Proof.
  induction ops as [|op ops IH]; intros w w' E; [exact E|].
  unfold run_ops in *; cbn [fold_left]. apply IH.
  destruct op; cbn; try (now rewrite ?E).
  destruct (sink L), (sink L'); exact E.
Qed.

Lemma run_ops_searchRes_logger L L' ops :
  forall w w', searchResultsCount w = searchResultsCount w' ->
    searchResultsCount (run_ops L ops w) = searchResultsCount (run_ops L' ops w').
Proof.
  induction ops as [|op ops IH]; intros w w' E; [exact E|].
  unfold run_ops in *; cbn [fold_left]. apply IH.
  destruct op; cbn; try (now rewrite ?E).
  destruct (sink L), (sink L'); exact E.
Qed.

Lemma apply_reply_eq rp c : apply_reply rp c = set_Writer (reply_writer rp (Writer c)) c.
Proof. destruct rp; reflexivity. Qed.

Ltac znorm :=
  repeat match goal with
  | |- context [Z.of_nat ?n] =>
    let v := eval vm_compute in (Z.of_nat n) in
    lazymatch v with Z0 => idtac | Zpos _ => idtac | Zneg _ => idtac end;
    change (Z.of_nat n) with v
  | |- context [Z.add ?a ?b] =>
    let v := eval vm_compute in (Z.add a b) in
    lazymatch v with Z0 => idtac | Zpos _ => idtac | Zneg _ => idtac end;
    change (Z.add a b) with v
  | |- context [Z.ltb ?a ?b] =>
    let v := eval vm_compute in (Z.ltb a b) in
    lazymatch v with true => idtac | false => idtac end;
    change (Z.ltb a b) with v
  end.

Ltac chain_cbn :=
  cbn -[bind on_result gin.loop gin.Logger gin.Recovery otelgin.Middleware structuredLogMiddleware
        prometheusMiddleware time.Seconds Itoa prometheus.Inc prometheus.Observe
        trace.TraceID_String trace.SpanID_String run_ops apply_reply reply_writer
        request_logger request_span route_label].

(** Outcomes are passed on by rewriting, so that a step never compares
    two whole states. *)
Ltac pass_on := repeat (first [rewrite bind_Done | rewrite on_result_Done]; cbv beta).

Ltac chain_step :=
  rewrite loop_cons; znorm; cbv iota;
  rewrite ?Logger_eq, ?Recovery_eq, ?otelgin_eq, ?structuredLogMiddleware_eq,
    ?prometheusMiddleware_eq;
  pass_on; chain_cbn; znorm; cbv iota.

Lemma request_span_on w gen t s :
  tracer w = Some gen -> gen (spanSeq w) = (t, s) ->
  request_span w = mkSpan (mkSpanContext (Npos t) (Npos s)) true.
Proof. intros Htr Hgen. unfold request_span, trace.Start. now rewrite Htr, Hgen. Qed.

Lemma request_span_off w : tracer w = None -> request_span w = noopSpan.
Proof. intros Htr. unfold request_span, trace.Start. now rewrite Htr. Qed.

Ltac served_fields Hsp :=
  split; rewrite ?Hsp; unfold request_logger; chain_cbn;
  rewrite ?run_ops_httpRequestsTotal, ?run_ops_httpRequestDuration,
    ?run_ops_fakeItemsDB, ?run_ops_allItems, ?run_ops_tracer, ?run_ops_exported,
    ?run_ops_stdout, ?run_ops_history; chain_cbn;
  try reflexivity;
  try (first [apply run_ops_itemOps_logger | apply run_ops_searchReq_logger
             | apply run_ops_searchRes_logger]; reflexivity);
  try (repeat rewrite <- app_assoc; cbn [app]; reflexivity);
  try (symmetry; apply app_nil_r).

Section Pipeline.

Context `{GoLib}.
Variable logger : Logger.

(** A request on a matched route whose handler returns normally: [P]
    carries what is known about the handler's operations and reply. *)
Lemma served_matched (e : gin.Engine) (m fp : string) (h : HandlerFunc)
    (ps : list (string * string)) (req : Request) (w : World)
    (P : list DomainOp -> Reply -> Prop) :
  (forall next c w' L,
      Keys c !! "logger" = Some (VLogger L) -> request c = req -> Params c = ps ->
      Writer c = mkWriter 200 false [] ->
      fakeItemsDB w' = fakeItemsDB w -> allItems w' = allItems w ->
      exists ops rp, P ops rp /\ h next c w' = Done (apply_reply rp c) (run_ops L ops w')) ->
  exists ops rp c' w',
    P ops rp /\
    gin.handleHTTPRequest e (Some (gin.mkRoute m fp (middleware logger ++ [h]), ps)) req w
      = Done c' w' /\
    Served logger req (route_label fp) ([EvCall 5] ++ map op_event ops ++ [EvReturn 5]) ops
      (gin.WriteHeaderNow (reply_writer rp (mkWriter 200 false []))) w c' w'.
Proof.
  intros Hh.
  unfold gin.handleHTTPRequest, middleware.
  cbn [gin.r_handlers gin.r_path app length]. unfold gin.Next, gin.reset.
  chain_cbn. chain_step. chain_step. chain_step.
  unfold trace.Start. chain_cbn.
  destruct (tracer w) as [gen|] eqn:Htr; [destruct (gen (spanSeq w)) as [t s] eqn:Hgen|];
    chain_cbn; chain_step; chain_step; rewrite loop_cons; znorm; chain_cbn;
    lazymatch goal with
    | |- context [h ?n ?c ?w0] =>
      edestruct (Hh n c w0 _ (lookup_insert_eq _ _ _)) as (ops & rp & HP & Heq);
        [reflexivity .. | rewrite Heq; clear Heq]
    end;
    exists ops, rp;
    rewrite apply_reply_eq; pass_on; chain_cbn; znorm; chain_cbn;
    rewrite ?run_ops_ticks, ?run_ops_clock; chain_cbn;
    repeat (rewrite loop_cons; znorm; cbv iota; pass_on; chain_cbn);
    (do 2 eexists); (split; [exact HP|]); (split; [reflexivity|]).
  - pose proof (request_span_on _ _ _ _ Htr Hgen) as Hsp. served_fields Hsp.
  - pose proof (request_span_off _ Htr) as Hsp. served_fields Hsp.
Qed.

(** A request no route matches: the 404 chain is the middleware alone. *)
Lemma served_noroute (e : gin.Engine) (req : Request) (w : World) :
  gin.allNoRoute e = middleware logger ->
  exists c' w',
    gin.handleHTTPRequest e None req w = Done c' w' /\
    Served logger req "none" [] [] (mkWriter 404 true [gin.default404Body]) w c' w'.
Proof.
  intros He.
  unfold gin.handleHTTPRequest. rewrite He. unfold middleware.
  cbn [length]. unfold gin.Next, gin.reset.
  chain_cbn. chain_step. chain_step. chain_step.
  unfold trace.Start. chain_cbn.
  destruct (tracer w) as [gen|] eqn:Htr; [destruct (gen (spanSeq w)) as [t s] eqn:Hgen|];
    chain_cbn; chain_step; chain_step;
    rewrite ?loop_nil; pass_on; chain_cbn;
    repeat (rewrite loop_cons; znorm; cbv iota; pass_on; chain_cbn);
    (do 2 eexists); (split; [reflexivity|]).
  - pose proof (request_span_on _ _ _ _ Htr Hgen) as Hsp. served_fields Hsp.
  - pose proof (request_span_off _ Htr) as Hsp. served_fields Hsp.
Qed.

End Pipeline.

(** ** The routes of the program *)

Section Routes.

Context `{GoLib}.
Variable logger : Logger.

Lemma noroute_chain : gin.allNoRoute (build_router logger) = middleware logger.
Proof. reflexivity. Qed.

Lemma routes_cases r :
  In r (gin.trees (build_router logger)) ->
  exists m fp h,
    r = gin.mkRoute m fp (middleware logger ++ [h]) /\ handler_ok h /\
    route_label fp = fp.
Proof.
  intros Hin. cbn in Hin.
  repeat (destruct Hin as [<- | Hin]; [do 3 eexists; split; [reflexivity|]; split;
          [ first [ apply metricsHandler_ok | apply readRoot_ok | apply readItem_ok
                  | apply searchItems_ok | apply createItem_ok | apply getStatus_ok
                  | apply getError500_ok | apply getError400_ok ]
          | reflexivity ] | ]).
  destruct Hin.
Qed.

(** Every request leaves the chain normally, with the record of what it
    did. *)
Lemma served_any value req w :
  valid_value logger value ->
  Forall item_typed (allItems w) ->
  exists hev ops W c' w',
    gin.handleHTTPRequest (build_router logger) value req w = Done c' w' /\
    Served logger req (route_label (template value)) hev ops W w c' w' /\
    hev = match value with
          | Some _ => [EvCall 5] ++ map op_event ops ++ [EvReturn 5]
          | None => []
          end.
Proof.
  intros Hv Hty. destruct value as [[r ps]|]; cbn [valid_value template] in *.
  - destruct (routes_cases r Hv) as (m & fp & h & -> & Hok & Hlab).
    destruct (served_matched logger (build_router logger) m fp h ps req w (fun _ _ => True))
      as (ops & rp & c' & w' & _ & Hrun & Hs).
    + intros next c w' L HL _ _ _ _ Hitems.
      destruct (Hok next c w' L HL) as (ops & rp & Heq).
      * now rewrite Hitems.
      * now exists ops, rp.
    + cbn [gin.r_path]. exists ([EvCall 5] ++ map op_event ops ++ [EvReturn 5]), ops,
        (gin.WriteHeaderNow (reply_writer rp (mkWriter 200 false []))), c', w'.
      split; [exact Hrun|]. split; [exact Hs | reflexivity].
  - destruct (served_noroute logger (build_router logger) req w noroute_chain)
      as (c' & w' & Hrun & Hs).
    exists [], [], (mkWriter 404 true [gin.default404Body]), c', w'.
    split; [exact Hrun|]. split; [exact Hs | reflexivity].
Qed.

End Routes.

(** ** Reading the collectors *)

Lemma value_Inc (m : gmap (list string) nat) (lvs lvs' : list string) :
  prometheus.value (prometheus.Inc m lvs) lvs' =
  (prometheus.value m lvs' + if decide (lvs' = lvs) then 1 else 0)%nat.
Proof.
  unfold prometheus.Inc, prometheus.value at 1. rewrite lookup_insert.
  destruct (decide (lvs = lvs')) as [->|Hne].
  - rewrite decide_True by reflexivity. cbn. lia.
  - rewrite decide_False by congruence. fold (prometheus.value m lvs'). lia.
Qed.


Lemma op_records_fields L ops r :
  In r (op_records L ops) -> exists args, fields r = attrs L ++ args.
Proof.
  induction ops as [|op ops IH]; cbn [op_records]; [intros []|].
  destruct op; try exact IH.
  intros [<-|Hin]; [now exists args | now apply IH].
Qed.


Section Claims.

Context `{GoLib}.
Variable logger : Logger.

Lemma label_of_value value :
  valid_value logger value ->
  route_label (template value) =
  match value with
  | Some (r, _) => gin.r_path r
  | None => "none"
  end.
Proof.
  destruct value as [[r ps]|]; cbn [valid_value template]; [|reflexivity].
  intros Hin. now destruct (routes_cases logger r Hin) as (m & fp & h & -> & _ & Hlab).
Qed.


(** C2.  While a tracer provider is installed, every request runs under
    a valid span, and every JSON record written during the request
    carries [trace_id] and [span_id] equal to the hex identifiers of
    that span, which is the span exported at the end of the request. *)
Theorem C2_log_correlation value req w gen :
  valid_value logger value ->
  Forall item_typed (allItems w) ->
  attrs logger = [] ->
  tracer w = Some gen ->
  exists c' w' new st,
    let sc := spanContext (request_span w) in
    gin.handleHTTPRequest (build_router logger) value req w = Done c' w' /\
    IsValid sc = true /\
    exported w' = exported w ++ [mkEndedSpan sc st] /\
    stdout w' = stdout w ++ new /\
    forall r, In (JSONLine r) new ->
      assoc "trace_id" (fields r) = Some (LString (trace.TraceID_String sc)) /\
      assoc "span_id" (fields r) = Some (LString (trace.SpanID_String sc)).
Proof.
  intros Hv Hty Hattrs Htr.
  destruct (served_any logger value req w Hv Hty) as (hev & ops & W & c' & w' & Hrun & Hs & _).
  pose proof (sv_stdout _ _ _ _ _ _ _ _ _ Hs) as Hout.
  pose proof (sv_exported _ _ _ _ _ _ _ _ _ Hs) as Hexp.
  destruct (gen (spanSeq w)) as [t s] eqn:Hgen.
  rewrite (request_span_on w gen t s Htr Hgen) in *. cbn [recording spanContext] in *.
  eexists c', w', _, _. cbv zeta.
  split; [exact Hrun|]. split; [reflexivity|]. split; [exact Hexp|]. split; [exact Hout|].
  intros r Hin. apply in_app_or in Hin as [Hin|[Hin|[]]]; [|discriminate Hin].
  apply in_map_iff in Hin as (r' & [= ->] & Hin).
  apply op_records_fields in Hin as (args & ->).
  unfold request_logger. cbn [spanContext]. 
  replace (IsValid {| TraceID := N.pos t; SpanID := N.pos s |}) with true by reflexivity.
  cbn [slog.With attrs]. rewrite Hattrs. split; reflexivity.
Qed.


End Claims.

(** ** The logger accessor *)

Lemma reset_logger_key_ok req ps fp n st : logger_key_ok (gin.reset req ps fp n st).
Proof. exact I. Qed.

Lemma Set_logger_key_ok l c w : logger_key_ok (fst (gin.Set_ "logger" (VLogger l) c w)).
Proof. unfold logger_key_ok, gin.Set_. cbn [fst Keys set_Keys]. now rewrite lookup_insert_eq. Qed.

(** C4.  On every context whose ["logger"] key is unset or holds a
    logger, [getLogger] returns a logger and does not panic: the bound
    logger when there is one, otherwise the default logger, which writes
    to standard output and carries no attributes. *)
Theorem C4_getLogger_total (c : Context) :
  logger_key_ok c ->
  exists l,
    getLogger c = inl l /\
    (forall b, Keys c !! "logger" = Some (VLogger b) -> l = b) /\
    (Keys c !! "logger" = None -> l = slog.default_logger /\ attrs l = [] /\ sink l = Stdout).
Proof.
  unfold logger_key_ok, getLogger, gin.Get.
  destruct (Keys c !! "logger") as [[| | | | | | | |b]|]; intros Hok; try destruct Hok.
  - exists b. split; [reflexivity|]. split; [now intros ? [= ->] | discriminate].
  - exists slog.default_logger. split; [reflexivity|]. split; [discriminate | now intros _].
Qed.

(** ** Scenarios *)

Lemma log_itemOperationsTotal L lv m args w :
  itemOperationsTotal (slog.log L lv m args w) = itemOperationsTotal w.
Proof. unfold slog.log. destruct (sink L); reflexivity. Qed.

Lemma log_searchRequestsTotal L lv m args w :
  searchRequestsTotal (slog.log L lv m args w) = searchRequestsTotal w.
Proof. unfold slog.log. destruct (sink L); reflexivity. Qed.

Lemma log_searchResultsCount L lv m args w :
  searchResultsCount (slog.log L lv m args w) = searchResultsCount w.
Proof. unfold slog.log. destruct (sink L); reflexivity. Qed.

Ltac domain_cbn :=
  unfold run_ops; cbn [fold_left run_op app];
  unfold slog.Info, slog.Warn, slog.Error;
  rewrite ?log_itemOperationsTotal, ?log_searchRequestsTotal, ?log_searchResultsCount;
  cbn [itemOperationsTotal_Inc searchRequestsTotal_Inc searchResultsCount_Observe emit
       set_history set_itemOperationsTotal set_searchRequestsTotal set_searchResultsCount
       itemOperationsTotal searchRequestsTotal searchResultsCount];
  rewrite ?log_itemOperationsTotal, ?log_searchRequestsTotal, ?log_searchResultsCount.

Section Scenarios.

Context `{GoLib}.
Variable logger : Logger.

Lemma getValue_readItem_1 :
  gin.getValue (gin.trees (build_router logger)) "GET" "/items/1" =
  Some (gin.mkRoute "GET" "/items/:item_id" (middleware logger ++ [readItem]),
        [("item_id", "1")]).
Proof. reflexivity. Qed.

Lemma getValue_searchItems :
  gin.getValue (gin.trees (build_router logger)) "GET" "/search/" =
  Some (gin.mkRoute "GET" "/search/" (middleware logger ++ [searchItems]), []).
Proof. reflexivity. Qed.

Lemma getValue_createItem :
  gin.getValue (gin.trees (build_router logger)) "POST" "/items/" =
  Some (gin.mkRoute "POST" "/items/" (middleware logger ++ [createItem]), []).
Proof. reflexivity. Qed.

(** C6.  With the store as initialised, [GET /items/1] answers 200 with
    a body whose [name] is "laptop" (and whose [item_id] is 1), and
    increments [item_operations_total{operation="read",status="success"}]
    by one, leaving every other series of that counter as it was. *)
Theorem C6_read_item_1 (q : list (string * string)) (b : option json) (w : World) :
  fakeItemsDB w = fakeItemsDB_init ->
  exists c' w' m,
    gin.ServeHTTP (build_router logger) (mkRequest "GET" "/items/1" q b) w = Done c' w' /\
    status (Writer c') = 200 /\
    body (Writer c') = [VMap m] /\
    m !! "name" = Some (VString "laptop") /\
    m !! "item_id" = Some (VInt 1) /\
    forall lvs,
      prometheus.value (itemOperationsTotal w') lvs =
      (prometheus.value (itemOperationsTotal w) lvs +
       if decide (lvs = ["read"; "success"]) then 1 else 0)%nat.
Proof.
  intros Hdb. unfold gin.ServeHTTP. cbn [Method URLPath].
  rewrite getValue_readItem_1.
  destruct (served_matched logger (build_router logger) "GET" "/items/:item_id" readItem
              [("item_id", "1")] (mkRequest "GET" "/items/1" q b) w
              (fun ops rp =>
                 ops = [OpLog LevelInfo "Successfully retrieved item" [("item_id", LInt 1)];
                        OpItemInc ["read"; "success"]] /\
                 rp = ReplyJSON 200 (VMap (item_of "laptop" 1200 ∪ {[ "item_id" := VInt 1 ]}))))
    as (ops & rp & c' & w' & [-> ->] & Hrun & Hs).
  - intros next c w0 L HL _ Hps _ Hdb0 _. do 2 eexists. split; [split; reflexivity|].
    unfold readItem, with_logger. rewrite (getLogger_bound _ _ HL).
    unfold gin.Param. rewrite Hps. cbn [assoc String.eqb]. 
    change (Atoi (default "" (Some "1"))) with (@inl Z error 1).
    rewrite Hdb0, Hdb.
    change (fakeItemsDB_init !! 1) with (Some (item_of "laptop" 1200)).
    reflexivity.
  - exists c', w', (item_of "laptop" 1200 ∪ {[ "item_id" := VInt 1 ]}).
    split; [exact Hrun|].
    rewrite (sv_writer _ _ _ _ _ _ _ _ _ Hs).
    split; [reflexivity|]. split; [reflexivity|].
    split; [vm_compute; reflexivity|]. split; [vm_compute; reflexivity|].
    intros lvs. rewrite (sv_itemOps _ _ _ _ _ _ _ _ _ Hs). domain_cbn.
    apply value_Inc.
Qed.

(** *** Searching *)

(** What the loop of [searchItems] computes on well-typed items. *)
Lemma search_loop_spec name minPrice items :
  Forall item_typed items ->
  forall results,
    search_loop name minPrice items results =
    inl (results ++
         List.filter (fun item => nameMatch name (item_name item) &&
                                  f64_ge (item_price item) minPrice) items).
Proof.
  induction 1 as [|item items [[n Hn] [p Hp]] _ IH]; intros results;
    cbn [search_loop List.filter].
  - now rewrite app_nil_r.
  - unfold item_name, item_price. rewrite Hn, Hp, IH.
    destruct (nameMatch name n && f64_ge p minPrice); [|reflexivity].
    now rewrite <- app_assoc.
Qed.

Lemma item_of_name n z : item_name (item_of n z) = n.
Proof. unfold item_name, item_of. cbn [list_to_map foldr fst snd]. now rewrite lookup_insert_eq. Qed.

Lemma item_of_price n z : item_price (item_of n z) = float64_of_int z.
Proof.
  unfold item_price, item_of. cbn [list_to_map foldr fst snd].
  rewrite lookup_insert_ne by discriminate. now rewrite lookup_insert_eq.
Qed.

(** One search request through the chain, given what the loop returns. *)
Lemma served_search req w results :
  Method req = "GET" -> URLPath req = "/search/" ->
  let minPrice := match ParseFloat (query_min_price req) with
                  | (f, None) => f
                  | (_, Some _) => S754_zero false
                  end in
  let warn := match ParseFloat (query_min_price req) with
              | (_, None) => []
              | (_, Some e) =>
                [OpLog LevelWarn "Invalid min_price query param"
                   [("min_price", LString (query_min_price req)); ("error", LError e)]]
              end in
  let ops := [OpSearchInc] ++ warn ++
             [OpSearchObserve (float64_of_int (Z.of_nat (length results)));
              OpLog LevelInfo "Search performed"
                [("query_name", LString (query_name req)); ("min_price", LFloat minPrice);
                 ("results_found", LInt (Z.of_nat (length results)))]] in
  search_loop (query_name req) minPrice (allItems w) [] = inl results ->
  exists c' w',
    gin.ServeHTTP (build_router logger) req w = Done c' w' /\
    Served logger req "/search/" ([EvCall 5] ++ map op_event ops ++ [EvReturn 5]) ops
      (mkWriter 200 true [H_ [("search_results", VSlice results)]]) w c' w'.
Proof.
  intros Hm Hp minPrice warn ops Hloop.
  unfold gin.ServeHTTP. rewrite Hm, Hp, getValue_searchItems.
  destruct (served_matched logger (build_router logger) "GET" "/search/" searchItems
              [] req w
              (fun ops' rp => ops' = ops /\
                              rp = ReplyJSON 200 (H_ [("search_results", VSlice results)])))
    as (ops' & rp & c' & w' & [-> ->] & Hrun & Hs).
  - intros next c w0 L HL Hreq _ _ _ Hitems.
    exists ops, (ReplyJSON 200 (H_ [("search_results", VSlice results)])).
    split; [split; reflexivity|].
    assert (Hq : gin.Query "name" c = query_name req)
      by (unfold gin.Query; now rewrite Hreq).
    assert (Hd : gin.DefaultQuery "min_price" "0" c = query_min_price req)
      by (unfold gin.DefaultQuery; now rewrite Hreq).
    rewrite (searchItems_run next c w0 L results HL).
    + now rewrite Hq, Hd.
    + now rewrite Hq, Hd, Hitems.
  - exists c', w'. split; [exact Hrun | exact Hs].
Qed.

(** C5.  For a library whose [ParseFloat] reads "100" as 100 and whose
    [ToLower] lowers ASCII strings bytewise, and with the item list as
    initialised, [GET /search/?name=laptop&min_price=100] answers 200
    with exactly the laptop item, increments [search_requests_total] by
    one and adds the one observation 1 to [search_results_count]. *)
Theorem C5_search_laptop (b : option json) (w : World) :
  ParseFloat "100" = (float64_of_int 100, None) ->
  (forall s, is_ascii s = true -> ToLower s = ToLower_ascii s) ->
  allItems w = allItems_init ->
  exists c' w',
    gin.ServeHTTP (build_router logger)
      (mkRequest "GET" "/search/" [("name", "laptop"); ("min_price", "100")] b) w
      = Done c' w' /\
    status (Writer c') = 200 /\
    body (Writer c') = [H_ [("search_results", VSlice [item_of "laptop" 1200])]] /\
    searchRequestsTotal w' = S (searchRequestsTotal w) /\
    searchResultsCount w' = searchResultsCount w ++ [float64_of_int 1].
Proof.
  intros HPF HTL Hitems.
  set (req := mkRequest "GET" "/search/" [("name", "laptop"); ("min_price", "100")] b).
  destruct (served_search req w [item_of "laptop" 1200] eq_refl eq_refl)
    as (c' & w' & Hrun & Hs).
  - change (query_min_price req) with "100". change (query_name req) with "laptop".
    rewrite HPF, Hitems, (search_loop_spec _ _ _ allItems_init_typed).
    unfold allItems_init. cbn [List.filter app].
    rewrite !item_of_name, !item_of_price. unfold nameMatch.
    rewrite !HTL by reflexivity.
    reflexivity.
  - exists c', w'. split; [exact Hrun|].
    rewrite (sv_writer _ _ _ _ _ _ _ _ _ Hs).
    split; [reflexivity|]. split; [reflexivity|].
    rewrite (sv_searchReq _ _ _ _ _ _ _ _ _ Hs), (sv_searchRes _ _ _ _ _ _ _ _ _ Hs).
    change (query_min_price req) with "100". rewrite HPF.
    split; domain_cbn; reflexivity.
Qed.

End Scenarios.

Section SearchFallback.

Context `{GoLib}.
Variable logger : Logger.

Lemma allItems_init_prices :
  Forall (fun item => f64_ge (item_price item) (S754_zero false) = true) allItems_init.
Proof.
  unfold allItems_init.
  repeat (apply Forall_cons; split; [rewrite item_of_price; reflexivity|]).
  apply Forall_nil; exact I.
Qed.

Lemma filter_price_free name items :
  Forall (fun item => f64_ge (item_price item) (S754_zero false) = true) items ->
  List.filter (fun item => nameMatch name (item_name item) &&
                           f64_ge (item_price item) (S754_zero false)) items =
  List.filter (fun item => nameMatch name (item_name item)) items.
Proof.
  induction 1 as [|item items Hp _ IH]; cbn [List.filter]; [reflexivity|].
  now rewrite Hp, andb_true_r, IH.
Qed.

(** C9.  [GET /search/] with a [min_price] that [ParseFloat] rejects is
    not answered with 400: the handler writes one warning record, goes on
    with a minimum price of 0 and answers 200 with the items of the
    (initial) list selected by the name parameter alone. *)
Theorem C9_bad_min_price_falls_back (req : Request) (w : World) (f : float64) (e : error) :
  Method req = "GET" ->
  URLPath req = "/search/" ->
  ParseFloat (query_min_price req) = (f, Some e) ->
  allItems w = allItems_init ->
  let results :=
    List.filter (fun item => nameMatch (query_name req) (item_name item)) allItems_init in
  let L := request_logger logger (request_span w) in
  exists c' w',
    gin.ServeHTTP (build_router logger) req w = Done c' w' /\
    status (Writer c') = 200 /\
    body (Writer c') = [H_ [("search_results", VSlice results)]] /\
    stdout w' =
    stdout w ++
      [JSONLine (mkRecord LevelWarn "Invalid min_price query param"
                   (attrs L ++ [("min_price", LString (query_min_price req));
                                ("error", LError e)]));
       JSONLine (mkRecord LevelInfo "Search performed"
                   (attrs L ++ [("query_name", LString (query_name req));
                                ("min_price", LFloat (S754_zero false));
                                ("results_found", LInt (Z.of_nat (length results)))]));
       AccessLine 200 "GET" "/search/"].
Proof.
  intros Hm Hp HPF Hitems results L.
  destruct (served_search logger req w results Hm Hp) as (c' & w' & Hrun & Hs).
  - rewrite HPF, Hitems, (search_loop_spec _ _ _ allItems_init_typed).
    cbn [app]. now rewrite (filter_price_free _ _ allItems_init_prices).
  - exists c', w'. split; [exact Hrun|].
    rewrite (sv_writer _ _ _ _ _ _ _ _ _ Hs), (sv_stdout _ _ _ _ _ _ _ _ _ Hs).
    rewrite HPF, Hm, Hp. now repeat split.
Qed.

End SearchFallback.

Lemma Param_single c k v : Params c = [(k, v)] -> gin.Param k c = v.
Proof. intros Hps. unfold gin.Param. rewrite Hps. cbn [assoc]. now rewrite String.eqb_refl. Qed.

Section Create.

Context `{GoLib}.
Variable logger : Logger.

Lemma decode_keeps_price members :
  Forall (fun kv => field_of_key (fst kv) <> Some FPrice) members ->
  forall st,
    Price (fst (fold_left (fun st kv => decode_member (fst kv) (snd kv) st) members st)) =
    Price (fst st).
Proof.
  induction 1 as [|[k v] members Hk _ IH]; intros st; cbn [fold_left]; [reflexivity|].
  rewrite IH. cbn [fst snd] in *. destruct st as [it err]. unfold decode_member.
  destruct (field_of_key k) as [[| |]|]; [| contradiction | |]; try reflexivity;
    destruct v; reflexivity.
Qed.

Lemma zero_price_rejected it : Price it = S754_zero false -> exists e, validate it = Some e.
Proof.
  intros Hz. unfold validate. rewrite Hz. cbn [f64_is_zero].
  destruct (String.eqb (Name it) ""); cbn [app]; eexists; reflexivity.
Qed.

Lemma bind_without_price c doc :
  Body (request c) = Some doc -> lacks_price doc -> exists err, ShouldBindJSON c = inr err.
Proof.
  intros Hbody Hlack. unfold ShouldBindJSON, decodeJSON. rewrite Hbody.
  destruct doc as [| | | | |members]; try (eexists; reflexivity).
  pose proof (decode_keeps_price members Hlack (mkItem "" (S754_zero false) None, None))
    as Hprice.
  destruct (fold_left _ members _) as [it [e|]]; [now exists e|].
  destruct (zero_price_rejected it Hprice) as [e He]. rewrite He. now exists e.
Qed.

(** C7.  [POST /items/] with a JSON body that has no [price] member is
    answered with 400 and increments
    [item_operations_total{operation="create",status="bad_request"}] by
    one, leaving every other series of that counter as it was. *)
Theorem C7_create_without_price (req : Request) (doc : json) (w : World) :
  Method req = "POST" ->
  URLPath req = "/items/" ->
  Body req = Some doc ->
  lacks_price doc ->
  exists c' w',
    gin.ServeHTTP (build_router logger) req w = Done c' w' /\
    status (Writer c') = 400 /\
    forall lvs,
      prometheus.value (itemOperationsTotal w') lvs =
      (prometheus.value (itemOperationsTotal w) lvs +
       if decide (lvs = ["create"; "bad_request"]) then 1 else 0)%nat.
Proof.
  intros Hm Hp Hbody Hlack.
  unfold gin.ServeHTTP. rewrite Hm, Hp, getValue_createItem.
  destruct (served_matched logger (build_router logger) "POST" "/items/" createItem
              [] req w
              (fun ops rp => exists err,
                 ops = [OpLog LevelWarn "Failed to bind JSON for create item"
                          [("error", LString err)];
                        OpItemInc ["create"; "bad_request"]] /\
                 rp = ReplyJSON 400 (H_ [("detail", VString err)])))
    as (ops & rp & c' & w' & (err & -> & ->) & Hrun & Hs).
  - intros next c w0 L HL Hreq _ _ _ _.
    destruct (bind_without_price c doc) as [err Herr]; [now rewrite Hreq | exact Hlack |].
    do 2 eexists. split; [exists err; split; reflexivity|].
    unfold createItem, with_logger. rewrite (getLogger_bound _ _ HL), Herr. reflexivity.
  - exists c', w'. split; [exact Hrun|].
    rewrite (sv_writer _ _ _ _ _ _ _ _ _ Hs). split; [reflexivity|].
    intros lvs. rewrite (sv_itemOps _ _ _ _ _ _ _ _ _ Hs). domain_cbn. apply value_Inc.
Qed.

(** C10.  Whatever its body, a [POST /items/] request leaves
    [fakeItemsDB] and [allItems] as they were.  So afterwards a read of
    an id that was absent is still answered with 404, and a search
    returns what the loop of [searchItems] returns on the item list from
    before the request. *)
Theorem C10_create_keeps_store (req : Request) (w : World) :
  Method req = "POST" ->
  URLPath req = "/items/" ->
  exists c' w',
    gin.ServeHTTP (build_router logger) req w = Done c' w' /\
    fakeItemsDB w' = fakeItemsDB w /\
    allItems w' = allItems w /\
    (forall req2 idstr id,
        Atoi idstr = inl id ->
        fakeItemsDB w !! id = None ->
        exists c2 w2,
          gin.handleHTTPRequest (build_router logger)
            (Some (gin.mkRoute "GET" "/items/:item_id" (middleware logger ++ [readItem]),
                   [("item_id", idstr)])) req2 w' = Done c2 w2 /\
          status (Writer c2) = 404) /\
    (forall req2 results,
        Method req2 = "GET" ->
        URLPath req2 = "/search/" ->
        search_loop (query_name req2)
          (match ParseFloat (query_min_price req2) with
           | (f, None) => f
           | (_, Some _) => S754_zero false
           end) (allItems w) [] = inl results ->
        exists c2 w2,
          gin.ServeHTTP (build_router logger) req2 w' = Done c2 w2 /\
          body (Writer c2) = [H_ [("search_results", VSlice results)]]).
Proof.
  intros Hm Hp.
  unfold gin.ServeHTTP at 1. rewrite Hm, Hp, getValue_createItem.
  destruct (served_matched logger (build_router logger) "POST" "/items/" createItem
              [] req w (fun _ _ => True))
    as (ops & rp & c' & w' & _ & Hrun & Hs).
  - intros next c w0 L HL _ _ _ _ _.
    destruct (createItem_does next c w0 L HL) as (ops & rp & Heq). now exists ops, rp.
  - pose proof (sv_db _ _ _ _ _ _ _ _ _ Hs) as Hdb.
    pose proof (sv_items _ _ _ _ _ _ _ _ _ Hs) as Hitems.
    exists c', w'. split; [exact Hrun|]. split; [exact Hdb|]. split; [exact Hitems|]. split.
    + intros req2 idstr id Hid Hnone.
      destruct (served_matched logger (build_router logger) "GET" "/items/:item_id" readItem
                  [("item_id", idstr)] req2 w'
                  (fun _ rp => rp = ReplyJSON 404 (H_ [("detail", VString "Item not found")])))
        as (ops2 & rp2 & c2 & w2 & -> & Hrun2 & Hs2).
      * intros next c w0 L HL _ Hps _ Hdb0 _. do 2 eexists. split; [reflexivity|].
        unfold readItem, with_logger. rewrite (getLogger_bound _ _ HL).
        rewrite (Param_single _ _ _ Hps), Hid, Hdb0, Hdb, Hnone.
        instantiate (1 := [OpLog LevelInfo "Item not found" [("item_id", LInt id)];
                           OpItemInc ["read"; "not_found"]]).
        reflexivity.
      * exists c2, w2. split; [exact Hrun2|].
        now rewrite (sv_writer _ _ _ _ _ _ _ _ _ Hs2).
    + intros req2 results Hm2 Hp2 Hloop.
      destruct (served_search logger req2 w' results Hm2 Hp2) as (c2 & w2 & Hrun2 & Hs2).
      * now rewrite Hitems.
      * exists c2, w2. split; [exact Hrun2|].
        now rewrite (sv_writer _ _ _ _ _ _ _ _ _ Hs2).
Qed.

End Create.

(** ** Start-up *)

Section Startup.

Context `{GoLib}.



End Startup.

(** ** The statements at concrete inputs *)

Lemma getValue_In rs method path r ps :
  gin.getValue rs method path = Some (r, ps) -> In r rs.
Proof.
  induction rs as [|r0 rs IH]; cbn [gin.getValue]; [discriminate|].
  destruct (String.eqb (gin.r_method r0) method); [|intros Hr; right; now apply IH].
  destruct (gin.match_segments _ _); [intros [= <- _]; now left | intros Hr; right; now apply IH].
Qed.

(** What the router looks up is a registered route or nothing. *)
Lemma getValue_valid `{GoLib} logger method path :
  valid_value logger (gin.getValue (gin.trees (build_router logger)) method path).
Proof.
  unfold valid_value.
  destruct (gin.getValue _ method path) as [[r ps]|] eqn:Hv; [|exact I].
  exact (getValue_In _ _ _ _ _ Hv).
Qed.

(** Evaluate a concrete run whose outcome is named by [Hrun]. *)
Ltac evaluate Hrun :=
  let E := fresh "E" in
  lazymatch type of Hrun with
  | ?lhs = Done ?c ?w =>
    assert (E : lhs = Done c w) by exact Hrun;
    vm_compute in E; injection E as <- <-
  end.



Lemma C2_log_correlation_witness :
  attrs main_go.newSlogLogger = [] /\
  tracer demo_traced = Some (fun n => (Pos.of_succ_nat n, 7%positive)) /\
  exists c' w',
    gin.ServeHTTP demo_router (mkRequest "GET" "/error-500" [] None) demo_traced
      = Done c' w' /\
    stdout w' =
    [JSONLine (mkRecord LevelError "Simulating 500 Internal Server Error"
                 [("trace_id", LString "00000000000000000000000000000001");
                  ("span_id", LString "0000000000000007")]);
     AccessLine 500 "GET" "/error-500"] /\
    exported w' = [mkEndedSpan (mkSpanContext 1 7) (Some 500)].
Proof.
  split; [reflexivity|]. split; [reflexivity|].
  destruct (C2_log_correlation (H := scenario_lib) main_go.newSlogLogger
              (gin.getValue (gin.trees demo_router) "GET" "/error-500")
              (mkRequest "GET" "/error-500" [] None) demo_traced _
              (getValue_valid _ _ _) allItems_init_typed eq_refl eq_refl)
    as (c' & w' & new & st & Hrun & _).
  exists c', w'. split; [exact Hrun|]. evaluate Hrun. split; reflexivity.
Defined.


Lemma C4_getLogger_total_witness :
  logger_key_ok (gin.reset (mkRequest "GET" "/" [] None) [] "/" 0 200) /\
  exists l,
    getLogger (gin.reset (mkRequest "GET" "/" [] None) [] "/" 0 200) = inl l /\
    l = slog.default_logger.
Proof.
  split; [exact I|].
  destruct (C4_getLogger_total (gin.reset (mkRequest "GET" "/" [] None) [] "/" 0 200) I)
    as (l & Hl & _ & Hdef).
  exists l. split; [exact Hl|]. exact (proj1 (Hdef eq_refl)).
Defined.

Lemma C5_search_laptop_witness :
  ParseFloat_digits "100" = (float64_of_int 100, None) /\
  allItems demo_world = allItems_init /\
  exists c' w',
    gin.ServeHTTP demo_router
      (mkRequest "GET" "/search/" [("name", "laptop"); ("min_price", "100")] None) demo_world
      = Done c' w' /\
    status (Writer c') = 200 /\
    body (Writer c') = [H_ [("search_results", VSlice [item_of "laptop" 1200])]] /\
    searchRequestsTotal w' = S (searchRequestsTotal demo_world) /\
    searchResultsCount w' = searchResultsCount demo_world ++ [float64_of_int 1].
Proof.
  split; [reflexivity|]. split; [reflexivity|].
  exact (C5_search_laptop (H := scenario_lib) main_go.newSlogLogger None demo_world
           eq_refl (fun _ _ => eq_refl) eq_refl).
Defined.

Lemma C6_read_item_1_witness :
  fakeItemsDB demo_world = fakeItemsDB_init /\
  exists c' w' m,
    gin.ServeHTTP demo_router (mkRequest "GET" "/items/1" [] None) demo_world = Done c' w' /\
    status (Writer c') = 200 /\
    body (Writer c') = [VMap m] /\
    m !! "name" = Some (VString "laptop").
Proof.
  split; [reflexivity|].
  destruct (C6_read_item_1 (H := scenario_lib) main_go.newSlogLogger [] None demo_world eq_refl)
    as (c' & w' & m & Hrun & Hst & Hbody & Hname & _).
  exists c', w', m. split; [exact Hrun|]. split; [exact Hst|]. split; [exact Hbody|exact Hname].
Defined.

Lemma demo_create_lacks_price : lacks_price (JObject [("name", JString "pen")]).
Proof. apply Forall_cons; split; [discriminate | apply Forall_nil; exact I]. Qed.

Lemma C7_create_without_price_witness :
  lacks_price (JObject [("name", JString "pen")]) /\
  exists c' w',
    gin.ServeHTTP demo_router demo_create demo_world = Done c' w' /\
    status (Writer c') = 400 /\
    prometheus.value (itemOperationsTotal w') ["create"; "bad_request"] = 1%nat.
Proof.
  split; [exact demo_create_lacks_price|].
  destruct (C7_create_without_price (H := scenario_lib) main_go.newSlogLogger demo_create
              (JObject [("name", JString "pen")]) demo_world eq_refl eq_refl eq_refl
              demo_create_lacks_price)
    as (c' & w' & Hrun & Hst & Hinc).
  exists c', w'. split; [exact Hrun|]. split; [exact Hst|].
  rewrite Hinc. reflexivity.
Defined.

Lemma C9_bad_min_price_falls_back_witness :
  ParseFloat_digits "cheap" =
    (S754_zero false, Some "strconv.ParseFloat: parsing: invalid syntax") /\
  allItems demo_world = allItems_init /\
  exists c' w',
    gin.ServeHTTP demo_router demo_bad_search demo_world = Done c' w' /\
    status (Writer c') = 200 /\
    body (Writer c') = [H_ [("search_results", VSlice [item_of "keyboard" 75])]].
Proof.
  split; [reflexivity|]. split; [reflexivity|].
  destruct (C9_bad_min_price_falls_back (H := scenario_lib) main_go.newSlogLogger
              demo_bad_search demo_world _ _ eq_refl eq_refl eq_refl eq_refl)
    as (c' & w' & Hrun & Hst & Hbody & _).
  exists c', w'. split; [exact Hrun|]. split; [exact Hst|]. exact Hbody.
Defined.

Lemma C10_create_keeps_store_witness :
  exists c' w',
    gin.ServeHTTP demo_router demo_create_ok demo_world = Done c' w' /\
    status (Writer c') = 200 /\
    fakeItemsDB w' = fakeItemsDB_init /\
    allItems w' = allItems_init.
Proof.
  destruct (C10_create_keeps_store (H := scenario_lib) main_go.newSlogLogger
              demo_create_ok demo_world eq_refl eq_refl)
    as (c' & w' & Hrun & Hdb & Hitems & _).
  exists c', w'. split; [exact Hrun|]. split; [|split; [exact Hdb | exact Hitems]].
  clear Hdb Hitems. evaluate Hrun. reflexivity.
Defined.

(** * Further properties of the code *)

(** ** The router on the item paths *)

Lemma split_slash_cons a r cur :
  Ascii.eqb a "/" = false ->
  gin.split_slash (String a r) cur = gin.split_slash r (cur +:+ String a EmptyString).
Proof.
  destruct a as [[] [] [] [] [] [] [] []]; intros Ha; try reflexivity; discriminate Ha.
Qed.

Lemma append_empty_r (s : string) : s +:+ "" = s.
Proof.
  induction s as [|a s IH]; [reflexivity|].
  change (String a s +:+ "") with (String a (s +:+ "")). now rewrite IH.
Qed.

Lemma append_snoc (s r : string) (a : ascii) :
  (s +:+ String a "") +:+ r = s +:+ String a r.
Proof.
  induction s as [|b s IH]; [reflexivity|].
  change ((String b s +:+ String a "") +:+ r) with (String b ((s +:+ String a "") +:+ r)).
  now rewrite IH.
Qed.

Lemma split_slash_segment s : forall cur,
  no_slash s = true -> gin.split_slash s cur = [cur +:+ s].
Proof.
  induction s as [|a r IH]; intros cur Hs; cbn [no_slash] in Hs.
  - cbn [gin.split_slash]. now rewrite append_empty_r.
  - apply andb_prop in Hs as [Ha Hr]. apply negb_true_iff in Ha.
    rewrite (split_slash_cons _ _ _ Ha), (IH _ Hr). now rewrite append_snoc.
Qed.

Lemma is_digit_no_slash a : is_digit a = true -> Ascii.eqb a "/" = false.
Proof. destruct a as [[] [] [] [] [] [] [] []]; intros Ha; try reflexivity; discriminate Ha. Qed.

Lemma all_digits_no_slash s : all_digits s = true -> no_slash s = true.
Proof.
  induction s as [|a r IH]; cbn [all_digits no_slash]; [reflexivity|].
  intros Hs. apply andb_prop in Hs as [Ha Hr].
  now rewrite (is_digit_no_slash _ Ha), (IH Hr).
Qed.

(** What [Atoi] accepts is one path segment. *)
Lemma Atoi_segment s n : Atoi s = inl n -> no_slash s = true /\ s <> "".
Proof.
  unfold Atoi. intros Hs. split; [|intros ->; discriminate Hs].
  assert (Hds : forall ds, match ds with
                           | "" => @inr Z error "strconv.Atoi: parsing: invalid syntax"
                           | _ => if all_digits ds then inl n
                                  else inr "strconv.Atoi: parsing: invalid syntax"
                           end = inl n -> no_slash ds = true).
  { intros [|a r]; [discriminate|].
    destruct (all_digits (String a r)) eqn:Hd; [|discriminate].
    intros _. now apply all_digits_no_slash. }
  destruct s as [|a r]; [reflexivity|].
  assert (Hgen : forall neg ds,
             match ds with
             | "" => inr "strconv.Atoi: parsing: invalid syntax"
             | _ => if all_digits ds
                    then let v := if neg : bool then - digits_value 0 ds else digits_value 0 ds in
                         if (int_min <=? v) && (v <=? int_max) then inl v
                         else inr "strconv.Atoi: parsing: value out of range"
                    else inr "strconv.Atoi: parsing: invalid syntax"
             end = @inl Z error n -> no_slash ds = true).
  { intros neg [|b ds]; [discriminate|].
    destruct (all_digits (String b ds)) eqn:Hd; [|discriminate].
    intros _. now apply all_digits_no_slash. }
  destruct (Ascii.eqb a "-") eqn:Hm; [apply Ascii.eqb_eq in Hm; subst a; cbn [no_slash];
    apply (Hgen true r Hs)|].
  destruct (Ascii.eqb a "+") eqn:Hp; [apply Ascii.eqb_eq in Hp; subst a; cbn [no_slash];
    apply (Hgen false r Hs)|].
  apply (Hgen false (String a r)).
  destruct a as [[] [] [] [] [] [] [] []]; try exact Hs; discriminate.
Qed.

Section ReadItem.

Context `{GoLib}.
Variable logger : Logger.

(** [GET /items/<segment>] reaches [readItem] with the segment bound to
    [item_id], whatever the segment is. *)
Lemma getValue_readItem seg :
  no_slash seg = true -> seg <> "" ->
  gin.getValue (gin.trees (build_router logger)) "GET" ("/items/" +:+ seg) =
  Some (gin.mkRoute "GET" "/items/:item_id" (middleware logger ++ [readItem]),
        [("item_id", seg)]).
Proof.
  intros Hseg Hne.
  assert (Hsplit : gin.split_slash ("/items/" +:+ seg) "" = [""; "items"; seg]).
  { change (gin.split_slash ("/items/" +:+ seg) "")
      with ("" :: "items" :: gin.split_slash seg "").
    now rewrite (split_slash_segment seg "" Hseg). }
  assert (Heq : String.eqb seg "" = false) by now apply String.eqb_neq.
  unfold build_router, gin.GET, gin.POST, gin.Handle, gin.trees.
  cbn [gin.getValue gin.r_method gin.r_path app gin.Default gin.Use gin.New gin.Handlers
       gin.allNoRoute gin.trees].
  rewrite Hsplit.
  change (gin.split_slash "/metrics" "") with [""; "metrics"].
  change (gin.split_slash "/" "") with [""; ""].
  change (gin.split_slash "/items/:item_id" "") with [""; "items"; ":item_id"].
  cbn [gin.match_segments String.eqb Ascii.eqb Bool.eqb option_map].
  rewrite Heq. reflexivity.
Qed.

(** [readItem] on a context of the chain, by the outcome of [Atoi] and
    of the store lookup. *)
Lemma readItem_run next c w L idstr :
  Keys c !! "logger" = Some (VLogger L) -> Params c = [("item_id", idstr)] ->
  readItem next c w =
  match Atoi idstr with
  | inr err =>
    Done (gin.JSON 400 (H_ [("detail", VString "Invalid item ID")]) c)
      (run_ops L [OpLog LevelWarn "Invalid item ID"
                    [("item_id", LString idstr); ("error", LError err)];
                  OpItemInc ["read"; "bad_request"]] w)
  | inl id =>
    match fakeItemsDB w !! id with
    | None =>
      Done (gin.JSON 404 (H_ [("detail", VString "Item not found")]) c)
        (run_ops L [OpLog LevelInfo "Item not found" [("item_id", LInt id)];
                    OpItemInc ["read"; "not_found"]] w)
    | Some item =>
      Done (gin.JSON 200 (VMap (item ∪ {[ "item_id" := VInt id ]})) c)
        (run_ops L [OpLog LevelInfo "Successfully retrieved item" [("item_id", LInt id)];
                    OpItemInc ["read"; "success"]] w)
    end
  end.
Proof.
  intros HL Hps. unfold readItem, with_logger.
  rewrite (getLogger_bound _ _ HL), (Param_single _ _ _ Hps).
  destruct (Atoi idstr) as [id|err]; [destruct (fakeItemsDB w !! id)|]; reflexivity.
Qed.

(** One read request through the chain, given what the handler does. *)
Lemma served_read req seg w ops rp :
  Method req = "GET" -> URLPath req = "/items/" +:+ seg ->
  no_slash seg = true -> seg <> "" ->
  (forall next c w0 L,
      Keys c !! "logger" = Some (VLogger L) -> Params c = [("item_id", seg)] ->
      fakeItemsDB w0 = fakeItemsDB w ->
      readItem next c w0 = Done (apply_reply rp c) (run_ops L ops w0)) ->
  exists c' w',
    gin.ServeHTTP (build_router logger) req w = Done c' w' /\
    Served logger req "/items/:item_id" ([EvCall 5] ++ map op_event ops ++ [EvReturn 5]) ops
      (gin.WriteHeaderNow (reply_writer rp (mkWriter 200 false []))) w c' w'.
Proof.
  intros Hm Hp Hseg Hne Hh.
  unfold gin.ServeHTTP. rewrite Hm, Hp, (getValue_readItem seg Hseg Hne).
  destruct (served_matched logger (build_router logger) "GET" "/items/:item_id" readItem
              [("item_id", seg)] req w (fun ops' rp' => ops' = ops /\ rp' = rp))
    as (ops' & rp' & c' & w' & [-> ->] & Hrun & Hs).
  - intros next c w0 L HL _ Hps _ Hdb _. exists ops, rp. split; [now split|].
    now apply Hh.
  - now exists c', w'.
Qed.

(** X1.  [GET /items/<id>] for an integer id the store does not hold is
    answered 404 with the detail "Item not found"; it adds one to
    [item_operations_total{read,not_found}] and to no other series of that
    counter, is counted under the route template with status 404, and
    writes one INFO record carrying the parsed id. *)
Theorem X1_read_item_not_found (req : Request) (idstr : string) (id : Z) (w : World) :
  Method req = "GET" ->
  URLPath req = "/items/" +:+ idstr ->
  Atoi idstr = inl id ->
  fakeItemsDB w !! id = None ->
  exists c' w',
    gin.ServeHTTP (build_router logger) req w = Done c' w' /\
    Writer c' = mkWriter 404 true [H_ [("detail", VString "Item not found")]] /\
    (forall lvs,
        prometheus.value (itemOperationsTotal w') lvs =
        (prometheus.value (itemOperationsTotal w) lvs +
         if decide (lvs = ["read"; "not_found"]) then 1 else 0)%nat) /\
    httpRequestsTotal w' =
      prometheus.Inc (httpRequestsTotal w) ["GET"; "/items/:item_id"; "404"] /\
    stdout w' =
      stdout w ++
      [JSONLine (mkRecord LevelInfo "Item not found"
                   (attrs (request_logger logger (request_span w)) ++ [("item_id", LInt id)]));
       AccessLine 404 "GET" ("/items/" +:+ idstr)].
Proof.
  intros Hm Hp Hid Hnone. destruct (Atoi_segment _ _ Hid) as [Hseg Hne].
  destruct (served_read req idstr w
              [OpLog LevelInfo "Item not found" [("item_id", LInt id)];
               OpItemInc ["read"; "not_found"]]
              (ReplyJSON 404 (H_ [("detail", VString "Item not found")])) Hm Hp Hseg Hne)
    as (c' & w' & Hrun & Hs).
  - intros next c w0 L HL Hps Hdb.
    now rewrite (readItem_run next c w0 L idstr HL Hps), Hid, Hdb, Hnone.
  - exists c', w'. split; [exact Hrun|].
    rewrite (sv_writer _ _ _ _ _ _ _ _ _ Hs), (sv_requests _ _ _ _ _ _ _ _ _ Hs),
      (sv_stdout _ _ _ _ _ _ _ _ _ Hs), Hm, Hp.
    split; [reflexivity|]. split; [|split; reflexivity].
    intros lvs. rewrite (sv_itemOps _ _ _ _ _ _ _ _ _ Hs). domain_cbn. apply value_Inc.
Qed.

(** X2.  [GET /items/<segment>] for a segment [strconv.Atoi] rejects is
    answered 400 with the detail "Invalid item ID", before the store is
    looked at; it adds one to [item_operations_total{read,bad_request}]
    only and writes one WARN record with the raw segment and the
    conversion error. *)
Theorem X2_read_item_bad_id (req : Request) (seg : string) (err : error) (w : World) :
  Method req = "GET" ->
  URLPath req = "/items/" +:+ seg ->
  no_slash seg = true ->
  seg <> "" ->
  Atoi seg = inr err ->
  exists c' w',
    gin.ServeHTTP (build_router logger) req w = Done c' w' /\
    Writer c' = mkWriter 400 true [H_ [("detail", VString "Invalid item ID")]] /\
    (forall lvs,
        prometheus.value (itemOperationsTotal w') lvs =
        (prometheus.value (itemOperationsTotal w) lvs +
         if decide (lvs = ["read"; "bad_request"]) then 1 else 0)%nat) /\
    httpRequestsTotal w' =
      prometheus.Inc (httpRequestsTotal w) ["GET"; "/items/:item_id"; "400"] /\
    stdout w' =
      stdout w ++
      [JSONLine (mkRecord LevelWarn "Invalid item ID"
                   (attrs (request_logger logger (request_span w)) ++
                    [("item_id", LString seg); ("error", LError err)]));
       AccessLine 400 "GET" ("/items/" +:+ seg)].
Proof.
  intros Hm Hp Hseg Hne Hid.
  destruct (served_read req seg w
              [OpLog LevelWarn "Invalid item ID"
                 [("item_id", LString seg); ("error", LError err)];
               OpItemInc ["read"; "bad_request"]]
              (ReplyJSON 400 (H_ [("detail", VString "Invalid item ID")])) Hm Hp Hseg Hne)
    as (c' & w' & Hrun & Hs).
  - intros next c w0 L HL Hps Hdb.
    now rewrite (readItem_run next c w0 L seg HL Hps), Hid.
  - exists c', w'. split; [exact Hrun|].
    rewrite (sv_writer _ _ _ _ _ _ _ _ _ Hs), (sv_requests _ _ _ _ _ _ _ _ _ Hs),
      (sv_stdout _ _ _ _ _ _ _ _ _ Hs), Hm, Hp.
    split; [reflexivity|]. split; [|split; reflexivity].
    intros lvs. rewrite (sv_itemOps _ _ _ _ _ _ _ _ _ Hs). domain_cbn. apply value_Inc.
Qed.

(** X3.  [GET /items/<id>] for an id the store holds is answered 200 with
    one map: every entry of the stored item, plus [item_id] with the
    parsed id -- unless the item has an [item_id] entry of its own, which
    then wins, since the item's entries are copied over the id.  The
    request adds one to [item_operations_total{read,success}] only and
    leaves the store as it was. *)
Theorem X3_read_item_found (req : Request) (idstr : string) (id : Z)
    (item : gmap string any) (w : World) :
  Method req = "GET" ->
  URLPath req = "/items/" +:+ idstr ->
  Atoi idstr = inl id ->
  fakeItemsDB w !! id = Some item ->
  exists c' w' m,
    gin.ServeHTTP (build_router logger) req w = Done c' w' /\
    Writer c' = mkWriter 200 true [VMap m] /\
    (forall k v, item !! k = Some v -> m !! k = Some v) /\
    (forall k, k <> "item_id" -> m !! k = item !! k) /\
    (item !! "item_id" = None -> m !! "item_id" = Some (VInt id)) /\
    (forall lvs,
        prometheus.value (itemOperationsTotal w') lvs =
        (prometheus.value (itemOperationsTotal w) lvs +
         if decide (lvs = ["read"; "success"]) then 1 else 0)%nat) /\
    fakeItemsDB w' = fakeItemsDB w.
Proof.
  intros Hm Hp Hid Hsome. destruct (Atoi_segment _ _ Hid) as [Hseg Hne].
  destruct (served_read req idstr w
              [OpLog LevelInfo "Successfully retrieved item" [("item_id", LInt id)];
               OpItemInc ["read"; "success"]]
              (ReplyJSON 200 (VMap (item ∪ {[ "item_id" := VInt id ]}))) Hm Hp Hseg Hne)
    as (c' & w' & Hrun & Hs).
  - intros next c w0 L HL Hps Hdb.
    now rewrite (readItem_run next c w0 L idstr HL Hps), Hid, Hdb, Hsome.
  - exists c', w', (item ∪ {[ "item_id" := VInt id ]}). split; [exact Hrun|].
    rewrite (sv_writer _ _ _ _ _ _ _ _ _ Hs).
    split; [reflexivity|].
    split; [intros k v Hk; now apply lookup_union_Some_l|].
    split; [intros k Hk; rewrite lookup_union_l;
            [reflexivity | now apply lookup_singleton_ne]|].
    split; [intros Hno; rewrite lookup_union_r by exact Hno; apply lookup_singleton_eq|].
    split; [|exact (sv_db _ _ _ _ _ _ _ _ _ Hs)].
    intros lvs. rewrite (sv_itemOps _ _ _ _ _ _ _ _ _ Hs). domain_cbn. apply value_Inc.
Qed.

End ReadItem.

(** ** Creating an item *)

Section CreateItem.

Context `{GoLib}.
Variable logger : Logger.

Lemma validate_None it :
  validate it = None <-> Name it <> "" /\ f64_is_zero (Price it) = false.
Proof.
  unfold validate.
  destruct (String.eqb (Name it) "") eqn:Hn; destruct (f64_is_zero (Price it)); cbn [app];
    (split; [intros Hv; try discriminate Hv | intros [Hne Hz]; try discriminate Hz]).
  - apply String.eqb_eq in Hn. contradiction.
  - split; [now apply String.eqb_neq | reflexivity].
  - reflexivity.
Qed.

(** [createItem] on a context of the chain, by the outcome of the
    binding. *)
Lemma createItem_run next c w L :
  Keys c !! "logger" = Some (VLogger L) ->
  createItem next c w =
  match ShouldBindJSON c with
  | inr err =>
    Done (gin.JSON 400 (H_ [("detail", VString err)]) c)
      (run_ops L [OpLog LevelWarn "Failed to bind JSON for create item" [("error", LString err)];
                  OpItemInc ["create"; "bad_request"]] w)
  | inl item =>
    Done (gin.JSON 200 (H_ [("message", VString "Item created successfully");
                            ("item", VItem item)]) c)
      (run_ops L [OpLog LevelInfo "Item created successfully"
                    [("item_name", LString (Name item)); ("item_price", LFloat (Price item))];
                  OpItemInc ["create"; "success"]] w)
  end.
Proof.
  intros HL. unfold createItem, with_logger. rewrite (getLogger_bound _ _ HL).
  destruct (ShouldBindJSON c); reflexivity.
Qed.

(** One create request through the chain, given the outcome of the
    binding. *)
Lemma served_create req w (r : Item + error) :
  Method req = "POST" -> URLPath req = "/items/" ->
  (forall c, request c = req -> ShouldBindJSON c = r) ->
  let ops := match r with
             | inr err => [OpLog LevelWarn "Failed to bind JSON for create item"
                             [("error", LString err)];
                           OpItemInc ["create"; "bad_request"]]
             | inl item => [OpLog LevelInfo "Item created successfully"
                              [("item_name", LString (Name item));
                               ("item_price", LFloat (Price item))];
                            OpItemInc ["create"; "success"]]
             end in
  let W := match r with
           | inr err => mkWriter 400 true [H_ [("detail", VString err)]]
           | inl item => mkWriter 200 true [H_ [("message", VString "Item created successfully");
                                                ("item", VItem item)]]
           end in
  exists c' w',
    gin.ServeHTTP (build_router logger) req w = Done c' w' /\
    Served logger req "/items/" ([EvCall 5] ++ map op_event ops ++ [EvReturn 5]) ops W w c' w'.
Proof.
  intros Hm Hp Hbind ops W.
  unfold gin.ServeHTTP. rewrite Hm, Hp, getValue_createItem.
  destruct (served_matched logger (build_router logger) "POST" "/items/" createItem
              [] req w
              (fun ops' rp =>
                 ops' = ops /\
                 gin.WriteHeaderNow (reply_writer rp (mkWriter 200 false [])) = W))
    as (ops' & rp & c' & w' & [-> HW] & Hrun & Hs).
  - intros next c w0 L HL Hreq _ _ _ _.
    rewrite (createItem_run next c w0 L HL), (Hbind c Hreq).
    subst ops W. destruct r as [item|err].
    + eexists _, (ReplyJSON 200 _). split; [split|]; reflexivity.
    + eexists _, (ReplyJSON 400 _). split; [split|]; reflexivity.
  - rewrite HW in Hs. now exists c', w'.
Qed.

(** X4.  [POST /items/] is accepted exactly when the body decodes without
    a type error into an item whose name is not empty and whose price is
    not zero.  Then the answer is 200 and echoes the decoded item, and
    [item_operations_total{create,success}] grows by one; in every other
    case the answer is 400 with the binding error as detail, and
    [item_operations_total{create,bad_request}] grows by one. *)
Theorem X4_create_item_accepted_iff (req : Request) (w : World) :
  Method req = "POST" ->
  URLPath req = "/items/" ->
  let it := fst (decodeJSON (Body req)) in
  let accepted :=
    snd (decodeJSON (Body req)) = None /\ Name it <> "" /\ f64_is_zero (Price it) = false in
  exists c' w',
    gin.ServeHTTP (build_router logger) req w = Done c' w' /\
    (accepted ->
     Writer c' = mkWriter 200 true [H_ [("message", VString "Item created successfully");
                                        ("item", VItem it)]] /\
     itemOperationsTotal w' = prometheus.Inc (itemOperationsTotal w) ["create"; "success"]) /\
    (~ accepted ->
     exists err,
       Writer c' = mkWriter 400 true [H_ [("detail", VString err)]] /\
       itemOperationsTotal w' =
         prometheus.Inc (itemOperationsTotal w) ["create"; "bad_request"]).
Proof.
  intros Hm Hp it accepted.
  destruct (served_create req w
              (match decodeJSON (Body req) with
               | (_, Some e) => inr e
               | (i, None) => match validate i with Some e => inr e | None => inl i end
               end) Hm Hp)
    as (c' & w' & Hrun & Hs).
  { intros c Hreq. unfold ShouldBindJSON. now rewrite Hreq. }
  exists c', w'. split; [exact Hrun|].
  pose proof (sv_writer _ _ _ _ _ _ _ _ _ Hs) as HW.
  pose proof (sv_itemOps _ _ _ _ _ _ _ _ _ Hs) as Hops.
  clear Hs Hrun. subst accepted it.
  destruct (decodeJSON (Body req)) as [i [e|]]; cbn [fst snd] in *.
  - split; [intros [He _]; discriminate He|]. intros _. exists e.
    split; [exact HW|]. rewrite Hops. domain_cbn. reflexivity.
  - destruct (validate i) as [e|] eqn:Hv.
    + split.
      * intros (_ & Hn & Hz). pose proof (proj2 (validate_None i) (conj Hn Hz)) as Hv'.
        rewrite Hv in Hv'. discriminate Hv'.
      * intros _. exists e. split; [exact HW|]. rewrite Hops. domain_cbn. reflexivity.
    + split.
      * intros _. split; [exact HW|]. rewrite Hops. domain_cbn. reflexivity.
      * intros Hno. exfalso. apply Hno. split; [reflexivity|]. now apply validate_None.
Qed.

(** X5.  A price of zero cannot be told from a missing price: the body
    [{"name": n, "price": 0}] (any literal that parses to zero) gets the
    very answer of [{"name": n}], a 400 whose detail says that [Price]
    failed the [required] check. *)
Theorem X5_create_item_zero_price (req0 req1 : Request) (n lit : string) (w : World) :
  Method req0 = "POST" -> URLPath req0 = "/items/" ->
  Method req1 = "POST" -> URLPath req1 = "/items/" ->
  Body req0 = Some (JObject [("name", JString n); ("price", JNumber lit)]) ->
  Body req1 = Some (JObject [("name", JString n)]) ->
  n <> "" ->
  ParseFloat lit = (S754_zero false, None) ->
  exists c0 w0 c1 w1,
    gin.ServeHTTP (build_router logger) req0 w = Done c0 w0 /\
    gin.ServeHTTP (build_router logger) req1 w = Done c1 w1 /\
    Writer c0 = mkWriter 400 true [H_ [("detail", VString price_required)]] /\
    Writer c1 = Writer c0 /\
    itemOperationsTotal w0 = prometheus.Inc (itemOperationsTotal w) ["create"; "bad_request"] /\
    itemOperationsTotal w1 = itemOperationsTotal w0.
Proof.
  intros Hm0 Hp0 Hm1 Hp1 Hb0 Hb1 Hn HPF.
  assert (Hne : String.eqb n "" = false) by now apply String.eqb_neq.
  destruct (served_create req0 w (inr price_required) Hm0 Hp0) as (c0 & w0 & Hrun0 & Hs0).
  { intros c Hreq. unfold ShouldBindJSON, decodeJSON. rewrite Hreq, Hb0.
    cbn [fold_left fst snd]. unfold decode_member.
    change (field_of_key "name") with (Some FName).
    change (field_of_key "price") with (Some FPrice).
    cbn [Name Price IsOffer]. rewrite HPF. unfold validate. cbn [Name Price f64_is_zero].
    rewrite Hne. reflexivity. }
  destruct (served_create req1 w (inr price_required) Hm1 Hp1) as (c1 & w1 & Hrun1 & Hs1).
  { intros c Hreq. unfold ShouldBindJSON, decodeJSON. rewrite Hreq, Hb1.
    cbn [fold_left fst snd]. unfold decode_member.
    change (field_of_key "name") with (Some FName).
    unfold validate. cbn [Name Price f64_is_zero].
    rewrite Hne. reflexivity. }
  exists c0, w0, c1, w1. split; [exact Hrun0|]. split; [exact Hrun1|].
  rewrite (sv_writer _ _ _ _ _ _ _ _ _ Hs0), (sv_writer _ _ _ _ _ _ _ _ _ Hs1),
    (sv_itemOps _ _ _ _ _ _ _ _ _ Hs0), (sv_itemOps _ _ _ _ _ _ _ _ _ Hs1).
  repeat split; domain_cbn; reflexivity.
Qed.

End CreateItem.

(** ** Searching, in general *)

Section Search.

Context `{GoLib}.
Variable logger : Logger.

Lemma f64_ge_nan x : f64_ge x S754_nan = false.
Proof. now destruct x. Qed.

Lemma selected_nan name items : selected name S754_nan items = [].
Proof.
  unfold selected. induction items as [|item items IH]; cbn [List.filter]; [reflexivity|].
  now rewrite f64_ge_nan, andb_false_r.
Qed.

(** X6.  On a well-typed item list [GET /search/] answers 200 with
    exactly the items whose name matches and whose price is at least the
    minimum, in the order of the list; it adds one to
    [search_requests_total], observes the number of returned items in
    [search_results_count], and touches neither the item counter nor the
    list. *)
Theorem X6_search_selects (req : Request) (w : World) :
  Method req = "GET" ->
  URLPath req = "/search/" ->
  Forall item_typed (allItems w) ->
  let results := selected (query_name req) (min_price_of req) (allItems w) in
  exists c' w',
    gin.ServeHTTP (build_router logger) req w = Done c' w' /\
    Writer c' = mkWriter 200 true [H_ [("search_results", VSlice results)]] /\
    searchRequestsTotal w' = S (searchRequestsTotal w) /\
    searchResultsCount w' =
      searchResultsCount w ++ [float64_of_int (Z.of_nat (length results))] /\
    itemOperationsTotal w' = itemOperationsTotal w /\
    allItems w' = allItems w.
Proof.
  intros Hm Hp Hty results.
  destruct (served_search logger req w results Hm Hp) as (c' & w' & Hrun & Hs).
  - now rewrite (search_loop_spec _ _ _ Hty).
  - exists c', w'. split; [exact Hrun|].
    rewrite (sv_writer _ _ _ _ _ _ _ _ _ Hs), (sv_searchReq _ _ _ _ _ _ _ _ _ Hs),
      (sv_searchRes _ _ _ _ _ _ _ _ _ Hs), (sv_itemOps _ _ _ _ _ _ _ _ _ Hs),
      (sv_items _ _ _ _ _ _ _ _ _ Hs).
    split; [reflexivity|].
    destruct (ParseFloat (query_min_price req)) as [f [e|]];
      repeat split; domain_cbn; reflexivity.
Qed.

(** X7.  A [min_price] that parses, without error, to NaN selects
    nothing: the comparison [itemPrice >= minPrice] is false for every
    item, so the answer is 200 with no results whatever the name, the
    observation is 0, and no warning is written -- the one record of the
    request is the INFO record of the search. *)
Theorem X7_search_nan_min_price (req : Request) (w : World) :
  Method req = "GET" ->
  URLPath req = "/search/" ->
  Forall item_typed (allItems w) ->
  ParseFloat (query_min_price req) = (S754_nan, None) ->
  exists c' w',
    gin.ServeHTTP (build_router logger) req w = Done c' w' /\
    Writer c' = mkWriter 200 true [H_ [("search_results", VSlice [])]] /\
    searchResultsCount w' = searchResultsCount w ++ [float64_of_int 0] /\
    stdout w' =
      stdout w ++
      [JSONLine (mkRecord LevelInfo "Search performed"
                   (attrs (request_logger logger (request_span w)) ++
                    [("query_name", LString (query_name req));
                     ("min_price", LFloat S754_nan); ("results_found", LInt 0)]));
       AccessLine 200 "GET" "/search/"].
Proof.
  intros Hm Hp Hty HPF.
  destruct (served_search logger req w [] Hm Hp) as (c' & w' & Hrun & Hs).
  - rewrite HPF, (search_loop_spec _ _ _ Hty). cbn [app].
    f_equal. apply selected_nan.
  - exists c', w'. split; [exact Hrun|].
    rewrite (sv_writer _ _ _ _ _ _ _ _ _ Hs), (sv_searchRes _ _ _ _ _ _ _ _ _ Hs),
      (sv_stdout _ _ _ _ _ _ _ _ _ Hs), HPF, Hm, Hp.
    repeat split; domain_cbn; reflexivity.
Qed.

(** X8.  The search is case-insensitive in the name: two searches with
    the same minimum price whose non-empty names have the same lower-case
    form get the same answer. *)
Theorem X8_search_case_insensitive (req1 req2 : Request) (w : World) :
  Method req1 = "GET" -> URLPath req1 = "/search/" ->
  Method req2 = "GET" -> URLPath req2 = "/search/" ->
  Forall item_typed (allItems w) ->
  query_min_price req1 = query_min_price req2 ->
  query_name req1 <> "" -> query_name req2 <> "" ->
  ToLower (query_name req1) = ToLower (query_name req2) ->
  exists c1 w1 c2 w2,
    gin.ServeHTTP (build_router logger) req1 w = Done c1 w1 /\
    gin.ServeHTTP (build_router logger) req2 w = Done c2 w2 /\
    Writer c1 = Writer c2.
Proof.
  intros Hm1 Hp1 Hm2 Hp2 Hty Hmin Hn1 Hn2 Hlow.
  destruct (served_search logger req1 w
              (selected (query_name req1) (min_price_of req1) (allItems w)) Hm1 Hp1)
    as (c1 & w1 & Hrun1 & Hs1); [now rewrite (search_loop_spec _ _ _ Hty)|].
  destruct (served_search logger req2 w
              (selected (query_name req2) (min_price_of req2) (allItems w)) Hm2 Hp2)
    as (c2 & w2 & Hrun2 & Hs2); [now rewrite (search_loop_spec _ _ _ Hty)|].
  exists c1, w1, c2, w2. split; [exact Hrun1|]. split; [exact Hrun2|].
  rewrite (sv_writer _ _ _ _ _ _ _ _ _ Hs1), (sv_writer _ _ _ _ _ _ _ _ _ Hs2).
  assert (Hsel : selected (query_name req1) (min_price_of req1) (allItems w) =
                 selected (query_name req2) (min_price_of req2) (allItems w)).
  { unfold selected, min_price_of. rewrite Hmin.
    apply filter_ext. intros item. unfold nameMatch. rewrite Hlow.
    apply String.eqb_neq in Hn1, Hn2. now rewrite Hn1, Hn2. }
  now rewrite Hsel.
Qed.

End Search.

(** ** A panic in the business handler *)

Lemma bind_Panicked v c w k : bind (Panicked v c w) k = Panicked v c w.
Proof. reflexivity. Qed.

Lemma on_result_Panicked v c w kd kp : on_result (Panicked v c w) kd kp = kp v c w.
Proof. reflexivity. Qed.

Ltac pass_any :=
  repeat (first [rewrite bind_Panicked | rewrite on_result_Panicked
                | rewrite bind_Done | rewrite on_result_Done]; cbv beta).

Ltac panic_fields Hsp :=
  repeat apply conj; rewrite ?Hsp; unfold request_logger; chain_cbn;
  rewrite ?run_ops_httpRequestsTotal, ?run_ops_httpRequestDuration,
    ?run_ops_exported, ?run_ops_stdout; chain_cbn;
  try reflexivity;
  try (first [apply run_ops_itemOps_logger | apply run_ops_searchReq_logger
             | apply run_ops_searchRes_logger]; reflexivity);
  try (repeat rewrite <- app_assoc; cbn [app]; reflexivity);
  try (symmetry; apply app_nil_r).

Section Panic.

Context `{GoLib}.
Variable logger : Logger.

(** A request on a matched route whose handler panics after the
    operations [ops]. *)
Lemma served_panic (e : gin.Engine) (m fp : string) (h : HandlerFunc)
    (ps : list (string * string)) (req : Request) (w : World) (v : string)
    (ops : list DomainOp) :
  (forall next c w' L,
      Keys c !! "logger" = Some (VLogger L) -> request c = req -> Params c = ps ->
      allItems w' = allItems w ->
      h next c w' = Panicked v c (run_ops L ops w')) ->
  exists c' w',
    gin.handleHTTPRequest e (Some (gin.mkRoute m fp (middleware logger ++ [h]), ps)) req w
      = Done c' w' /\
    Writer c' = mkWriter 500 true [] /\
    httpRequestsTotal w' = httpRequestsTotal w /\
    httpRequestDuration w' = httpRequestDuration w /\
    itemOperationsTotal w' = itemOperationsTotal (run_ops logger ops w) /\
    searchRequestsTotal w' = searchRequestsTotal (run_ops logger ops w) /\
    searchResultsCount w' = searchResultsCount (run_ops logger ops w) /\
    stdout w' =
      stdout w ++ map JSONLine (op_records (request_logger logger (request_span w)) ops)
               ++ [AccessLine 500 (Method req) (URLPath req)] /\
    exported w' =
      exported w ++
      (if recording (request_span w)
       then [mkEndedSpan (spanContext (request_span w)) None] else []).
Proof.
  intros Hh.
  unfold gin.handleHTTPRequest, middleware.
  cbn [gin.r_handlers gin.r_path app length]. unfold gin.Next, gin.reset.
  chain_cbn. chain_step. chain_step. chain_step.
  unfold trace.Start. chain_cbn.
  destruct (tracer w) as [gen|] eqn:Htr; [destruct (gen (spanSeq w)) as [t s] eqn:Hgen|];
    chain_cbn; chain_step; chain_step; rewrite loop_cons; znorm; chain_cbn;
    lazymatch goal with
    | |- context [h ?n ?c ?w0] =>
      rewrite (Hh n c w0 _ (lookup_insert_eq _ _ _) eq_refl eq_refl eq_refl)
    end;
    pass_any; chain_cbn; znorm; chain_cbn;
    repeat (rewrite loop_cons; znorm; cbv iota; pass_any; chain_cbn).
  all: (do 2 eexists); (split; [reflexivity|]).
  - pose proof (request_span_on _ _ _ _ Htr Hgen) as Hsp. panic_fields Hsp.
  - pose proof (request_span_off _ Htr) as Hsp. panic_fields Hsp.
Qed.

Lemma search_loop_panics name minPrice items :
  Exists (fun item => ~ item_typed item) items ->
  forall results, exists p, search_loop name minPrice items results = inr p.
Proof.
  induction items as [|item items IH]; intros Hex results; [inversion Hex|].
  cbn [search_loop].
  destruct (item !! "name") as [[| | | |s| | | |]|] eqn:Hn; try (eexists; reflexivity).
  destruct (item !! "price") as [[| | |f| | | | |]|] eqn:Hp; try (eexists; reflexivity).
  apply IH. apply Exists_cons in Hex as [Hbad|Hex]; [|exact Hex].
  exfalso. apply Hbad. split; eauto.
Qed.

Lemma searchItems_panics next c w L p :
  Keys c !! "logger" = Some (VLogger L) ->
  let minPriceStr := gin.DefaultQuery "min_price" "0" c in
  let minPrice := match ParseFloat minPriceStr with
                  | (f, None) => f
                  | (_, Some _) => S754_zero false
                  end in
  let warn := match ParseFloat minPriceStr with
              | (_, None) => []
              | (_, Some e) =>
                [OpLog LevelWarn "Invalid min_price query param"
                   [("min_price", LString minPriceStr); ("error", LError e)]]
              end in
  search_loop (gin.Query "name" c) minPrice (allItems w) [] = inr p ->
  searchItems next c w = Panicked p c (run_ops L ([OpSearchInc] ++ warn) w).
Proof.
  intros HL minPriceStr. cbv zeta.
  unfold searchItems, with_logger. rewrite (getLogger_bound _ _ HL).
  fold minPriceStr.
  destruct (ParseFloat minPriceStr) as [f [e|]]; intros Hloop.
  - unfold slog.Warn. rewrite log_allItems. cbn [allItems searchRequestsTotal_Inc emit set_history
      set_searchRequestsTotal]. rewrite Hloop. reflexivity.
  - cbn [allItems searchRequestsTotal_Inc emit set_history set_searchRequestsTotal].
    rewrite Hloop. reflexivity.
Qed.

(** X9.  If the item list holds an entry that one of the two type
    assertions of [searchItems] rejects, a search panics after
    [search_requests_total] has been incremented.  Gin's recovery answers
    500 with an empty body, and the access line shows it; but the metrics
    middleware, whose recording is not deferred, records nothing: neither
    [http_requests_total] nor the duration histogram changes.  The span
    of the request is still ended, without a status. *)
Theorem X9_search_panic_not_counted (req : Request) (w : World) :
  Method req = "GET" ->
  URLPath req = "/search/" ->
  Exists (fun item => ~ item_typed item) (allItems w) ->
  exists c' w' new,
    gin.ServeHTTP (build_router logger) req w = Done c' w' /\
    Writer c' = mkWriter 500 true [] /\
    httpRequestsTotal w' = httpRequestsTotal w /\
    httpRequestDuration w' = httpRequestDuration w /\
    searchRequestsTotal w' = S (searchRequestsTotal w) /\
    searchResultsCount w' = searchResultsCount w /\
    stdout w' = stdout w ++ new ++ [AccessLine 500 "GET" "/search/"] /\
    exported w' =
      exported w ++
      (if recording (request_span w)
       then [mkEndedSpan (spanContext (request_span w)) None] else []).
Proof.
  intros Hm Hp Hex.
  destruct (search_loop_panics (query_name req) (min_price_of req) _ Hex []) as [p Hloop].
  unfold gin.ServeHTTP. rewrite Hm, Hp, getValue_searchItems.
  destruct (served_panic (build_router logger) "GET" "/search/" searchItems [] req w p
              ([OpSearchInc] ++
               match ParseFloat (query_min_price req) with
               | (_, None) => []
               | (_, Some e) =>
                 [OpLog LevelWarn "Invalid min_price query param"
                    [("min_price", LString (query_min_price req)); ("error", LError e)]]
               end))
    as (c' & w' & Hrun & HW & Hreqs & Hdur & _ & Hsr & Hso & Hout & Hexp).
  - intros next c w0 L HL Hreq _ Hitems.
    assert (Hq : gin.Query "name" c = query_name req)
      by (unfold gin.Query; now rewrite Hreq).
    assert (Hd : gin.DefaultQuery "min_price" "0" c = query_min_price req)
      by (unfold gin.DefaultQuery; now rewrite Hreq).
    rewrite (searchItems_panics next c w0 L p HL).
    + now rewrite Hd.
    + now rewrite Hq, Hd, Hitems.
  - rewrite Hm, Hp in Hout.
    eexists c', w', _. split; [exact Hrun|]. split; [exact HW|].
    split; [exact Hreqs|]. split; [exact Hdur|].
    split; [|split; [|split; [exact Hout | exact Hexp]]].
    + rewrite Hsr. destruct (ParseFloat (query_min_price req)) as [f [e|]];
        domain_cbn; reflexivity.
    + rewrite Hso. destruct (ParseFloat (query_min_price req)) as [f [e|]];
        domain_cbn; reflexivity.
Qed.

End Panic.

(** ** The rest of the state after a request *)

Ltac rest_fields Hsp :=
  split; rewrite ?Hsp; unfold request_logger; chain_cbn;
  rewrite ?run_ops_logfile, ?run_ops_stderr, ?run_ops_spanSeq, ?run_ops_ticks,
    ?run_ops_clock; chain_cbn;
  try reflexivity;
  try (unfold file_records; cbn [sink slog.With]; destruct (sink _); cbn [op_records];
       symmetry; apply app_nil_r).

Section PipelineRest.

Context `{GoLib}.
Variable logger : Logger.

Lemma served_matched_rest (e : gin.Engine) (m fp : string) (h : HandlerFunc)
    (ps : list (string * string)) (req : Request) (w : World)
    (P : list DomainOp -> Reply -> Prop) :
  (forall next c w' L,
      Keys c !! "logger" = Some (VLogger L) -> request c = req -> Params c = ps ->
      Writer c = mkWriter 200 false [] ->
      fakeItemsDB w' = fakeItemsDB w -> allItems w' = allItems w ->
      exists ops rp, P ops rp /\ h next c w' = Done (apply_reply rp c) (run_ops L ops w')) ->
  exists ops rp c' w',
    P ops rp /\
    gin.handleHTTPRequest e (Some (gin.mkRoute m fp (middleware logger ++ [h]), ps)) req w
      = Done c' w' /\
    Served logger req (route_label fp) ([EvCall 5] ++ map op_event ops ++ [EvReturn 5]) ops
      (gin.WriteHeaderNow (reply_writer rp (mkWriter 200 false []))) w c' w' /\
    ServedRest logger ops w w'.
Proof.
  intros Hh.
  unfold gin.handleHTTPRequest, middleware.
  cbn [gin.r_handlers gin.r_path app length]. unfold gin.Next, gin.reset.
  chain_cbn. chain_step. chain_step. chain_step.
  unfold trace.Start. chain_cbn.
  destruct (tracer w) as [gen|] eqn:Htr; [destruct (gen (spanSeq w)) as [t s] eqn:Hgen|];
    chain_cbn; chain_step; chain_step; rewrite loop_cons; znorm; chain_cbn;
    lazymatch goal with
    | |- context [h ?n ?c ?w0] =>
      edestruct (Hh n c w0 _ (lookup_insert_eq _ _ _)) as (ops & rp & HP & Heq);
        [reflexivity .. | rewrite Heq; clear Heq]
    end;
    exists ops, rp;
    rewrite apply_reply_eq; pass_on; chain_cbn; znorm; chain_cbn;
    rewrite ?run_ops_ticks, ?run_ops_clock; chain_cbn;
    repeat (rewrite loop_cons; znorm; cbv iota; pass_on; chain_cbn);
    (do 2 eexists); (split; [exact HP|]); (split; [reflexivity|]).
  - pose proof (request_span_on _ _ _ _ Htr Hgen) as Hsp.
    apply conj; [served_fields Hsp | rest_fields Hsp].
  - pose proof (request_span_off _ Htr) as Hsp.
    apply conj; [served_fields Hsp | rest_fields Hsp].
Qed.

Lemma served_noroute_rest (e : gin.Engine) (req : Request) (w : World) :
  gin.allNoRoute e = middleware logger ->
  exists c' w',
    gin.handleHTTPRequest e None req w = Done c' w' /\
    Served logger req "none" [] [] (mkWriter 404 true [gin.default404Body]) w c' w' /\
    ServedRest logger [] w w'.
Proof.
  intros He.
  unfold gin.handleHTTPRequest. rewrite He. unfold middleware.
  cbn [length]. unfold gin.Next, gin.reset.
  chain_cbn. chain_step. chain_step. chain_step.
  unfold trace.Start. chain_cbn.
  destruct (tracer w) as [gen|] eqn:Htr; [destruct (gen (spanSeq w)) as [t s] eqn:Hgen|];
    chain_cbn; chain_step; chain_step;
    rewrite ?loop_nil; pass_on; chain_cbn;
    repeat (rewrite loop_cons; znorm; cbv iota; pass_on; chain_cbn);
    (do 2 eexists); (split; [reflexivity|]).
  - pose proof (request_span_on _ _ _ _ Htr Hgen) as Hsp.
    apply conj; [served_fields Hsp | rest_fields Hsp].
  - pose proof (request_span_off _ Htr) as Hsp.
    apply conj; [served_fields Hsp | rest_fields Hsp].
Qed.

End PipelineRest.

(** ** What an answer depends on *)

Section Pure.

Context `{GoLib}.
Variable logger : Logger.

Lemma pure_const h ops rp :
  reply_ok rp ->
  (forall next c w L,
      Keys c !! "logger" = Some (VLogger L) ->
      h next c w = Done (apply_reply rp c) (run_ops L ops w)) ->
  handler_pure h.
Proof.
  intros Hrp Hh req ps db items _. exists ops, rp. split; [exact Hrp|].
  intros next c w L HL _ _ _ _. now apply Hh.
Qed.

Lemma readRoot_pure : handler_pure readRoot.
Proof.
  apply (pure_const _ [OpLog LevelInfo "Accessed root endpoint" []]
           (ReplyJSON 200 (H_ [("message", VString "Welcome to the Go application!")]))).
  - cbn; tauto.
  - intros next c w L HL. unfold readRoot, with_logger. now rewrite (getLogger_bound _ _ HL).
Qed.

Lemma getStatus_pure : handler_pure getStatus.
Proof.
  apply (pure_const _ [OpLog LevelInfo "Health check performed" []]
           (ReplyJSON 200 (H_ [("status", VString "healthy"); ("version", VString "1.0")]))).
  - cbn; tauto.
  - intros next c w L HL. unfold getStatus, with_logger. now rewrite (getLogger_bound _ _ HL).
Qed.

Lemma getError500_pure : handler_pure getError500.
Proof.
  apply (pure_const _ [OpLog LevelError "Simulating 500 Internal Server Error" []]
           (ReplyJSON 500 (H_ [("detail", VString "Internal Server Error")]))).
  - cbn; tauto.
  - intros next c w L HL. unfold getError500, with_logger. now rewrite (getLogger_bound _ _ HL).
Qed.

Lemma getError400_pure : handler_pure getError400.
Proof.
  apply (pure_const _ [OpLog LevelWarn "Simulating 400 Bad Request" []]
           (ReplyJSON 400 (H_ [("detail", VString "Bad Request")]))).
  - cbn; tauto.
  - intros next c w L HL. unfold getError400, with_logger. now rewrite (getLogger_bound _ _ HL).
Qed.

Lemma metricsHandler_pure : handler_pure metricsHandler.
Proof. intros req ps db items _. exists [], ReplyRaw. split; [exact I | reflexivity]. Qed.

Lemma readItem_pure : handler_pure readItem.
Proof.
  intros req ps db items _.
  destruct (Atoi (default "" (assoc "item_id" ps))) as [id|err] eqn:Hid;
    [destruct (db !! id) as [item|] eqn:Hdb|].
  - exists [OpLog LevelInfo "Successfully retrieved item" [("item_id", LInt id)];
            OpItemInc ["read"; "success"]],
      (ReplyJSON 200 (VMap (item ∪ {[ "item_id" := VInt id ]}))).
    split; [cbn; tauto|].
    intros next c w L HL _ Hps Hw _. unfold readItem, with_logger, gin.Param.
    now rewrite (getLogger_bound _ _ HL), Hps, Hid, Hw, Hdb.
  - exists [OpLog LevelInfo "Item not found" [("item_id", LInt id)];
            OpItemInc ["read"; "not_found"]],
      (ReplyJSON 404 (H_ [("detail", VString "Item not found")])).
    split; [cbn; tauto|].
    intros next c w L HL _ Hps Hw _. unfold readItem, with_logger, gin.Param.
    now rewrite (getLogger_bound _ _ HL), Hps, Hid, Hw, Hdb.
  - exists [OpLog LevelWarn "Invalid item ID"
              [("item_id", LString (default "" (assoc "item_id" ps))); ("error", LError err)];
            OpItemInc ["read"; "bad_request"]],
      (ReplyJSON 400 (H_ [("detail", VString "Invalid item ID")])).
    split; [cbn; tauto|].
    intros next c w L HL _ Hps Hw _. unfold readItem, with_logger, gin.Param.
    now rewrite (getLogger_bound _ _ HL), Hps, Hid.
Qed.

Lemma createItem_pure : handler_pure createItem.
Proof.
  intros req ps db items _.
  destruct (decodeJSON (Body req)) as [it [e|]] eqn:Hd; [|destruct (validate it) as [e|] eqn:Hv].
  - exists [OpLog LevelWarn "Failed to bind JSON for create item" [("error", LString e)];
            OpItemInc ["create"; "bad_request"]],
      (ReplyJSON 400 (H_ [("detail", VString e)])).
    split; [cbn; tauto|].
    intros next c w L HL Hreq _ _ _.
    rewrite (createItem_run next c w L HL). unfold ShouldBindJSON. now rewrite Hreq, Hd.
  - exists [OpLog LevelWarn "Failed to bind JSON for create item" [("error", LString e)];
            OpItemInc ["create"; "bad_request"]],
      (ReplyJSON 400 (H_ [("detail", VString e)])).
    split; [cbn; tauto|].
    intros next c w L HL Hreq _ _ _.
    rewrite (createItem_run next c w L HL). unfold ShouldBindJSON. now rewrite Hreq, Hd, Hv.
  - exists [OpLog LevelInfo "Item created successfully"
              [("item_name", LString (Name it)); ("item_price", LFloat (Price it))];
            OpItemInc ["create"; "success"]],
      (ReplyJSON 200 (H_ [("message", VString "Item created successfully");
                          ("item", VItem it)])).
    split; [cbn; tauto|].
    intros next c w L HL Hreq _ _ _.
    rewrite (createItem_run next c w L HL). unfold ShouldBindJSON. now rewrite Hreq, Hd, Hv.
Qed.

Lemma searchItems_pure : handler_pure searchItems.
Proof.
  intros req ps db items Hty.
  destruct (search_loop_total (query_name req) (min_price_of req) _ Hty []) as [results Hloop].
  eexists _, (ReplyJSON 200 (H_ [("search_results", VSlice results)])).
  split; [cbn; tauto|].
  intros next c w L HL Hreq _ _ Hitems.
  assert (Hq : gin.Query "name" c = query_name req)
    by (unfold gin.Query; now rewrite Hreq).
  assert (Hd : gin.DefaultQuery "min_price" "0" c = query_min_price req)
    by (unfold gin.DefaultQuery; now rewrite Hreq).
  rewrite (searchItems_run next c w L results HL); [|now rewrite Hq, Hd, Hitems].
  rewrite Hq, Hd. reflexivity.
Qed.

Lemma routes_pure r :
  In r (gin.trees (build_router logger)) ->
  exists m fp h,
    r = gin.mkRoute m fp (middleware logger ++ [h]) /\ handler_pure h /\
    route_label fp = fp.
Proof.
  intros Hin. cbn in Hin.
  repeat (destruct Hin as [<- | Hin]; [do 3 eexists; split; [reflexivity|]; split;
          [ first [ apply metricsHandler_pure | apply readRoot_pure | apply readItem_pure
                  | apply searchItems_pure | apply createItem_pure | apply getStatus_pure
                  | apply getError500_pure | apply getError400_pure ]
          | reflexivity ] | ]).
  destruct Hin.
Qed.

(** One request on the program's router, uniformly in the process state:
    the operations and the response are fixed by the request and the
    stores. *)
Lemma served_uniform value req db items :
  valid_value logger value ->
  Forall item_typed items ->
  exists hev ops W,
    In (status W) [200; 400; 404; 500] /\
    forall w, fakeItemsDB w = db -> allItems w = items ->
      exists c' w',
        gin.handleHTTPRequest (build_router logger) value req w = Done c' w' /\
        Served logger req (route_label (template value)) hev ops W w c' w' /\
        ServedRest logger ops w w'.
Proof.
  intros Hv Hty. destruct value as [[r ps]|]; cbn [valid_value template] in *.
  - destruct (routes_pure r Hv) as (m & fp & h & -> & Hpure & Hlab).
    destruct (Hpure req ps db items Hty) as (ops & rp & Hrp & Hh).
    exists ([EvCall 5] ++ map op_event ops ++ [EvReturn 5]), ops,
      (gin.WriteHeaderNow (reply_writer rp (mkWriter 200 false []))).
    split.
    { destruct rp as [code obj|]; [|cbn; tauto].
      cbn in Hrp. destruct Hrp as [<-|[<-|[<-|[<-|[]]]]]; cbn; tauto. }
    intros w Hdb Hitems.
    destruct (served_matched_rest logger (build_router logger) m fp h ps req w
                (fun ops' rp' => ops' = ops /\ rp' = rp))
      as (ops' & rp' & c' & w' & [-> ->] & Hrun & Hs & Hr).
    + intros next c w0 L HL Hreq Hps _ Hdb0 Hitems0. exists ops, rp. split; [now split|].
      apply Hh; congruence.
    + now exists c', w'.
  - exists [], [], (mkWriter 404 true [gin.default404Body]). split; [cbn; tauto|].
    intros w _ _.
    destruct (served_noroute_rest logger (build_router logger) req w (noroute_chain logger))
      as (c' & w' & Hrun & Hs & Hr).
    now exists c', w'.
Qed.

End Pure.

Section Stateless.

Context `{GoLib}.
Variable logger : Logger.



(** X12.  The three signals of a request agree on its status.  With a
    tracer provider installed, every request run through the chain is
    answered with one of the statuses 200, 400, 404 and 500, and that
    same status is the [http.status_code] of the exported span, the
    status label of the one [http_requests_total] series incremented, and
    the status of Gin's access line. *)
Theorem X12_signals_agree_on_status value (req : Request) (w : World)
    (gen : nat -> positive * positive) :
  valid_value logger value ->
  Forall item_typed (allItems w) ->
  tracer w = Some gen ->
  exists c' w' new,
    gin.handleHTTPRequest (build_router logger) value req w = Done c' w' /\
    In (status (Writer c')) [200; 400; 404; 500] /\
    exported w' =
      exported w ++
      [mkEndedSpan (spanContext (request_span w)) (Some (status (Writer c')))] /\
    httpRequestsTotal w' =
      prometheus.Inc (httpRequestsTotal w)
        [Method req; match value with Some (r, _) => gin.r_path r | None => "none" end;
         Itoa (status (Writer c'))] /\
    stdout w' =
      stdout w ++ new ++ [AccessLine (status (Writer c')) (Method req) (URLPath req)].
Proof.
  intros Hv Hty Htr.
  destruct (served_uniform logger value req (fakeItemsDB w) (allItems w) Hv Hty)
    as (hev & ops & W & HW & Hall).
  destruct (Hall w eq_refl eq_refl) as (c' & w' & Hrun & Hs & _).
  rewrite (label_of_value logger value Hv) in Hs.
  exists c', w', (map JSONLine (op_records (request_logger logger (request_span w)) ops)).
  split; [exact Hrun|].
  rewrite (sv_writer _ _ _ _ _ _ _ _ _ Hs), (sv_exported _ _ _ _ _ _ _ _ _ Hs),
    (sv_requests _ _ _ _ _ _ _ _ _ Hs), (sv_stdout _ _ _ _ _ _ _ _ _ Hs).
  split; [exact HW|].
  destruct (gen (spanSeq w)) as [t s] eqn:Hgen.
  rewrite (request_span_on w gen t s Htr Hgen). cbn [recording spanContext].
  assert (Hpos : (0 <? status W) = true).
  { destruct HW as [<-|[<-|[<-|[<-|[]]]]]; reflexivity. }
  rewrite Hpos. repeat apply conj; reflexivity.
Qed.

End Stateless.

(** ** Requests in sequence *)

Lemma total_insert (m : gmap (list string) nat) lvs v :
  total (<[lvs := v]> m) = (v + total (delete lvs m))%nat.
Proof.
  unfold total. rewrite <- insert_delete_eq.
  rewrite map_fold_insert_L; [reflexivity | intros; cbv beta; lia | apply lookup_delete_eq].
Qed.

Lemma total_Inc (m : gmap (list string) nat) lvs :
  total (prometheus.Inc m lvs) = S (total m).
Proof.
  unfold prometheus.Inc, prometheus.value. rewrite total_insert.
  destruct (m !! lvs) as [v|] eqn:Hm; cbn [default from_option id].
  - pose proof (total_insert m lvs v) as E. rewrite (insert_id m lvs v Hm) in E. lia.
  - now rewrite delete_id.
Qed.

Lemma count_insert (m : gmap (list string) (list float64)) lvs os :
  count (<[lvs := os]> m) = (length os + count (delete lvs m))%nat.
Proof.
  unfold count. rewrite <- insert_delete_eq.
  rewrite map_fold_insert_L; [reflexivity | intros; cbv beta; lia | apply lookup_delete_eq].
Qed.

Lemma count_Observe (m : gmap (list string) (list float64)) lvs v :
  count (prometheus.Observe m lvs v) = S (count m).
Proof.
  unfold prometheus.Observe, prometheus.observations. rewrite count_insert, length_app.
  cbn [length].
  destruct (m !! lvs) as [os|] eqn:Hm; cbn [default from_option id length].
  - pose proof (count_insert m lvs os) as E. rewrite (insert_id m lvs os Hm) in E. lia.
  - rewrite delete_id by exact Hm. lia.
Qed.

Section Sequence.

Context `{GoLib}.
Variable logger : Logger.

Lemma same_answer (a : Arrival) w1 w2 :
  valid_value logger (fst a) ->
  Forall item_typed (allItems w1) ->
  fakeItemsDB w2 = fakeItemsDB w1 -> allItems w2 = allItems w1 ->
  exists W,
    answer (serve (build_router logger) a w1) = Some W /\
    answer (serve (build_router logger) a w2) = Some W.
Proof.
  intros Hv Hty Hdb Hitems. unfold serve.
  destruct (served_uniform logger (fst a) (snd a) (fakeItemsDB w1) (allItems w1) Hv Hty)
    as (hev & ops & W & HW & Hall).
  destruct (Hall w1 eq_refl eq_refl) as (c1 & w1' & Hrun1 & Hs1 & _).
  destruct (Hall w2 Hdb Hitems) as (c2 & w2' & Hrun2 & Hs2 & _).
  exists W. rewrite Hrun1, Hrun2. cbn [answer].
  now rewrite (sv_writer _ _ _ _ _ _ _ _ _ Hs1), (sv_writer _ _ _ _ _ _ _ _ _ Hs2).
Qed.

Lemma serve_step (a : Arrival) w :
  valid_value logger (fst a) ->
  Forall item_typed (allItems w) ->
  exists hev ops W c' w',
    serve (build_router logger) a w = Done c' w' /\
    Served logger (snd a) (route_label (template (fst a))) hev ops W w c' w'.
Proof.
  intros Hv Hty. unfold serve.
  destruct (served_any logger (fst a) (snd a) w Hv Hty)
    as (hev & ops & W & c' & w' & Hrun & Hs & _).
  now exists hev, ops, W, c', w'.
Qed.

Lemma serve_all_cons e a rest w :
  serve_all e (a :: rest) w =
  (answer (serve e a w) :: fst (serve_all e rest (state_after (serve e a w))),
   snd (serve_all e rest (state_after (serve e a w)))).
Proof. cbn [serve_all]. now destruct (serve_all e rest _). Qed.

Lemma filter_access_records (rs : list LogRecord) :
  List.filter is_access_line (map JSONLine rs) = [].
Proof. induction rs as [|r rs IH]; [reflexivity | exact IH]. Qed.

(** What a sequence of arrivals leaves behind. *)
Lemma serve_all_spec (reqs : list Arrival) : forall w,
  Forall (fun a => valid_value logger (fst a)) reqs ->
  Forall item_typed (allItems w) ->
  let res := serve_all (build_router logger) reqs w in
  (fst res = map (fun a => answer (serve (build_router logger) a w)) reqs /\
   Forall (fun r => r <> None) (fst res)) /\
  (fakeItemsDB (snd res) = fakeItemsDB w /\ allItems (snd res) = allItems w) /\
  total (httpRequestsTotal (snd res)) = (total (httpRequestsTotal w) + length reqs)%nat /\
  count (httpRequestDuration (snd res)) = (count (httpRequestDuration w) + length reqs)%nat /\
  length (List.filter is_access_line (stdout (snd res))) =
    (length (List.filter is_access_line (stdout w)) + length reqs)%nat.
Proof.
  cbv zeta. induction reqs as [|a rest IH]; intros w Hvs Hty.
  - cbn. repeat split; try lia. apply Forall_nil; exact I.
  - apply Forall_cons in Hvs as [Hv Hvs].
    rewrite serve_all_cons. cbn [fst snd map length].
    destruct (serve_step a w Hv Hty) as (hev & ops & W & c' & w' & Hrun & Hs).
    pose proof (sv_db _ _ _ _ _ _ _ _ _ Hs) as Hdb.
    pose proof (sv_items _ _ _ _ _ _ _ _ _ Hs) as Hitems.
    rewrite Hrun. cbn [state_after answer].
    assert (Hty' : Forall item_typed (allItems w')) by now rewrite Hitems.
    destruct (IH w' Hvs Hty') as ((Hans & Hall) & (Hdb' & Hitems') & Ht & Hc & Hl).
    rewrite Ht, Hc, Hl.
    rewrite (sv_requests _ _ _ _ _ _ _ _ _ Hs), (sv_duration _ _ _ _ _ _ _ _ _ Hs),
      (sv_stdout _ _ _ _ _ _ _ _ _ Hs), total_Inc, count_Observe.
    rewrite !List.filter_app, filter_access_records, !length_app.
    cbn [List.filter is_access_line length app].
    split; [split|split; [split; congruence|repeat split; lia]].
    + f_equal. rewrite Hans. apply map_ext_in. intros a0 Hin.
      assert (Hv0 : valid_value logger (fst a0))
        by (exact (proj1 (List.Forall_forall _ _) Hvs a0 Hin)).
      destruct (same_answer a0 w w' Hv0 Hty Hdb Hitems) as (W0 & E1 & E2). congruence.
    + apply Forall_cons. split; [discriminate | exact Hall].
Qed.


(** X14.  The request metrics count the requests that reach the chain:
    after [n] of them, served one after the other (on any route or on
    the 404 chain, with any status), [http_requests_total] summed over
    all its series has grown by [n], the duration histogram has [n] more
    observations over all its series, and Gin has printed [n] more
    access lines. *)
Theorem X14_request_metrics_count_requests (reqs : list Arrival) (w : World) :
  Forall (fun a => valid_value logger (fst a)) reqs ->
  Forall item_typed (allItems w) ->
  let w' := snd (serve_all (build_router logger) reqs w) in
  total (httpRequestsTotal w') = (total (httpRequestsTotal w) + length reqs)%nat /\
  count (httpRequestDuration w') = (count (httpRequestDuration w) + length reqs)%nat /\
  length (List.filter is_access_line (stdout w')) =
    (length (List.filter is_access_line (stdout w)) + length reqs)%nat.
Proof.
  intros Hvs Hty.
  destruct (serve_all_spec reqs w Hvs Hty) as (_ & _ & Ht & Hc & Hl).
  cbv zeta. split; [exact Ht|]. split; [exact Hc | exact Hl].
Qed.

End Sequence.

(** ** The log file, unmatched requests, the fixed handlers *)

Section Misc.

Context `{GoLib}.

(** X15.  With the logger of the file-logging variant, the log file
    receives exactly the JSON records a request writes to standard
    output, in the same order, and not the access line of Gin; nothing
    goes to standard error. *)
Theorem X15_log_file_mirrors_records (env : Env) (logger : Logger) value (req : Request)
    (w : World) :
  main_file.newSlogLogger env = inl logger ->
  valid_value logger value ->
  Forall item_typed (allItems w) ->
  exists c' w' rs,
    gin.handleHTTPRequest (build_router logger) value req w = Done c' w' /\
    logfile w' = logfile w ++ rs /\
    stdout w' =
      stdout w ++ map JSONLine rs
               ++ [AccessLine (status (Writer c')) (Method req) (URLPath req)] /\
    stderr w' = stderr w.
Proof.
  intros Hlog Hv Hty.
  assert (Hsink : sink logger = StdoutAndFile).
  { unfold main_file.newSlogLogger in Hlog.
    destruct (mkdirAll env); [discriminate|].
    destruct (openFile env); [discriminate|]. now injection Hlog as <-. }
  destruct (served_uniform logger value req (fakeItemsDB w) (allItems w) Hv Hty)
    as (hev & ops & W & HW & Hall).
  destruct (Hall w eq_refl eq_refl) as (c' & w' & Hrun & Hs & Hr).
  exists c', w', (op_records (request_logger logger (request_span w)) ops).
  split; [exact Hrun|].
  rewrite (sr_logfile _ _ _ _ Hr), (sr_stderr _ _ _ _ Hr),
    (sv_stdout _ _ _ _ _ _ _ _ _ Hs), (sv_writer _ _ _ _ _ _ _ _ _ Hs).
  split; [|split; reflexivity].
  unfold file_records, request_logger.
  destruct (IsValid _); cbn [slog.With sink]; now rewrite Hsink.
Qed.

Variable logger : Logger.

(** X16.  A request the router has no route for is answered 404 with
    Gin's default body, after running through all the middleware: it is
    counted under the handler label "none", its span (if any) is ended
    with status 404, the access line is printed; no JSON record is
    written and no domain collector is touched. *)
Theorem X16_unmatched_request (req : Request) (w : World) :
  exists c' w',
    gin.handleHTTPRequest (build_router logger) None req w = Done c' w' /\
    Writer c' = mkWriter 404 true [VString "404 page not found"] /\
    httpRequestsTotal w' =
      prometheus.Inc (httpRequestsTotal w) [Method req; "none"; "404"] /\
    stdout w' = stdout w ++ [AccessLine 404 (Method req) (URLPath req)] /\
    exported w' =
      exported w ++
      (if recording (request_span w)
       then [mkEndedSpan (spanContext (request_span w)) (Some 404)] else []) /\
    itemOperationsTotal w' = itemOperationsTotal w /\
    searchRequestsTotal w' = searchRequestsTotal w /\
    searchResultsCount w' = searchResultsCount w.
Proof.
  destruct (served_noroute logger (build_router logger) req w (noroute_chain logger))
    as (c' & w' & Hrun & Hs).
  exists c', w'. split; [exact Hrun|].
  rewrite (sv_writer _ _ _ _ _ _ _ _ _ Hs), (sv_requests _ _ _ _ _ _ _ _ _ Hs),
    (sv_stdout _ _ _ _ _ _ _ _ _ Hs), (sv_exported _ _ _ _ _ _ _ _ _ Hs),
    (sv_itemOps _ _ _ _ _ _ _ _ _ Hs), (sv_searchReq _ _ _ _ _ _ _ _ _ Hs),
    (sv_searchRes _ _ _ _ _ _ _ _ _ Hs).
  repeat apply conj; reflexivity.
Qed.

Lemma getValue_fixed path a :
  fixed_answer path = Some a ->
  exists h,
    gin.getValue (gin.trees (build_router logger)) "GET" path =
      Some (gin.mkRoute "GET" path (middleware logger ++ [h]), []) /\
    forall next c w L,
      Keys c !! "logger" = Some (VLogger L) ->
      h next c w =
      Done (gin.JSON (fst (fst (fst a))) (snd a) c)
           (run_ops L [OpLog (snd (fst (fst a))) (snd (fst a)) []] w).
Proof.
  unfold fixed_answer.
  destruct (String.eqb path "/") eqn:E1;
    [|destruct (String.eqb path "/status") eqn:E2;
      [|destruct (String.eqb path "/error-500") eqn:E3;
        [|destruct (String.eqb path "/error-400") eqn:E4; [|discriminate]]]];
    intros [= <-];
    lazymatch goal with
    | E : String.eqb path _ = true |- _ => apply String.eqb_eq in E; subst path
    end.
  - exists readRoot. split; [reflexivity|]. intros next c w L HL.
    unfold readRoot, with_logger. now rewrite (getLogger_bound _ _ HL).
  - exists getStatus. split; [reflexivity|]. intros next c w L HL.
    unfold getStatus, with_logger. now rewrite (getLogger_bound _ _ HL).
  - exists getError500. split; [reflexivity|]. intros next c w L HL.
    unfold getError500, with_logger. now rewrite (getLogger_bound _ _ HL).
  - exists getError400. split; [reflexivity|]. intros next c w L HL.
    unfold getError400, with_logger. now rewrite (getLogger_bound _ _ HL).
Qed.

(** X17.  [GET /], [/status], [/error-500] and [/error-400] answer with
    their fixed status and body whatever the query, the body or the state;
    each writes exactly one JSON record, at INFO, INFO, ERROR and WARN,
    touches no domain collector, and -- the simulated errors included,
    since their handlers return normally -- is counted in
    [http_requests_total] under its own path and status. *)
Theorem X17_fixed_handlers (req : Request) (w : World) (code : Z) (lv : Level) (m : string)
    (obj : any) :
  Method req = "GET" ->
  fixed_answer (URLPath req) = Some (code, lv, m, obj) ->
  exists c' w',
    gin.ServeHTTP (build_router logger) req w = Done c' w' /\
    Writer c' = mkWriter code true [obj] /\
    stdout w' =
      stdout w ++
      [JSONLine (mkRecord lv m (attrs (request_logger logger (request_span w))));
       AccessLine code "GET" (URLPath req)] /\
    httpRequestsTotal w' =
      prometheus.Inc (httpRequestsTotal w) ["GET"; URLPath req; Itoa code] /\
    itemOperationsTotal w' = itemOperationsTotal w /\
    searchRequestsTotal w' = searchRequestsTotal w /\
    searchResultsCount w' = searchResultsCount w.
Proof.
  intros Hm Hfix. unfold gin.ServeHTTP. rewrite Hm.
  destruct (getValue_fixed _ _ Hfix) as (h & -> & Hh). cbn [fst snd] in Hh.
  assert (Hcode : code = 200 \/ code = 500 \/ code = 400).
  { unfold fixed_answer in Hfix.
    repeat (destruct (String.eqb (URLPath req) _); [injection Hfix as <- _ _ _; tauto|]).
    discriminate. }
  assert (Hlab : route_label (URLPath req) = URLPath req).
  { unfold route_label. destruct (String.eqb (URLPath req) "") eqn:E; [|reflexivity].
    apply String.eqb_eq in E. rewrite E in Hfix. discriminate Hfix. }
  destruct (served_matched logger (build_router logger) "GET" (URLPath req) h [] req w
              (fun ops rp => ops = [OpLog lv m []] /\ rp = ReplyJSON code obj))
    as (ops & rp & c' & w' & [-> ->] & Hrun & Hs).
  - intros next c w0 L HL _ _ _ _ _. do 2 eexists. split; [split; reflexivity|].
    now apply Hh.
  - exists c', w'. split; [exact Hrun|]. rewrite Hlab in Hs.
    rewrite (sv_writer _ _ _ _ _ _ _ _ _ Hs), (sv_requests _ _ _ _ _ _ _ _ _ Hs),
      (sv_stdout _ _ _ _ _ _ _ _ _ Hs), (sv_itemOps _ _ _ _ _ _ _ _ _ Hs),
      (sv_searchReq _ _ _ _ _ _ _ _ _ Hs), (sv_searchRes _ _ _ _ _ _ _ _ _ Hs), Hm.
    cbn [op_records map app]. rewrite app_nil_r.
    destruct Hcode as [->|[->| ->]]; repeat apply conj; domain_cbn; reflexivity.
Qed.

(** X18.  A scrape is a request like any other: [GET /metrics] runs
    through the same middleware as the API routes, so each scrape adds
    one to [http_requests_total{GET,/metrics,200}] and one observation to
    the duration histogram under (GET, /metrics), prints an access line
    and, with a tracer provider installed, exports a span; it writes no
    JSON record and touches no domain collector. *)
Theorem X18_metrics_scrape_is_counted (req : Request) (w : World) :
  Method req = "GET" ->
  URLPath req = "/metrics" ->
  exists c' w' d,
    gin.ServeHTTP (build_router logger) req w = Done c' w' /\
    status (Writer c') = 200 /\
    httpRequestsTotal w' =
      prometheus.Inc (httpRequestsTotal w) ["GET"; "/metrics"; "200"] /\
    httpRequestDuration w' =
      prometheus.Observe (httpRequestDuration w) ["GET"; "/metrics"] d /\
    stdout w' = stdout w ++ [AccessLine 200 "GET" "/metrics"] /\
    exported w' =
      exported w ++
      (if recording (request_span w)
       then [mkEndedSpan (spanContext (request_span w)) (Some 200)] else []) /\
    itemOperationsTotal w' = itemOperationsTotal w /\
    searchRequestsTotal w' = searchRequestsTotal w /\
    searchResultsCount w' = searchResultsCount w.
Proof.
  intros Hm Hp. unfold gin.ServeHTTP. rewrite Hm, Hp.
  change (gin.getValue (gin.trees (build_router logger)) "GET" "/metrics")
    with (Some (gin.mkRoute "GET" "/metrics" (middleware logger ++ [metricsHandler]),
                @nil (string * string))).
  destruct (served_matched logger (build_router logger) "GET" "/metrics" metricsHandler [] req w
              (fun ops rp => ops = [] /\ rp = ReplyRaw))
    as (ops & rp & c' & w' & [-> ->] & Hrun & Hs).
  - intros next c w0 L _ _ _ _ _ _. exists [], ReplyRaw. split; [split|]; reflexivity.
  - exists c', w', (time.Seconds (clock w (S (S (ticks w))) - clock w (S (ticks w)))).
    split; [exact Hrun|].
    rewrite (sv_writer _ _ _ _ _ _ _ _ _ Hs), (sv_requests _ _ _ _ _ _ _ _ _ Hs),
      (sv_duration _ _ _ _ _ _ _ _ _ Hs), (sv_stdout _ _ _ _ _ _ _ _ _ Hs),
      (sv_exported _ _ _ _ _ _ _ _ _ Hs), (sv_itemOps _ _ _ _ _ _ _ _ _ Hs),
      (sv_searchReq _ _ _ _ _ _ _ _ _ Hs), (sv_searchRes _ _ _ _ _ _ _ _ _ Hs), Hm, Hp.
    repeat apply conj; reflexivity.
Qed.

(** X19.  Whatever the context held under the key ["logger"] -- nothing,
    a logger, or a value of another type, on which [getLogger] would
    panic -- in the context [structuredLogMiddleware] hands on,
    [getLogger] returns a logger: the base logger's sink and attributes,
    followed by [trace_id] and [span_id] exactly when the span of the
    request is valid.  Every other key and the response writer are
    handed on unchanged. *)
Theorem X19_middleware_binds_logger (next : Context -> World -> Res) (c : Context) (w : World) :
  exists c1 w1 l,
    structuredLogMiddleware logger next c w = next c1 w1 /\
    getLogger c1 = inl l /\
    sink l = sink logger /\
    attrs l =
      attrs logger ++
      (if IsValid (spanContext (reqSpan c))
       then [("trace_id", LString (trace.TraceID_String (spanContext (reqSpan c))));
             ("span_id", LString (trace.SpanID_String (spanContext (reqSpan c))))]
       else []) /\
    (forall key, key <> "logger" -> Keys c1 !! key = Keys c !! key) /\
    Writer c1 = Writer c /\ request c1 = request c /\ reqSpan c1 = reqSpan c.
Proof.
  rewrite structuredLogMiddleware_eq. do 3 eexists. split; [reflexivity|].
  split; [apply getLogger_bound; cbn [Keys set_Keys]; apply lookup_insert_eq|].
  unfold request_logger.
  destruct (IsValid (spanContext (reqSpan c))); cbn [slog.With sink attrs];
    (split; [reflexivity|]); (split; [now rewrite ?app_nil_r|]);
    (split; [intros key Hkey; cbn [Keys set_Keys]; now apply lookup_insert_ne
            | repeat split]).
Qed.

End Misc.

(** ** Start-up of [main.go], and the process from its start *)

Section StartupGo.

Context `{GoLib}.

Lemma initTracer_success env w :
  fst (initTracer env w) = None ->
  snd (initTracer env w) = set_tracer (Some (idgen env)) w /\
  dial env = None /\ newExporter env = None /\ newResource env = None.
Proof.
  unfold initTracer.
  destruct (dial env); [discriminate|].
  destruct (newExporter env); [discriminate|].
  destruct (newResource env); [discriminate|]. now intros _.
Qed.










Lemma total_empty : total ∅ = 0%nat.
Proof. reflexivity. Qed.

Lemma count_empty : count ∅ = 0%nat.
Proof. reflexivity. Qed.




End StartupGo.

(** ** The further properties at concrete inputs *)

Lemma X1_read_item_not_found_witness :
  Atoi "42" = inl 42 /\
  fakeItemsDB demo_world !! 42 = None /\
  exists c' w',
    gin.ServeHTTP demo_router (demo_read "42") demo_world = Done c' w' /\
    Writer c' = mkWriter 404 true [H_ [("detail", VString "Item not found")]] /\
    prometheus.value (itemOperationsTotal w') ["read"; "not_found"] = 1%nat.
Proof.
  split; [reflexivity|]. split; [reflexivity|].
  destruct (X1_read_item_not_found (H := scenario_lib) main_go.newSlogLogger (demo_read "42")
              "42" 42 demo_world eq_refl eq_refl eq_refl eq_refl)
    as (c' & w' & Hrun & HW & Hinc & _).
  exists c', w'. split; [exact Hrun|]. split; [exact HW|]. rewrite Hinc. reflexivity.
Defined.

Lemma X2_read_item_bad_id_witness :
  no_slash "abc" = true /\
  Atoi "abc" = inr "strconv.Atoi: parsing: invalid syntax" /\
  exists c' w',
    gin.ServeHTTP demo_router (demo_read "abc") demo_world = Done c' w' /\
    Writer c' = mkWriter 400 true [H_ [("detail", VString "Invalid item ID")]] /\
    prometheus.value (itemOperationsTotal w') ["read"; "bad_request"] = 1%nat.
Proof.
  split; [reflexivity|]. split; [reflexivity|].
  destruct (X2_read_item_bad_id (H := scenario_lib) main_go.newSlogLogger (demo_read "abc")
              "abc" _ demo_world eq_refl eq_refl eq_refl ltac:(discriminate) eq_refl)
    as (c' & w' & Hrun & HW & Hinc & _).
  exists c', w'. split; [exact Hrun|]. split; [exact HW|]. rewrite Hinc. reflexivity.
Defined.

Lemma X3_read_item_found_witness :
  Atoi "2" = inl 2 /\
  fakeItemsDB demo_world !! 2 = Some (item_of "mouse" 25) /\
  exists c' w' m,
    gin.ServeHTTP demo_router (demo_read "2") demo_world = Done c' w' /\
    Writer c' = mkWriter 200 true [VMap m] /\
    m !! "name" = Some (VString "mouse") /\
    m !! "item_id" = Some (VInt 2).
Proof.
  split; [reflexivity|]. split; [reflexivity|].
  destruct (X3_read_item_found (H := scenario_lib) main_go.newSlogLogger (demo_read "2")
              "2" 2 (item_of "mouse" 25) demo_world eq_refl eq_refl eq_refl eq_refl)
    as (c' & w' & m & Hrun & HW & Hin & _ & Hid & _).
  exists c', w', m. split; [exact Hrun|]. split; [exact HW|].
  split; [apply Hin | apply Hid]; reflexivity.
Defined.

Lemma X4_create_item_accepted_iff_witness :
  exists c' w',
    gin.ServeHTTP demo_router demo_create_ok demo_world = Done c' w' /\
    Writer c' =
      mkWriter 200 true
        [H_ [("message", VString "Item created successfully");
             ("item", VItem (mkItem "tablet" (float64_of_int 450) None))]] /\
    prometheus.value (itemOperationsTotal w') ["create"; "success"] = 1%nat.
Proof.
  destruct (X4_create_item_accepted_iff (H := scenario_lib) main_go.newSlogLogger demo_create_ok
              demo_world eq_refl eq_refl)
    as (c' & w' & Hrun & Hyes & _).
  destruct Hyes as [HW Hinc].
  { split; [reflexivity|]. split; [discriminate | reflexivity]. }
  exists c', w'. split; [exact Hrun|]. split; [exact HW|]. rewrite Hinc. reflexivity.
Defined.

Lemma X5_create_item_zero_price_witness :
  ParseFloat_digits "0" = (S754_zero false, None) /\
  exists c0 w0 c1 w1,
    gin.ServeHTTP demo_router demo_create_free demo_world = Done c0 w0 /\
    gin.ServeHTTP demo_router demo_create_unpriced demo_world = Done c1 w1 /\
    Writer c0 = mkWriter 400 true [H_ [("detail", VString price_required)]] /\
    Writer c1 = Writer c0.
Proof.
  split; [reflexivity|].
  destruct (X5_create_item_zero_price (H := scenario_lib) main_go.newSlogLogger
              demo_create_free demo_create_unpriced "sample" "0" demo_world
              eq_refl eq_refl eq_refl eq_refl eq_refl eq_refl ltac:(discriminate) eq_refl)
    as (c0 & w0 & c1 & w1 & Hrun0 & Hrun1 & HW0 & HW1 & _).
  exists c0, w0, c1, w1. repeat apply conj; assumption.
Defined.

Lemma X6_search_selects_witness :
  Forall item_typed (allItems demo_world) /\
  exists c' w',
    gin.ServeHTTP demo_router (demo_search "o" "100") demo_world = Done c' w' /\
    Writer c' =
      mkWriter 200 true
        [H_ [("search_results", VSlice [item_of "laptop" 1200; item_of "monitor" 300])]] /\
    searchResultsCount w' = [float64_of_int 2].
Proof.
  split; [exact allItems_init_typed|].
  destruct (X6_search_selects (H := scenario_lib) main_go.newSlogLogger (demo_search "o" "100")
              demo_world eq_refl eq_refl allItems_init_typed)
    as (c' & w' & Hrun & HW & _ & Hobs & _).
  exists c', w'. split; [exact Hrun|]. split; [rewrite HW | rewrite Hobs]; reflexivity.
Defined.

Lemma X7_search_nan_min_price_witness :
  @ParseFloat nan_lib "NaN" = (S754_nan, None) /\
  exists c' w',
    gin.ServeHTTP (@build_router nan_lib main_go.newSlogLogger) (demo_search "laptop" "NaN")
      demo_world = Done c' w' /\
    Writer c' = mkWriter 200 true [H_ [("search_results", VSlice [])]] /\
    searchResultsCount w' = [float64_of_int 0].
Proof.
  split; [reflexivity|].
  destruct (X7_search_nan_min_price (H := nan_lib) main_go.newSlogLogger
              (demo_search "laptop" "NaN") demo_world eq_refl eq_refl allItems_init_typed
              eq_refl)
    as (c' & w' & Hrun & HW & Hobs & _).
  exists c', w'. split; [exact Hrun|]. split; [exact HW | exact Hobs].
Defined.

Lemma X8_search_case_insensitive_witness :
  ToLower_ascii "LapTop" = ToLower_ascii "laptop" /\
  exists c1 w1 c2 w2,
    gin.ServeHTTP demo_router (demo_search "LapTop" "100") demo_world = Done c1 w1 /\
    gin.ServeHTTP demo_router (demo_search "laptop" "100") demo_world = Done c2 w2 /\
    Writer c1 = Writer c2.
Proof.
  split; [reflexivity|].
  exact (X8_search_case_insensitive (H := scenario_lib) main_go.newSlogLogger
           (demo_search "LapTop" "100") (demo_search "laptop" "100") demo_world
           eq_refl eq_refl eq_refl eq_refl allItems_init_typed eq_refl
           ltac:(discriminate) ltac:(discriminate) eq_refl).
Defined.

Lemma demo_untyped_bad : Exists (fun item => ~ item_typed item) (allItems demo_untyped).
Proof.
  apply Exists_cons. right. apply Exists_cons. left.
  intros [_ [f Hf]]. vm_compute in Hf. discriminate Hf.
Qed.

Lemma X9_search_panic_not_counted_witness :
  Exists (fun item => ~ item_typed item) (allItems demo_untyped) /\
  exists c' w',
    gin.ServeHTTP demo_router (demo_search "" "0") demo_untyped = Done c' w' /\
    Writer c' = mkWriter 500 true [] /\
    httpRequestsTotal w' = ∅ /\
    searchRequestsTotal w' = 1%nat.
Proof.
  split; [exact demo_untyped_bad|].
  destruct (X9_search_panic_not_counted (H := scenario_lib) main_go.newSlogLogger
              (demo_search "" "0") demo_untyped eq_refl eq_refl demo_untyped_bad)
    as (c' & w' & new & Hrun & HW & Hreqs & _ & Hsr & _).
  exists c', w'. split; [exact Hrun|]. split; [exact HW|]. split; [exact Hreqs | exact Hsr].
Defined.



Lemma demo_arrivals_valid :
  Forall (fun a : Arrival => @valid_value scenario_lib main_go.newSlogLogger (fst a))
    demo_arrivals.
Proof.
  repeat (apply Forall_cons; split; [apply (getValue_valid (H := scenario_lib))|]).
  apply Forall_nil; exact I.
Qed.


Lemma X14_request_metrics_count_requests_witness :
  Forall item_typed (allItems demo_world) /\
  total (httpRequestsTotal (snd (serve_all demo_router demo_arrivals demo_world))) =
    (total (httpRequestsTotal demo_world) + length demo_arrivals)%nat.
Proof.
  split; [exact allItems_init_typed|].
  exact (proj1 (X14_request_metrics_count_requests (H := scenario_lib) main_go.newSlogLogger
                  demo_arrivals demo_world demo_arrivals_valid allItems_init_typed)).
Defined.

Lemma X15_log_file_mirrors_records_witness :
  @main_file.newSlogLogger demo_env_ok = inl (mkLogger StdoutAndFile []) /\
  exists c' w' rs,
    gin.ServeHTTP (@build_router scenario_lib (mkLogger StdoutAndFile [])) (demo_read "1")
      demo_world = Done c' w' /\
    logfile w' = rs /\
    stdout w' = map JSONLine rs ++ [AccessLine (status (Writer c')) "GET" "/items/1"].
Proof.
  split; [reflexivity|].
  destruct (X15_log_file_mirrors_records (H := scenario_lib) demo_env_ok
              (mkLogger StdoutAndFile [])
              (gin.getValue (gin.trees (@build_router scenario_lib (mkLogger StdoutAndFile [])))
                 "GET" "/items/1")
              (demo_read "1") demo_world eq_refl (getValue_valid _ _ _) allItems_init_typed)
    as (c' & w' & rs & Hrun & Hfile & Hout & _).
  exists c', w', rs. split; [exact Hrun|]. split; [exact Hfile | exact Hout].
Defined.

Lemma X17_fixed_handlers_witness :
  exists c' w',
    gin.ServeHTTP demo_router (mkRequest "GET" "/error-500" [("x", "1")] None) demo_world
      = Done c' w' /\
    Writer c' = mkWriter 500 true [H_ [("detail", VString "Internal Server Error")]] /\
    httpRequestsTotal w' = prometheus.Inc ∅ ["GET"; "/error-500"; "500"].
Proof.
  destruct (X17_fixed_handlers (H := scenario_lib) main_go.newSlogLogger
              (mkRequest "GET" "/error-500" [("x", "1")] None) demo_world _ _ _ _
              eq_refl eq_refl)
    as (c' & w' & Hrun & HW & _ & Hreqs & _).
  exists c', w'. split; [exact Hrun|]. split; [exact HW | exact Hreqs].
Defined.


Lemma X12_signals_agree_on_status_witness :
  Forall item_typed (allItems demo_traced) /\
  tracer demo_traced = Some (fun n => (Pos.of_succ_nat n, 7%positive)) /\
  exists c' w',
    gin.ServeHTTP demo_router (mkRequest "GET" "/error-400" [] None) demo_traced
      = Done c' w' /\
    exported w' =
      exported demo_traced ++
      [mkEndedSpan (spanContext (request_span demo_traced)) (Some (status (Writer c')))].
Proof.
  split; [exact allItems_init_typed|]. split; [reflexivity|].
  destruct (X12_signals_agree_on_status (H := scenario_lib) main_go.newSlogLogger
              (gin.getValue (gin.trees demo_router) "GET" "/error-400")
              (mkRequest "GET" "/error-400" [] None) demo_traced _
              (getValue_valid _ _ _) allItems_init_typed eq_refl)
    as (c' & w' & new & Hrun & _ & Hexp & _).
  exists c', w'. split; [exact Hrun | exact Hexp].
Defined.


Lemma X18_metrics_scrape_is_counted_witness :
  exists c' w',
    gin.ServeHTTP demo_router (mkRequest "GET" "/metrics" [] None) demo_world = Done c' w' /\
    status (Writer c') = 200 /\
    httpRequestsTotal w' = prometheus.Inc ∅ ["GET"; "/metrics"; "200"].
Proof.
  destruct (X18_metrics_scrape_is_counted (H := scenario_lib) main_go.newSlogLogger
              (mkRequest "GET" "/metrics" [] None) demo_world eq_refl eq_refl)
    as (c' & w' & d & Hrun & Hst & Hreqs & _).
  exists c', w'. split; [exact Hrun|]. split; [exact Hst | exact Hreqs].
Defined.
